(** * The answer pipeline of the search agent, embedded in Rocq

    A shallow embedding of the pipeline stages under
    [backend/app/agent/nodes/]: the URL normaliser and matcher and the
    ranking stage ([prioritize.py]), the search stage ([search.py]), the
    synthesis stage ([synthesize.py]), the image enrichment stage
    ([enrich_images.py]) and the output formatter ([format_output.py]);
    the graph that chains them ([backend/app/agent/graph.py]) and the
    related-questions endpoint ([backend/app/api/main.py]).

    Conventions.
    - A Python [str] is a [string]; the model is exact for code points
      below 128 (case mapping and white space of other code points are
      left alone).
    - A Python exception is a value of [exn]; a stage that mutates its
      state and then raises is a [Propagated] outcome carrying the state
      as the exception left it.
    - The outside world (HTTP transport, LLM completion, [json.loads],
      [urlparse], the clock) is an explicit argument of the stage that
      consults it. *)

From Stdlib Require Import ZArith Floats Ascii String List Bool Lia Permutation Sorted.
From stdpp Require Import base option list gmap strings.

Set Warnings "-register-all,-clear-no-such-hyp".

Local Open Scope string_scope.
Local Open Scope Z_scope.

(** ** Python string primitives *)

Module Py.

Definition code (c : ascii) : nat := nat_of_ascii c.

(** [str.lower] on one code point below 128: [A]..[Z] move down by 32.
    Code points of 128 and above are left as they are, where Python maps
    some of them, one (U+0130) to two code points: a fact about the
    length of a lower-cased string is stated of ASCII text. *)
Definition lower_char (c : ascii) : ascii :=
  if ((65 <=? code c)%nat && (code c <=? 90)%nat)%bool
  then ascii_of_nat (code c + 32) else c.

Fixpoint lower (s : string) : string :=
  match s with
  | EmptyString => EmptyString
  | String c s' => String (lower_char c) (lower s')
  end.

(** White space as [str.strip] with no argument sees it below 128:
    TAB, LF, VT, FF, CR, the separators FS..US and the space. *)
Definition is_space (c : ascii) : bool :=
  ((9 <=? code c)%nat && (code c <=? 13)%nat
   || (28 <=? code c)%nat && (code c <=? 32)%nat)%bool.

Definition is_slash (c : ascii) : bool := (code c =? 47)%nat.

Fixpoint lstrip_by (p : ascii -> bool) (s : string) : string :=
  match s with
  | EmptyString => EmptyString
  | String c s' => if p c then lstrip_by p s' else s
  end.

Fixpoint rstrip_by (p : ascii -> bool) (s : string) : string :=
  match s with
  | EmptyString => EmptyString
  | String c s' =>
      match rstrip_by p s' with
      | EmptyString => if p c then EmptyString else String c EmptyString
      | r => String c r
      end
  end.

(** [s.strip()] *)
Definition strip (s : string) : string :=
  rstrip_by is_space (lstrip_by is_space s).

(** [s.startswith(p)] *)
Definition startswith (p s : string) : bool := String.prefix p s.

(** [s[n:]] for a non-negative [n] *)
Fixpoint drop (n : nat) (s : string) : string :=
  match n, s with
  | O, _ => s
  | S _, EmptyString => EmptyString
  | S n', String _ s' => drop n' s'
  end.

(** [s[:n]] for a non-negative [n] *)
Fixpoint take (n : nat) (s : string) : string :=
  match n, s with
  | O, _ => EmptyString
  | S _, EmptyString => EmptyString
  | S n', String c s' => String c (take n' s')
  end.

(** [s.split("/")[0]]: the text before the first slash. *)
Fixpoint first_segment (s : string) : string :=
  match s with
  | EmptyString => EmptyString
  | String c s' => if is_slash c then EmptyString else String c (first_segment s')
  end.

(** [needle in s] *)
Fixpoint contains (needle s : string) : bool :=
  if String.prefix needle s then true
  else match s with
       | EmptyString => false
       | String _ s' => contains needle s'
       end.

(** [s.endswith(suffix)] *)
Definition endswith (suffix s : string) : bool :=
  ((String.length suffix <=? String.length s)%nat
   && String.eqb suffix (drop (String.length s - String.length suffix) s))%bool.

(** [s.split()]: the maximal runs of characters that are not white
    space. [cur] is the run being read, if any. *)
Fixpoint words_from (cur : option string) (s : string) : list string :=
  match s with
  | EmptyString => match cur with Some w => [w] | None => [] end
  | String c s' =>
      if is_space c then
        match cur with
        | Some w => w :: words_from None s'
        | None => words_from None s'
        end
      else words_from (Some (default EmptyString cur ++ String c EmptyString)) s'
  end.

Definition split_ws (s : string) : list string := words_from None s.

(** [s.replace("www.", "")]: occurrences are removed from left to
    right; [skip] counts the characters of an occurrence still to be
    dropped. *)
Fixpoint remove_www (skip : nat) (s : string) : string :=
  match s with
  | EmptyString => EmptyString
  | String c s' =>
      match skip with
      | S k => remove_www k s'
      | O => if String.prefix "www." s then remove_www 3 s'
             else String c (remove_www 0 s')
      end
  end.

(** Truth value of a string: [not s] holds of the empty string only. *)
Definition truthy_str (s : string) : bool :=
  match s with EmptyString => false | _ => true end.

(** [l[:n]] for any integer [n]: a negative bound counts from the end. *)
Definition slice_to {A} (n : Z) (l : list A) : list A :=
  if 0 <=? n then firstn (Z.to_nat n) l
  else firstn (length l - Z.to_nat (- n)) l.

End Py.

(** ** URL normaliser and matcher ([prioritize.py], lines 15-34) *)

(** One round of the loop [for prefix in (...): if url.startswith(prefix):
    url = url[len(prefix):]]. *)
Definition strip_prefix_step (url prefix : string) : string :=
  if Py.startswith prefix url then Py.drop (String.length prefix) url else url.

Definition _normalize_url (url : string) : string :=
  if negb (Py.truthy_str url) then ""
  else
    let url := Py.rstrip_by Py.is_slash (Py.strip (Py.lower url)) in
    let url := fold_left strip_prefix_step ["http://"; "https://"] url in
    if Py.startswith "www." url then Py.drop 4 url else url.

Definition _match_url (llm_url result_url : string) : bool :=
  let n1 := _normalize_url llm_url in
  let n2 := _normalize_url result_url in
  if String.eqb n1 n2 then true
  else
    let d1 := Py.first_segment n1 in
    let d2 := Py.first_segment n2 in
    String.eqb d1 d2.

(** ** Python values decoded from JSON *)

(** What [json.loads] returns: [None], a [bool], an [int], a [float], a
    [str], a [list] or a [dict].  A [dict] is kept as its items in order;
    [json.loads] never yields two items with one key, and lookup takes
    the first. *)
Inductive json : Type :=
| JNull
| JBool (b : bool)
| JInt (z : Z)
| JFloat (f : float)
| JStr (s : string)
| JArr (items : list json)
| JObj (fields : list (string * json)).

Abbreviation dict := (list (string * json)).

Inductive exn : Type :=
| RequestException
| JSONDecodeError
| AttributeError
| TypeError
| KeyError
| IndexError
| ValueError
| OverflowError
| ValidationError.

(** The outcome of an expression that may raise. *)
Inductive res (A : Type) : Type :=
| Ok (a : A)
| Err (e : exn).
Arguments Ok {A} a.
Arguments Err {A} e.

Definition res_bind {A B} (r : res A) (k : A -> res B) : res B :=
  match r with Ok a => k a | Err e => Err e end.

Module PyVal.

Definition float_is_zero (f : float) : bool :=
  match Prim2SF f with S754_zero _ => true | _ => false end.

(** Truth value of a decoded value, as [if v:] tests it. *)
Definition truthy (v : json) : bool :=
  match v with
  | JNull => false
  | JBool b => b
  | JInt z => negb (z =? 0)
  | JFloat f => negb (float_is_zero f)
  | JStr s => Py.truthy_str s
  | JArr l => match l with [] => false | _ => true end
  | JObj d => match d with [] => false | _ => true end
  end.

(** [a or b] *)
Definition por (a b : json) : json := if truthy a then a else b.

Fixpoint lookup_key (k : string) (d : dict) : option json :=
  match d with
  | [] => None
  | (k', v) :: d' => if String.eqb k k' then Some v else lookup_key k d'
  end.

(** [d.get(k, default)] on a value already known to be a [dict]. *)
Definition dict_get (d : dict) (k : string) (default : json) : json :=
  match lookup_key k d with Some v => v | None => default end.

(** [v.get(k, default)] on any value: only a [dict] has [get]. *)
Definition get (v : json) (k : string) (default : json) : res json :=
  match v with
  | JObj d => Ok (dict_get d k default)
  | _ => Err AttributeError
  end.

(** [int(f)] for a float: truncation toward zero; [nan] and the
    infinities raise. *)
Definition float_trunc (f : float) : res Z :=
  match Prim2SF f with
  | S754_zero _ => Ok 0
  | S754_finite s m e =>
      let v := if 0 <=? e then Z.pos m * 2 ^ e else Z.pos m / 2 ^ (- e) in
      Ok (if s then - v else v)
  | S754_infinity _ => Err OverflowError
  | S754_nan => Err ValueError
  end.

(** [float(z)] for an int: the nearest double, ties to even;
    [OverflowError] beyond the largest finite double. *)
Definition float_of_int (z : Z) : res float :=
  let f := SF2Prim (binary_normalize 53 1024 z 0 false) in
  if PrimFloat.is_infinity f then Err OverflowError else Ok f.

Definition is_digit (c : ascii) : bool :=
  ((48 <=? Py.code c)%nat && (Py.code c <=? 57)%nat)%bool.

(** The digits of an integer literal; single underscores may separate
    digits. [seen] says whether the previous character was a digit. *)
Fixpoint digits_value (acc : Z) (seen : bool) (s : string) : option Z :=
  match s with
  | EmptyString => if seen then Some acc else None
  | String c s' =>
      if is_digit c then
        digits_value (10 * acc + Z.of_nat (Py.code c - 48)) true s'
      else if ((Py.code c =? 95)%nat && seen)%bool then
        match s' with
        | String d _ => if is_digit d then digits_value acc false s' else None
        | EmptyString => None
        end
      else None
  end.

(** [int(s)] for a string in base ten (the interpreter's limit on the
    number of digits is left out). *)
Definition int_of_str (s : string) : res Z :=
  let t := Py.strip s in
  let parsed :=
    match t with
    | String c r =>
        if (Py.code c =? 43)%nat then digits_value 0 false r
        else if (Py.code c =? 45)%nat then Z.opp <$> digits_value 0 false r
        else digits_value 0 false t
    | EmptyString => None
    end in
  match parsed with Some z => Ok z | None => Err ValueError end.

(** [int(v)] *)
Definition to_int (v : json) : res Z :=
  match v with
  | JInt z => Ok z
  | JBool b => Ok (Z.b2z b)
  | JFloat f => float_trunc f
  | JStr s => int_of_str s
  | JNull | JArr _ | JObj _ => Err TypeError
  end.

(** [isinstance(v, (int, float))]; a [bool] is an [int]. *)
Definition is_number (v : json) : bool :=
  match v with JInt _ | JFloat _ | JBool _ => true | _ => false end.

End PyVal.

(** ** The shared state ([state.py]) *)

(** One provider hit.  The fields are those of [state.py], and one slot
    more: [reputability_score] stands for the attribute of that name,
    which [prioritize.py] reads and assigns and which [SearchResult]
    does not declare.  The slot lets the ranking stage be written as
    the source has it; every assignment to it goes through [setattr]
    below, so it is [None] in every result the code builds. *)
Record SearchResult := mkSearchResult {
  sr_title : string;
  sr_url : string;
  sr_snippet : string;
  sr_domain : string;
  sr_extended_snippet : option string;
  sr_snippet_highlighted : option (list string);
  sr_position : option Z;
  sr_date : option string;
  sr_cite : option string;
  sr_thumbnail : option string;
  sr_breadcrumb : option string;
  sr_keywords : option (list string);
  sr_cached_link : option string;
  reputability_score : option float
}.

Definition set_score (v : float) (r : SearchResult) : SearchResult :=
  mkSearchResult (sr_title r) (sr_url r) (sr_snippet r) (sr_domain r)
    (sr_extended_snippet r) (sr_snippet_highlighted r) (sr_position r)
    (sr_date r) (sr_cite r) (sr_thumbnail r) (sr_breadcrumb r)
    (sr_keywords r) (sr_cached_link r) (Some v).

Record Citation := mkCitation {
  cit_id : Z;
  cit_title : string;
  cit_url : string;
  cit_image : option string;
  cit_extended_snippet : option string
}.

Definition set_image (img : string) (c : Citation) : Citation :=
  mkCitation (cit_id c) (cit_title c) (cit_url c) (Some img) (cit_extended_snippet c).

(** A topic is a [dict[str, str]]. *)
Abbreviation topic := (list (string * string)).

(** The payload the formatter builds. *)
Record Payload := mkPayload {
  p_question : string;
  p_overview : json;
  p_overview_image : json;
  p_topics : list topic;
  p_sources : list dict;
  p_timestamp : string
}.

(** The state threaded through the stages.  The fields are those of
    [state.py], and one slot more: [ranked_results] stands for the
    attribute of that name, which [prioritize.py] assigns and which
    [AgentState] does not declare; every assignment to it goes through
    [setattr] below.

    [answer], [overview] and [overview_image] are declared [str | None],
    but the stages assign them without validation whatever the provider
    or the LLM sent, so they hold a decoded value ([JNull] for [None]).

    The search results are the objects of [results], in provider order;
    [ranked_results] holds references to these same objects, as positions
    in [results], so that a score assigned through one list is seen
    through the other. *)
Record AgentState := mkState {
  query : string;
  history : list dict;
  results : option (list SearchResult);
  ranked_results : option (list nat);
  answer : json;
  overview : json;
  overview_image : json;
  topics : option (list topic);
  citations : option (list Citation);
  final_payload : option Payload
}.

Definition with_history (h : list dict) (st : AgentState) : AgentState :=
  mkState (query st) h (results st) (ranked_results st) (answer st) (overview st)
    (overview_image st) (topics st) (citations st) (final_payload st).
Definition with_results (r : option (list SearchResult)) (st : AgentState) : AgentState :=
  mkState (query st) (history st) r (ranked_results st) (answer st) (overview st)
    (overview_image st) (topics st) (citations st) (final_payload st).
Definition with_ranked_results (r : option (list nat)) (st : AgentState) : AgentState :=
  mkState (query st) (history st) (results st) r (answer st) (overview st)
    (overview_image st) (topics st) (citations st) (final_payload st).
Definition with_answer (v : json) (st : AgentState) : AgentState :=
  mkState (query st) (history st) (results st) (ranked_results st) v (overview st)
    (overview_image st) (topics st) (citations st) (final_payload st).
Definition with_overview (v : json) (st : AgentState) : AgentState :=
  mkState (query st) (history st) (results st) (ranked_results st) (answer st) v
    (overview_image st) (topics st) (citations st) (final_payload st).
Definition with_overview_image (v : json) (st : AgentState) : AgentState :=
  mkState (query st) (history st) (results st) (ranked_results st) (answer st)
    (overview st) v (topics st) (citations st) (final_payload st).
Definition with_topics (t : option (list topic)) (st : AgentState) : AgentState :=
  mkState (query st) (history st) (results st) (ranked_results st) (answer st)
    (overview st) (overview_image st) t (citations st) (final_payload st).
Definition with_citations (c : option (list Citation)) (st : AgentState) : AgentState :=
  mkState (query st) (history st) (results st) (ranked_results st) (answer st)
    (overview st) (overview_image st) (topics st) c (final_payload st).
Definition with_final_payload (p : option Payload) (st : AgentState) : AgentState :=
  mkState (query st) (history st) (results st) (ranked_results st) (answer st)
    (overview st) (overview_image st) (topics st) (citations st) p.

(** [x or []] for an optional list. *)
Definition or_empty {A} (o : option (list A)) : list A := default [] o.

(** How a stage ends: it returns the state, or an exception leaves it
    with the state as mutated so far. *)
Inductive outcome : Type :=
| Returned (st : AgentState)
| Propagated (e : exn) (st : AgentState).

Definition state_of (o : outcome) : AgentState :=
  match o with Returned st => st | Propagated _ st => st end.

Definition returned (o : outcome) : bool :=
  match o with Returned _ => true | Propagated _ _ => false end.

(** Configuration ([config.py]): credentials are environment variables,
    absent ([None]) when unset. *)
Record Config := mkConfig {
  OPENAI_API_KEY : option string;
  BRIGHT_DATA_API_KEY : option string;
  SERPAPI_API_KEY : option string;
  SERP_ZONE : option string;
  PRIORITIZE_MAX_RESULTS : Z
}.

(** [not key] for an optional string: unset or empty. *)
Definition present (o : option string) : bool :=
  match o with Some s => Py.truthy_str s | None => false end.

(** [a or b] for two optional strings. *)
Definition opt_or (a b : option string) : option string :=
  if present a then a else b.

(** A chat completion: the call raises, or returns choices, each with a
    message content that may be [None]. *)
Inductive llm_outcome : Type :=
| LLMError
| LLMChoices (contents : list (option string)).

(** An HTTP exchange with the search provider: [requests] raises (no
    connection, time-out, error status, a response that is not JSON), or
    the response decodes to a value. *)
Inductive http_outcome : Type :=
| TransportError
| HttpJson (api_response : json).

(** ** Attribute access on the models of [state.py] *)

(** The fields the two classes declare.  Both are pydantic models with
    the default configuration: assigning an attribute that is not a
    declared field raises [ValueError], reading one raises
    [AttributeError]. *)
Definition SearchResult_fields : list string :=
  ["title"; "url"; "snippet"; "domain"; "extended_snippet"; "snippet_highlighted";
   "position"; "date"; "cite"; "thumbnail"; "breadcrumb"; "keywords"; "cached_link"].

Definition AgentState_fields : list string :=
  ["query"; "history"; "results"; "answer"; "overview"; "overview_image"; "topics";
   "citations"; "final_payload"].

Definition declares (fields : list string) (name : string) : bool :=
  existsb (String.eqb name) fields.

(** [obj.name = v], where [updated] is the object with the new value. *)
Definition setattr {A} (fields : list string) (name : string) (updated : A) : res A :=
  if declares fields name then Ok updated else Err ValueError.

(** [obj.name] *)
Definition getattr {A} (fields : list string) (name : string) (value : A) : res A :=
  if declares fields name then Ok value else Err AttributeError.

(** ** Stable sorting, as [sorted(xs, key=...)] *)

(** Python's [sorted] is stable; any stable sort returns the same list,
    so insertion from the right stands for it. *)
Fixpoint insert_by {A} (key : A -> Z) (x : A) (l : list A) : list A :=
  match l with
  | [] => [x]
  | y :: l' => if key x <=? key y then x :: y :: l' else y :: insert_by key x l'
  end.

Definition sorted_by {A} (key : A -> Z) (l : list A) : list A :=
  fold_right (insert_by key) [] l.

Definition ascending {A} (key : A -> Z) : relation A :=
  fun a b => key a <= key b.

(** ** The ranking stage ([prioritize.py], lines 37-144) *)

Abbreviation heap := (list SearchResult).

(** [r.reputability_score = v] *)
Definition assign_score (v : float) (r : SearchResult) : res SearchResult :=
  setattr SearchResult_fields "reputability_score" (set_score v r).

(** [r.reputability_score] *)
Definition read_score (r : SearchResult) : res (option float) :=
  getattr SearchResult_fields "reputability_score" (reputability_score r).

(** [state.ranked_results = refs] *)
Definition assign_ranked_results (refs : list nat) (st : AgentState) : res AgentState :=
  setattr AgentState_fields "ranked_results" (with_ranked_results (Some refs) st).

(** [if r.reputability_score is None: r.reputability_score = v], for
    the result at position [i]. *)
Definition default_score (v : float) (i : nat) (h : heap) : res heap :=
  match h !! i with
  | Some r =>
      res_bind (read_score r) (fun score =>
        match score with
        | None => res_bind (assign_score v r) (fun r' => Ok (<[i := r']> h))
        | Some _ => Ok h
        end)
  | None => Ok h
  end.

(** [for x in v]: the items of a list, the characters of a string, the
    keys of a dict; nothing else is iterable. *)
Definition iterate (v : json) : res (list json) :=
  match v with
  | JArr l => Ok l
  | JStr s => Ok (map (fun c => JStr (String c EmptyString)) (list_ascii_of_string s))
  | JObj d => Ok (map (fun kv => JStr (fst kv)) d)
  | JNull | JBool _ | JInt _ | JFloat _ => Err TypeError
  end.

Abbreviation ranked_map := (gmap string Z).

(** The sort key [_score]. *)
Definition _score (m : ranked_map) (r : SearchResult) : Z :=
  default 999 (m !! _normalize_url (sr_url r)).

Definition score_of_ref (m : ranked_map) (h : heap) (i : nat) : Z :=
  match h !! i with
  | Some r => _score m r
  | None => 999
  end.

(** The first result, in the order of [results], whose URL matches. *)
Definition resolve (url : string) (h : heap) : option (nat * SearchResult) :=
  list_find (fun r => Is_true (_match_url url (sr_url r))) h.

(** The body of the loop over the entries of the LLM's list (lines
    92-107).  An exception leaves the objects as they were before the
    entry: [int(rank)] raises before anything is assigned, and
    [float(rank_int)] and the assignment of the score after the
    assignment to the local [ranked_map] only. *)
Definition rank_entry (entry : json) (ms : ranked_map * heap) : res (ranked_map * heap) :=
  let '(m, h) := ms in
  match entry with
  | JObj d =>
      let url := PyVal.dict_get d "url" JNull in
      let rank := PyVal.dict_get d "rank" JNull in
      if (negb (PyVal.is_number rank) || negb (PyVal.truthy url))%bool then Ok ms
      else
        match url with
        | JStr u =>
            match resolve u h with
            | Some (i, r) =>
                res_bind (PyVal.to_int rank) (fun rank_int =>
                res_bind (PyVal.float_of_int rank_int) (fun f =>
                res_bind (assign_score (11 - f)%float r) (fun r' =>
                  Ok (<[_normalize_url (sr_url r) := rank_int]> m, <[i := r']> h))))
            | None => Ok ms
            end
        | _ =>
            (* [_normalize_url(url)] calls [url.lower()] as soon as the
               inner loop meets its first result *)
            match h with
            | [] => Ok ms
            | _ :: _ => Err AttributeError
            end
        end
  | _ => Ok ms
  end.

(** A loop whose body may raise: the objects stay as the last completed
    round left them. *)
Fixpoint run_loop {A S} (body : A -> S -> res S) (xs : list A) (s : S) : option exn * S :=
  match xs with
  | [] => (None, s)
  | x :: xs' =>
      match body x s with
      | Ok s' => run_loop body xs' s'
      | Err e => (Some e, s)
      end
  end.

(** The body of the loop of lines 121-126 over the ranked results. *)
Definition ensure_score (m : ranked_map) (i : nat) (h : heap) : res heap :=
  match h !! i with
  | Some r =>
      res_bind (read_score r) (fun score =>
        match score with
        | Some _ => Ok h
        | None =>
            let rank := default 10 (m !! _normalize_url (sr_url r)) in
            res_bind (PyVal.float_of_int rank) (fun f =>
            res_bind (assign_score (11 - f)%float r) (fun r' =>
              Ok (<[i := r']> h)))
        end)
  | None => Ok h
  end.

(** How the [try] block of lines 66-126 ends: it runs to its end or to
    its [return], or something in it raises.  The two handlers (lines
    128-134 and 135-141) run the same block, so the kind of the
    exception is not kept. *)
Inductive attempt : Type :=
| Completed (st : AgentState)
| Raised (st : AgentState).

(** A block inside the [try]: what leaves it is handled. *)
Definition inside_try (o : outcome) : attempt :=
  match o with
  | Returned st => Completed st
  | Propagated _ st => Raised st
  end.

Section Ranking.

Variable json_loads : string -> option json.
Variable cfg : Config.

(** The fallback block, repeated at lines 54-58, 80-84, 111-115,
    130-134 and 137-141: [state.ranked_results =
    results[:PRIORITIZE_MAX_RESULTS]], then the score 0.0 for each
    ranked result that has none.  [h] holds the objects of [results],
    which [st] carries too. *)
Definition fallback (h : heap) (st : AgentState) : outcome :=
  let refs := Py.slice_to (PRIORITIZE_MAX_RESULTS cfg) (seq 0 (length h)) in
  match assign_ranked_results refs st with
  | Err e => Propagated e st
  | Ok st1 =>
      match run_loop (default_score 0%float) refs h with
      | (None, h') => Returned (with_results (Some h') st1)
      | (Some e, h') => Propagated e (with_results (Some h') st1)
      end
  end.

(** Lines 88-126, once the completion has a non-empty content. *)
Definition rank_with (content : string) (h : heap) (st : AgentState) : attempt :=
  match json_loads content with
  | None => Raised st
  | Some ordered =>
      match iterate ordered with
      | Err _ => Raised st
      | Ok entries =>
          match run_loop rank_entry entries (∅, h) with
          | (Some _, (_, h1)) => Raised (with_results (Some h1) st)
          | (None, (m, h1)) =>
              let st1 := with_results (Some h1) st in
              if decide (m = ∅) then inside_try (fallback h1 st1)
              else
                let refs :=
                  Py.slice_to (PRIORITIZE_MAX_RESULTS cfg)
                    (sorted_by (score_of_ref m h1) (seq 0 (length h1))) in
                match assign_ranked_results refs st1 with
                | Err _ => Raised st1
                | Ok st2 =>
                    match run_loop (ensure_score m) refs h1 with
                    | (None, h2) => Completed (with_results (Some h2) st2)
                    | (Some _, h2) => Raised (with_results (Some h2) st2)
                    end
                end
          end
      end
  end.

(** [prioritize_sources].  The blocks of lines 46-50 and 52-60 stand
    outside the [try]; an exception in a handler leaves the stage. *)
Definition prioritize_sources (llm : llm_outcome) (st : AgentState) : outcome :=
  match or_empty (results st) with
  | [] =>
      match assign_ranked_results [] st with
      | Ok st' => Returned st'
      | Err e => Propagated e st
      end
  | (_ :: _) as h =>
      if negb (present (OPENAI_API_KEY cfg)) then fallback h st
      else
        let tried :=
          match llm with
          | LLMError => Raised st
          | LLMChoices [] =>
              (* [resp.choices[0]] raises [IndexError] *)
              Raised st
          | LLMChoices (content :: _) =>
              match content with
              | None => inside_try (fallback h st)
              | Some c =>
                  if Py.truthy_str c then rank_with c h st
                  else inside_try (fallback h st)
              end
          end in
        match tried with
        | Completed st' => Returned st'
        | Raised st' => fallback (or_empty (results st')) st'
        end
  end.

End Ranking.

(** ** The synthesis stage ([synthesize.py]) *)

(** The mapping [url_to_result] of lines 149-153: a later result with the
    same URL replaces an earlier one. *)
Definition url_to_result (rs : list SearchResult) : gmap string SearchResult :=
  fold_left (fun m r => <[sr_url r := r]> m) rs ∅.

(** One round of the loop of lines 157-200, up to the [append]: the
    citation built from an entry, or the exception that makes the loop
    skip it.  [Citation(...)] validates its arguments: [title] and [url]
    must be strings. *)
Definition build_citation (by_url : gmap string SearchResult) (c : json) : res Citation :=
  match c with
  | JObj d =>
      match PyVal.dict_get d "id" JNull with
      | JNull => Err KeyError
      | cid =>
          match PyVal.dict_get d "url" (JStr "") with
          | JStr citation_url =>
              let extended_snippet :=
                match by_url !! citation_url with
                | Some r => sr_extended_snippet r
                | None => None
                end in
              res_bind (PyVal.to_int cid) (fun id =>
                match PyVal.dict_get d "title" (JStr "") with
                | JStr title => Ok (mkCitation id title citation_url None extended_snippet)
                | _ => Err ValidationError
                end)
          | _ =>
              (* an unhashable key for [url_to_result.get], or a value
                 that [citation_url[:50]] cannot slice *)
              Err TypeError
          end
      end
  | _ => Err TypeError
  end.

(** The loop itself: entries that raise are skipped, the others are
    appended in order. *)
Definition build_citations (by_url : gmap string SearchResult) (cits : list json) : list Citation :=
  omap (fun c => match build_citation by_url c with Ok x => Some x | Err _ => None end) cits.

Section Synthesis.

Variable json_loads : string -> option json.
(** [str(v)] for a decoded value that is not already a string *)
Variable py_repr : json -> string.
Variable cfg : Config.

Definition py_str (v : json) : string :=
  match v with JStr s => s | _ => py_repr v end.

(** The four assignments repeated on every degraded path. *)
Definition empty_synthesis (st : AgentState) : AgentState :=
  with_citations (Some [])
    (with_topics (Some [])
      (with_answer (JStr "") (with_overview (JStr "") st))).

(** Lines 131-142. *)
Definition validated_topics (tps : json) : list topic :=
  match tps with
  | JArr l =>
      Py.slice_to 2
        (omap (fun t =>
           match t with
           | JObj d =>
               match PyVal.lookup_key "title" d, PyVal.lookup_key "content" d with
               | Some _, Some _ =>
                   Some [("title", py_str (PyVal.dict_get d "title" (JStr "")));
                         ("content", py_str (PyVal.dict_get d "content" (JStr "")))]
               | _, _ => None
               end
           | _ => None
           end) l)
  | _ => []
  end.

(** Lines 121-203, once the completion has a non-empty content. *)
Definition synthesize_with (content : string) (st : AgentState) : AgentState :=
  match json_loads content with
  | None => empty_synthesis st
  | Some (JObj data) =>
      let overview := PyVal.dict_get data "overview" (PyVal.dict_get data "answer" (JStr "")) in
      let st := with_answer overview (with_overview overview st) in
      let st := with_topics (Some (validated_topics (PyVal.dict_get data "topics" (JArr [])))) st in
      let cits :=
        match PyVal.dict_get data "citations" (JArr []) with
        | JArr l => l
        | _ => []
        end in
      let by_url := url_to_result (or_empty (results st)) in
      with_citations (Some (Py.slice_to 5 (build_citations by_url cits))) st
  | Some _ =>
      (* [data.get] on a value that is not a dict *)
      empty_synthesis st
  end.

Definition synthesize (llm : llm_outcome) (st : AgentState) : outcome :=
  let results := Py.slice_to 5 (or_empty (results st)) in
  if negb (present (OPENAI_API_KEY cfg)) then Returned (empty_synthesis st)
  else
    match results with
    | [] => Returned (empty_synthesis st)
    | _ :: _ =>
        match llm with
        | LLMError => Returned (empty_synthesis st)
        | LLMChoices [] => Returned (empty_synthesis st)
        | LLMChoices (content :: _) =>
            match content with
            | None => Returned (empty_synthesis st)
            | Some c =>
                if Py.truthy_str c then Returned (synthesize_with c st)
                else Returned (empty_synthesis st)
            end
        end
    end.

End Synthesis.

(** ** The output formatter ([format_output.py]) *)

Definition newline : string := String (ascii_of_nat 10) EmptyString.

Definition topic_get (t : topic) (k : string) : string :=
  match find (fun kv => String.eqb k (fst kv)) t with
  | Some kv => snd kv
  | None => ""
  end.

(** The text appended for one topic (line 38). *)
Definition topic_text (t : topic) : string :=
  newline ++ newline ++ topic_get t "title" ++ ": " ++ topic_get t "content".

(** [v += text]: a string is extended to a new string, a list is
    extended in place by the characters of [text]; no other decoded value
    supports [+=] with a string. *)
Definition iadd (v : json) (text : string) : res json :=
  match v with
  | JStr s => Ok (JStr (s ++ text))
  | JArr l => Ok (JArr (l ++ map (fun c => JStr (String c EmptyString)) (list_ascii_of_string text)))
  | _ => Err TypeError
  end.

Fixpoint full_response (v : json) (tps : list topic) : res json :=
  match tps with
  | [] => Ok v
  | t :: tps' => res_bind (iadd v (topic_text t)) (fun v' => full_response v' tps')
  end.

(** [[f(c) for c in cs]] where [f] may raise. *)
Fixpoint map_res {A B} (f : A -> res B) (l : list A) : res (list B) :=
  match l with
  | [] => Ok []
  | x :: l' => res_bind (f x) (fun y => res_bind (map_res f l') (fun ys => Ok (y :: ys)))
  end.

(** What [Citation.model_dump(mode="json")] returns for a well-formed
    citation. *)
Definition opt_str (o : option string) : json :=
  match o with Some s => JStr s | None => JNull end.

Definition citation_dump (c : Citation) : dict :=
  [("id", JInt (cit_id c)); ("title", JStr (cit_title c)); ("url", JStr (cit_url c));
   ("image", opt_str (cit_image c)); ("extended_snippet", opt_str (cit_extended_snippet c))].

Section Formatter.

(** [c.model_dump(mode="json")], which the stage allows to raise. *)
Variable model_dump : Citation -> res dict.

(** [state.overview or state.answer or ""] *)
Definition chosen_overview (st : AgentState) : json :=
  PyVal.por (PyVal.por (overview st) (answer st)) (JStr "").

(** Lines 32-39: the turn appended to the history.  A list-valued
    overview is extended in place, so the field it was read from sees
    the extension. *)
Definition append_turn (st : AgentState) : res AgentState :=
  let ov := chosen_overview st in
  if PyVal.truthy ov then
    res_bind (full_response ov (or_empty (topics st))) (fun full =>
      let st1 :=
        match ov with
        | JArr _ =>
            if PyVal.truthy (overview st) then with_overview full st
            else with_answer full st
        | _ => st
        end in
      Ok (with_history (history st ++ [[("role", JStr "assistant"); ("content", full)]]) st1))
  else Ok st.

(** The handler of lines 56-67. *)
Definition fallback_payload (fallback_ts : string) (st : AgentState) : Payload :=
  mkPayload (query st) (chosen_overview st) (overview_image st)
    (or_empty (topics st)) [] fallback_ts.

(** [ts] is the clock read at line 24, [fallback_ts] the clock read by
    the handler at line 59. *)
Definition format_output (ts fallback_ts : string) (st : AgentState) : outcome :=
  match append_turn st with
  | Err _ => Returned (with_final_payload (Some (fallback_payload fallback_ts st)) st)
  | Ok st1 =>
      match map_res model_dump (or_empty (citations st1)) with
      | Ok sources =>
          Returned (with_final_payload
            (Some (mkPayload (query st1) (chosen_overview st1) (overview_image st1)
                     (or_empty (topics st1)) sources ts)) st1)
      | Err _ => Returned (with_final_payload (Some (fallback_payload fallback_ts st1)) st1)
      end
  end.

End Formatter.

(** ** The image enrichment stage ([enrich_images.py]) *)

Definition is_http (s : string) : bool :=
  (Py.startswith "http://" s || Py.startswith "https://" s)%bool.

(** The page-URL patterns of lines 86, 159 and 238. *)
Definition blockers : list string :=
  ["/wiki/"; ".html"; "/discover/"; "/article/"; "/page/"; "?q="].

Definition blocked (img_url : string) : bool :=
  existsb (fun b => Py.contains b (Py.lower img_url)) blockers.

(** The URL of one image item: the first truthy field among [original],
    [url], [src], [thumbnail], [image]. *)
Definition item_url (item : dict) : json :=
  PyVal.por (PyVal.dict_get item "original" JNull)
    (PyVal.por (PyVal.dict_get item "url" JNull)
      (PyVal.por (PyVal.dict_get item "src" JNull)
        (PyVal.por (PyVal.dict_get item "thumbnail" JNull)
          (PyVal.dict_get item "image" JNull)))).

(** The loop over the first image items (lines 71-95, 147-165, 223-251):
    the first URL that is an [http(s)] URL not matching a page pattern,
    or a [data:image] URI. *)
Fixpoint scan_images (items : list json) : option string :=
  match items with
  | [] => None
  | item :: rest =>
      match item with
      | JObj d =>
          match item_url d with
          | JStr img_url =>
              if Py.truthy_str img_url then
                if is_http img_url then
                  if blocked img_url then scan_images rest else Some img_url
                else if Py.startswith "data:image" img_url then Some img_url
                else scan_images rest
              else scan_images rest
          | _ => scan_images rest
          end
      | _ => scan_images rest
      end
  end.

(** [images = body.get("images", []); if isinstance(images, list) and
    len(images) > 0: for image_item in images[:n]: ...] *)
Definition first_image (n : Z) (body : dict) : option string :=
  match PyVal.dict_get body "images" (JArr []) with
  | JArr items => scan_images (Py.slice_to n items)
  | _ => None
  end.

Definition image_extensions : list string :=
  [".jpg"; ".jpeg"; ".png"; ".gif"; ".webp"; ".svg"; ".bmp"].

Definition image_hosts : list string :=
  ["googleusercontent.com"; "gstatic.com"; "imgur.com"; "i.imgur.com"; "images.unsplash.com"].

(** The test of lines 105-108 on a thumbnail. *)
Definition looks_like_image (thumbnail : string) : bool :=
  let low := Py.lower thumbnail in
  (existsb (fun ext => Py.endswith ext low) image_extensions
   || existsb (fun host => Py.contains host low) image_hosts
   || Py.contains "/image/" low || Py.contains "/img/" low
   || Py.startswith "data:image" thumbnail)%bool.

(** The loop of lines 99-109 over organic results. *)
Fixpoint scan_thumbnails (items : list json) : option string :=
  match items with
  | [] => None
  | item :: rest =>
      match item with
      | JObj d =>
          match PyVal.dict_get d "thumbnail" JNull with
          | JStr thumbnail =>
              if (Py.truthy_str thumbnail && is_http thumbnail && looks_like_image thumbnail)%bool
              then Some thumbnail else scan_thumbnails rest
          | _ => scan_thumbnails rest
          end
      | _ => scan_thumbnails rest
      end
  end.

(** [v[:n]] followed by iteration, for any decoded value [v]: a list or
    a string can be sliced; slicing anything else raises ([TypeError];
    for a dict, [KeyError] from Python 3.12 on, handled alike wherever
    this is used). *)
Definition slice_items (n : Z) (v : json) : res (list json) :=
  match v with
  | JArr l => Ok (Py.slice_to n l)
  | JStr s => Ok (map (fun c => JStr (String c EmptyString)) (Py.slice_to n (list_ascii_of_string s)))
  | _ => Err TypeError
  end.

Section ImageSearch.

Variable json_loads : string -> option json.
(** [urlparse(url)] as its [netloc] and [path]; it raises on some
    malformed URLs. *)
Variable urlparse : string -> res (string * string).
(** The image search of the provider, by the text searched for. *)
Variable provider : string -> http_outcome.

(** Lines 52-65 (and 131-142, 205-217): one request and the decoding of
    its body. *)
Definition fetch_body (image_query : string) : res json :=
  match provider image_query with
  | TransportError => Err RequestException
  | HttpJson api_response =>
      res_bind (PyVal.get api_response "body" (JObj [])) (fun body =>
        match body with
        | JStr text =>
            match json_loads text with
            | Some v => Ok v
            | None => Err JSONDecodeError
            end
        | _ => Ok body
        end)
  end.

(** The image query of lines 23-33. *)
Definition citation_query (citation_title query_context : string) : string :=
  let query_terms := Py.slice_to 3 (Py.split_ws query_context) in
  let query_snippet := String.concat " " query_terms in
  let image_query :=
    if Py.truthy_str query_snippet then citation_title ++ " " ++ query_snippet
    else citation_title in
  Py.take 100 (Py.strip image_query).

(** The second search, by the domain of the citation (lines 112-167).
    Every exception in it is caught. Returns the image and the requests
    made. *)
Definition domain_search (citation_url : string) : option string * list string :=
  if Py.truthy_str citation_url then
    match urlparse citation_url with
    | Err _ => (None, [])
    | Ok (netloc, path) =>
        let domain := if Py.truthy_str netloc then netloc else path in
        let domain := Py.first_segment (Py.remove_www 0 domain) in
        if Py.truthy_str domain then
          match res_bind (fetch_body domain) (fun body => PyVal.get body "images" (JArr [])) with
          | Ok (JArr items) => (scan_images (Py.slice_to 3 items), [domain])
          | _ => (None, [domain])
          end
        else (None, [])
    end
  else (None, []).

(** [_search_image_for_citation]: what it returns or raises, and the
    requests it made. *)
Definition _search_image_for_citation
    (citation_title query_context citation_url : string) : res (option string) * list string :=
  let q := citation_query citation_title query_context in
  match fetch_body q with
  | Err RequestException | Err JSONDecodeError | Err KeyError | Err TypeError => (Ok None, [q])
  | Err e => (Err e, [q])
  | Ok (JObj body) =>
      match first_image 5 body with
      | Some img => (Ok (Some img), [q])
      | None =>
          match slice_items 5 (PyVal.dict_get body "organic" (JArr [])) with
          | Err _ => (Ok None, [q])
          | Ok organic =>
              match scan_thumbnails organic with
              | Some img => (Ok (Some img), [q])
              | None =>
                  let '(img, reqs) := domain_search citation_url in
                  (Ok img, q :: reqs)
              end
          end
      end
  | Ok _ => (Err AttributeError, [q])
  end.

(** [_search_overview_image] *)
Definition _search_overview_image (query : string) : res (option string) * list string :=
  let q := Py.take 100 (Py.strip query) in
  match fetch_body q with
  | Err RequestException | Err JSONDecodeError | Err KeyError | Err TypeError => (Ok None, [q])
  | Err e => (Err e, [q])
  | Ok (JObj body) => (Ok (first_image 5 body), [q])
  | Ok _ => (Err AttributeError, [q])
  end.

Variable cfg : Config.

(** [citation.image is not None and citation.image.strip()] *)
Definition has_image (c : Citation) : bool :=
  match cit_image c with
  | Some img => Py.truthy_str (Py.strip img)
  | None => false
  end.

(** The positions, in [citations], of the citations without an image
    (lines 311-317). *)
Fixpoint citations_to_enrich (i : nat) (cs : list Citation) : list nat :=
  match cs with
  | [] => []
  | c :: cs' =>
      if has_image c then citations_to_enrich (S i) cs'
      else i :: citations_to_enrich (S i) cs'
  end.

(** One worker and the handling of its future (lines 327-361): a found
    image is assigned to the worker's own citation; no image, or an
    exception in the worker, leaves the citation as it is. *)
Definition enrich_one (query_context : string)
    (acc : list Citation * list string) (i : nat) : list Citation * list string :=
  let '(cs, reqs) := acc in
  match cs !! i with
  | Some c =>
      let '(r, made) := _search_image_for_citation (cit_title c) query_context (cit_url c) in
      match r with
      | Ok (Some image_url) =>
          if Py.truthy_str image_url then (<[i := set_image image_url c]> cs, (reqs ++ made)%list)
          else (cs, (reqs ++ made)%list)
      | _ => (cs, (reqs ++ made)%list)
      end
  | None => acc
  end.

(** Lines 297-366.  The workers run concurrently; each writes to its
    own citation only, so the order in which they finish does not show
    in the state, and the requests are listed citation by citation. *)
Definition enrich_citations (st : AgentState) : AgentState * list string :=
  match or_empty (citations st) with
  | [] => (st, [])
  | (_ :: _) as cs =>
      match citations_to_enrich 0 cs with
      | [] => (st, [])
      | (_ :: _) as todo =>
          let '(cs', reqs) := fold_left (enrich_one (query st)) todo (cs, []) in
          (with_citations (Some cs') st, reqs)
      end
  end.

(** [enrich_images]: the outcome and the requests sent to the
    provider. *)
Definition enrich_images (st : AgentState) : outcome * list string :=
  let api_key := opt_or (BRIGHT_DATA_API_KEY cfg) (SERPAPI_API_KEY cfg) in
  if (negb (present api_key) || negb (present (SERP_ZONE cfg)))%bool then (Returned st, [])
  else
    let overview_step : res AgentState * list string :=
      if negb (PyVal.truthy (overview_image st)) then
        if Py.truthy_str (query st) then
          match _search_overview_image (query st) with
          | (Ok (Some img), reqs) =>
              if Py.truthy_str img then (Ok (with_overview_image (JStr img) st), reqs)
              else (Ok st, reqs)
          | (Ok None, reqs) => (Ok st, reqs)
          | (Err e, reqs) => (Err e, reqs)
          end
        else (Ok st, [])
      else
        (* the log line slices [state.overview_image[:50]] *)
        match overview_image st with
        | JStr _ | JArr _ => (Ok st, [])
        | _ => (Err TypeError, [])
        end in
    match overview_step with
    | (Err e, reqs) => (Propagated e st, reqs)
    | (Ok st1, reqs) =>
        let '(st2, reqs') := enrich_citations st1 in
        (Returned st2, (reqs ++ reqs')%list)
    end.

End ImageSearch.

(** ** The search stage ([search.py]) *)

(** Validation of the arguments of [SearchResult(...)]: a [str] field
    takes a string only, an optional one also [None]; [list[str]] takes a
    list of strings. *)
Definition as_str (v : json) : res string :=
  match v with JStr s => Ok s | _ => Err ValidationError end.

Definition as_opt_str (v : json) : res (option string) :=
  match v with
  | JNull => Ok None
  | JStr s => Ok (Some s)
  | _ => Err ValidationError
  end.

Definition as_opt_str_list (v : json) : res (option (list string)) :=
  match v with
  | JNull => Ok None
  | JArr l => res_bind (map_res as_str l) (fun ss => Ok (Some ss))
  | _ => Err ValidationError
  end.

(** [len(v)] *)
Definition py_len (v : json) : res nat :=
  match v with
  | JStr s => Ok (String.length s)
  | JArr l => Ok (length l)
  | JObj d => Ok (length d)
  | _ => Err TypeError
  end.

(** [v[0]] for a value already known to be non-empty; the keys of a
    decoded dict are strings, so a dict has no item [0]. *)
Definition py_first (v : json) : res json :=
  match v with
  | JStr (String c _) => Ok (JStr (String c EmptyString))
  | JArr (x :: _) => Ok x
  | JObj _ => Err KeyError
  | JStr EmptyString | JArr [] => Err IndexError
  | _ => Err TypeError
  end.

(** Lines 70-109: the overview image, by order of preference. *)
Definition knowledge_graph_image (body : dict) : json :=
  match PyVal.dict_get body "knowledge_graph" (JObj []) with
  | JObj kg =>
      match PyVal.dict_get kg "image" JNull with
      | JStr s => if Py.truthy_str s then JStr s else JNull
      | _ => JNull
      end
  | _ => JNull
  end.

Definition images_section_image (body : dict) : json :=
  match PyVal.dict_get body "images" (JArr []) with
  | JArr (JObj first_image :: _) =>
      let img_url :=
        PyVal.por (PyVal.dict_get first_image "original" JNull)
          (PyVal.por (PyVal.dict_get first_image "link" JNull)
             (PyVal.dict_get first_image "thumbnail" JNull)) in
      if PyVal.truthy img_url then img_url else JNull
  | _ => JNull
  end.

(** The loop over [["image", "og_image", "preview_image"]]. *)
Fixpoint first_truthy_field (d : dict) (fields : list string) : json :=
  match fields with
  | [] => JNull
  | f :: fields' =>
      let v := PyVal.dict_get d f JNull in
      if PyVal.truthy v then v else first_truthy_field d fields'
  end.

Definition top_result_image (body : dict) : res json :=
  let organic_results := PyVal.dict_get body "organic" (JArr []) in
  if PyVal.truthy organic_results then
    res_bind (py_len organic_results) (fun n =>
      if (0 <? n)%nat then
        res_bind (py_first organic_results) (fun top_result =>
          match top_result with
          | JObj top =>
              let thumbnail := PyVal.dict_get top "thumbnail" JNull in
              if PyVal.truthy thumbnail then Ok thumbnail
              else Ok (first_truthy_field top ["image"; "og_image"; "preview_image"])
          | _ => Ok JNull
          end)
      else Ok JNull)
  else Ok JNull.

Definition extract_overview_image (body : dict) : res json :=
  let overview_image := knowledge_graph_image body in
  let overview_image :=
    if negb (PyVal.truthy overview_image) then images_section_image body
    else overview_image in
  if negb (PyVal.truthy overview_image) then top_result_image body
  else Ok overview_image.

Section Search.

Variable json_loads : string -> option json.
Variable urlparse : string -> res (string * string).
Variable cfg : Config.

(** Lines 120-155 for one organic entry: [None] when the entry is
    skipped for want of a link. *)
Definition parse_organic (r : json) : res (option SearchResult) :=
  match r with
  | JObj d =>
      if negb (PyVal.truthy (PyVal.dict_get d "link" JNull)) then Ok None
      else
        let link := PyVal.dict_get d "link" (JStr "") in
        let description := PyVal.dict_get d "description" (JStr "") in
        let snippet := PyVal.dict_get d "snippet" (JStr "") in
        let keywords_list :=
          match PyVal.dict_get d "about_this_result" (JObj []) with
          | JObj about => PyVal.dict_get about "keywords" (JArr [])
          | _ => JArr []
          end in
        let primary_snippet := PyVal.por (PyVal.por description snippet) (JStr "") in
        let extended_snippet :=
          if PyVal.truthy snippet then snippet
          else if PyVal.truthy description then description else JNull in
        let highlighted :=
          match PyVal.dict_get d "snippet_highlighted" JNull with
          | JArr l => JArr l
          | _ => JNull
          end in
        let position :=
          match PyVal.dict_get d "position" JNull with
          | JInt z => Some z
          | JBool b => Some (Z.b2z b)
          | _ => None
          end in
        (* [urlparse(link).netloc] is evaluated with the arguments,
           before the model validates them *)
        res_bind (match link with
                  | JStr l => res_bind (urlparse l) (fun np => Ok (l, fst np))
                  | _ => Err AttributeError
                  end) (fun '(url, domain) =>
        res_bind (as_str (PyVal.dict_get d "title" (JStr ""))) (fun title =>
        res_bind (as_str primary_snippet) (fun snip =>
        res_bind (as_opt_str extended_snippet) (fun ext =>
        res_bind (as_opt_str_list highlighted) (fun hl =>
        res_bind (as_opt_str (PyVal.dict_get d "date" JNull)) (fun date =>
        res_bind (as_opt_str (PyVal.dict_get d "cite" JNull)) (fun cite =>
        res_bind (as_opt_str (PyVal.dict_get d "thumbnail" JNull)) (fun thumb =>
        res_bind (as_opt_str (PyVal.dict_get d "breadcrumb" JNull)) (fun crumb =>
        res_bind (as_opt_str_list (if PyVal.truthy keywords_list then keywords_list else JNull)) (fun kws =>
        res_bind (as_opt_str (PyVal.dict_get d "cached_page_link" JNull)) (fun cached =>
          Ok (Some (mkSearchResult title url snip domain ext hl position date cite
                      thumb crumb kws cached None)))))))))))))
  | _ => Err AttributeError
  end.

(** The loop of lines 119-155: [state.results] grows entry by entry, and
    an exception leaves it with the entries appended so far. *)
Fixpoint append_results (entries : list json) (acc : list SearchResult) :
    option exn * list SearchResult :=
  match entries with
  | [] => (None, acc)
  | r :: rest =>
      match parse_organic r with
      | Ok (Some x) => append_results rest (acc ++ [x])
      | Ok None => append_results rest acc
      | Err e => (Some e, acc)
      end
  end.

(** Lines 59-155, inside the [try]: everything after the request. *)
Definition read_response (api_response : json) (st : AgentState) : outcome :=
  match PyVal.get api_response "body" (JObj []) with
  | Err e => Propagated e st
  | Ok body =>
      let decoded :=
        match body with
        | JStr text =>
            match json_loads text with
            | Some v => Ok v
            | None => Err JSONDecodeError
            end
        | _ => Ok body
        end in
      match decoded with
      | Err e => Propagated e st
      | Ok (JObj b) =>
          match extract_overview_image b with
          | Err e => Propagated e st
          | Ok img =>
              let st1 := with_overview_image img st in
              match slice_items 10 (PyVal.dict_get b "organic" (JArr [])) with
              | Err e => Propagated e st1
              | Ok organic_results =>
                  match append_results organic_results [] with
                  | (None, rs) => Returned (with_results (Some rs) st1)
                  | (Some e, rs) => Propagated e (with_results (Some rs) st1)
                  end
              end
          end
      | Ok _ => Propagated AttributeError st
      end
  end.

(** [search]: only [requests.exceptions.RequestException] is handled
    (line 156). *)
Definition search (http : http_outcome) (st : AgentState) : outcome :=
  let api_key := opt_or (BRIGHT_DATA_API_KEY cfg) (SERPAPI_API_KEY cfg) in
  if negb (present api_key) then Returned (with_results (Some []) st)
  else if negb (present (SERP_ZONE cfg)) then Returned (with_results (Some []) st)
  else
    match http with
    | TransportError => Returned (with_results (Some []) st)
    | HttpJson api_response => read_response api_response st
    end.

End Search.

(** ** The pipeline ([graph.py]) *)

(** What one run meets outside the program. *)
Record World := mkWorld {
  w_json_loads : string -> option json;
  w_urlparse : string -> res (string * string);
  w_py_repr : json -> string;
  w_model_dump : Citation -> res dict;
  w_search : http_outcome;
  w_llm : llm_outcome;
  w_images : string -> http_outcome;
  w_ts : string;
  w_fallback_ts : string
}.

(** Run the next node unless an earlier one raised. *)
Definition and_then (o : outcome) (node : AgentState -> outcome) : outcome :=
  match o with
  | Returned st => node st
  | Propagated e st => Propagated e st
  end.

(** The edges of [build_graph]: search, synthesize, enrich_images,
    format_output; an exception in a node ends the run.  (The graph
    library also validates the state a node receives; that is not part
    of this model.) *)
Definition run_pipeline (w : World) (cfg : Config) (st : AgentState) : outcome :=
  and_then
    (and_then
       (and_then (search (w_json_loads w) (w_urlparse w) cfg (w_search w) st)
          (synthesize (w_json_loads w) (w_py_repr w) cfg (w_llm w)))
       (fun st => fst (enrich_images (w_json_loads w) (w_urlparse w) (w_images w) cfg st)))
    (format_output (w_model_dump w) (w_ts w) (w_fallback_ts w)).

(** ** The related-questions endpoint ([main.py], lines 190-278) *)

(** What an endpoint answers: a response body, or an [HTTPException]
    with its status code. *)
Inductive reply (A : Type) : Type :=
| Reply (a : A)
| HTTPError (status : Z).
Arguments Reply {A} a.
Arguments HTTPError {A} status.

(** [s.index(c)] for a character [c]: the first position of [c]
    ([None] where Python raises [ValueError]). *)
Fixpoint str_index (c : ascii) (s : string) : option nat :=
  match s with
  | EmptyString => None
  | String d s' => if Ascii.eqb c d then Some 0%nat else S <$> str_index c s'
  end.

(** [s.rindex(c)]: the last position of [c]. *)
Fixpoint str_rindex (c : ascii) (s : string) : option nat :=
  match s with
  | EmptyString => None
  | String d s' =>
      match str_rindex c s' with
      | Some i => Some (S i)
      | None => if Ascii.eqb c d then Some 0%nat else None
      end
  end.

(** [s[a:b]] for non-negative bounds. *)
Definition str_slice (a b : nat) (s : string) : string := Py.drop a (Py.take b s).

(** Lines 250-259: the text handed to [json.loads]; the content itself,
    or what lies between its first [[] and its last []]. *)
Definition json_text (content : string) : res string :=
  if (Py.startswith "[" content && Py.endswith "]" content)%bool then Ok content
  else if (Py.contains "[" content && Py.contains "]" content)%bool then
    match str_index "["%char content, str_rindex "]"%char content with
    | Some start, Some last => Ok (str_slice start (last + 1) content)
    | _, _ => Err ValueError
    end
  else Ok content.

(** Lines 262-266: the non-blank strings of the list, stripped, five at
    most; nothing when the value is not a list. *)
Definition clean_questions (questions : json) : list string :=
  match questions with
  | JArr l =>
      Py.slice_to 5
        (omap (fun q =>
           match q with
           | JStr s => if Py.truthy_str (Py.strip s) then Some (Py.strip s) else None
           | _ => None
           end) l)
  | _ => []
  end.

(** [related_questions]: a blank query is refused with status 422,
    outside the [try]; every exception inside it gives the empty
    list. *)
Definition related_questions (json_loads : string -> option json) (cfg : Config)
    (llm : llm_outcome) (query : string) : reply (list string) :=
  let query := Py.strip query in
  if negb (Py.truthy_str query) then HTTPError 422
  else if negb (present (OPENAI_API_KEY cfg)) then Reply []
  else
    match llm with
    | LLMError => Reply []
    | LLMChoices [] => Reply []
    | LLMChoices (None :: _) => Reply []
    | LLMChoices (Some content :: _) =>
        if negb (Py.truthy_str content) then Reply []
        else
          match json_text (Py.strip content) with
          | Err _ => Reply []
          | Ok text =>
              match json_loads text with
              | None => Reply []
              | Some questions => Reply (clean_questions questions)
              end
          end
    end.

(** ** Vocabulary of the specification *)

(** *** The normaliser as the specification words it *)

(** Remove the last character if it is a slash. *)
Fixpoint strip_one_trailing_slash (s : string) : string :=
  match s with
  | EmptyString => EmptyString
  | String c EmptyString => if Py.is_slash c then EmptyString else s
  | String c s' => String c (strip_one_trailing_slash s')
  end.

Definition strip_scheme (s : string) : string :=
  if Py.startswith "http://" s then Py.drop 7 s
  else if Py.startswith "https://" s then Py.drop 8 s
  else s.

Definition strip_www (s : string) : string :=
  if Py.startswith "www." s then Py.drop 4 s else s.

(** "lower-cases, strips whitespace and a single trailing slash, strips a
    leading scheme, strips a leading www." *)
Definition normalize_as_specified (url : string) : string :=
  strip_www (strip_scheme (strip_one_trailing_slash (Py.strip (Py.lower url)))).

(** The same with every trailing slash removed, and with [https://]
    removed after [http://] has been. *)
Definition strip_trailing_slashes (s : string) : string :=
  Nat.iter (String.length s) strip_one_trailing_slash s.

Definition strip_schemes (s : string) : string :=
  let s := if Py.startswith "http://" s then Py.drop 7 s else s in
  if Py.startswith "https://" s then Py.drop 8 s else s.

Definition normalize_as_amended (url : string) : string :=
  strip_www (strip_schemes (strip_trailing_slashes (Py.strip (Py.lower url)))).

(** *** URLs that differ by scheme, [www.] prefix or trailing slash *)

Inductive scheme : Type := NoScheme | Http | Https.

Definition scheme_text (sch : scheme) : string :=
  match sch with
  | NoScheme => ""
  | Http => "http://"
  | Https => "https://"
  end.

Record decoration := mkDecoration {
  d_scheme : scheme;
  d_www : bool;
  d_slash : bool
}.

(** A host-and-path [core] written with a scheme, a [www.] prefix and a
    trailing slash, or without. *)
Definition decorate (d : decoration) (core : string) : string :=
  scheme_text (d_scheme d) ++ (if d_www d then "www." else "") ++ core
  ++ (if d_slash d then "/" else "").

(** A core carries no decoration of its own: it is not empty, has no
    white space at either end, no trailing slash, no scheme and no
    [www.] prefix. *)
Definition bare (core : string) : bool :=
  let c := Py.lower core in
  (Py.truthy_str c
   && String.eqb (Py.lstrip_by Py.is_space c) c
   && String.eqb (Py.rstrip_by Py.is_space c) c
   && String.eqb (Py.rstrip_by Py.is_slash c) c
   && negb (Py.startswith "http://" c)
   && negb (Py.startswith "https://" c)
   && negb (Py.startswith "www." c))%bool.

(** *** What the enrichment stage may do to one citation *)

(** [c'] is [c], or [c] had no image and [c'] is [c] with the non-empty
    image URL that [found] returned for it. *)
Definition image_filled_or_kept
    (found : string -> string -> res (option string)) (c c' : Citation) : Prop :=
  c' = c
  \/ (has_image c = false
      /\ exists img, Py.truthy_str img = true
                    /\ found (cit_title c) (cit_url c) = Ok (Some img)
                    /\ c' = set_image img c).

(** *** The formatter's payload and history turn *)

(** A field declared [str | None] holds a string or [None]. *)
Definition is_text (v : json) : bool :=
  match v with JNull | JStr _ => true | _ => false end.

(** Every field of the payload but the timestamp. *)
Definition payload_sans_timestamp (p : Payload) :
    string * json * json * list topic * list dict :=
  (p_question p, p_overview p, p_overview_image p, p_topics p, p_sources p).

(** The overview followed by each topic as "title: content" on new
    lines. *)
Definition history_text (overview : string) (tps : list topic) : string :=
  fold_left (fun acc t => acc ++ topic_text t) tps overview.

Definition assistant_turn (text : string) : dict :=
  [("role", JStr "assistant"); ("content", JStr text)].

(** *** Citation entries of the synthesis response *)

(** An entry that is not a dict, has no [id], or has an [id] that
    [int()] rejects. *)
Definition malformed_citation (c : json) : Prop :=
  match c with
  | JObj d =>
      match PyVal.lookup_key "id" d with
      | None => True
      | Some cid => exists e, PyVal.to_int cid = Err e
      end
  | _ => True
  end.

(** The citation [c] carries the fields of the entry [e]. *)
Definition citation_of_entry (e : json) (c : Citation) : Prop :=
  exists d,
    e = JObj d
    /\ PyVal.to_int (PyVal.dict_get d "id" JNull) = Ok (cit_id c)
    /\ PyVal.dict_get d "title" (JStr "") = JStr (cit_title c)
    /\ PyVal.dict_get d "url" (JStr "") = JStr (cit_url c)
    /\ cit_image c = None.

(** An entry that passes the structural checks, with what it carries:
    a dict whose [id] [int()] converts to [id], with the string [title]
    and the string [url] (each the empty string when the key is
    absent). *)
Definition valid_citation (e : json) (id : Z) (title url : string) : Prop :=
  exists d cid,
    e = JObj d
    /\ PyVal.lookup_key "id" d = Some cid
    /\ PyVal.to_int cid = Ok id
    /\ PyVal.dict_get d "title" (JStr "") = JStr title
    /\ PyVal.dict_get d "url" (JStr "") = JStr url.

(** The entries that pass validation, each with the citation built
    from it. *)
Definition kept_entries (by_url : gmap string SearchResult) (cits : list json) :
    list (json * Citation) :=
  omap (fun e => match build_citation by_url e with Ok c => Some (e, c) | Err _ => None end) cits.

(** *** The state a request starts from ([main.py], lines 93-96) *)

Definition initial_state (q : string) : AgentState :=
  mkState q [[("role", JStr "user"); ("content", JStr q)]]
    None None JNull JNull JNull None None None.

(** *** When the ranking stage degrades *)

Definition entry_url (e : json) : json :=
  match e with
  | JObj d => PyVal.dict_get d "url" JNull
  | _ => JNull
  end.

(** No entry of the LLM's output names a URL that matches a result. *)
Definition no_entry_matches (ordered : json) (h : heap) : Prop :=
  forall entries e u r,
    iterate ordered = Ok entries -> e ∈ entries -> entry_url e = JStr u ->
    r ∈ h -> _match_url u (sr_url r) = false.

(** The credential is absent, the call fails or returns nothing, the
    output is not JSON, or no entry matches a result. *)
Inductive degraded (json_loads : string -> option json) (cfg : Config) (h : heap) :
    llm_outcome -> Prop :=
| degraded_no_credential llm :
    present (OPENAI_API_KEY cfg) = false -> degraded json_loads cfg h llm
| degraded_call_failed :
    degraded json_loads cfg h LLMError
| degraded_no_choice :
    degraded json_loads cfg h (LLMChoices [])
| degraded_no_content rest :
    degraded json_loads cfg h (LLMChoices (None :: rest))
| degraded_empty_content rest :
    degraded json_loads cfg h (LLMChoices (Some "" :: rest))
| degraded_not_json content rest :
    json_loads content = None ->
    degraded json_loads cfg h (LLMChoices (Some content :: rest))
| degraded_no_match content rest ordered :
    json_loads content = Some ordered -> no_entry_matches ordered h ->
    degraded json_loads cfg h (LLMChoices (Some content :: rest)).

(** *** Ranking entries *)

(** An entry [{"url": u, "rank": rk}] with a non-empty URL and an integer
    rank (other keys, such as [reason], may be present). *)
Definition ranking_entry (e : json) (u : string) (rk : Z) : Prop :=
  exists d,
    e = JObj d
    /\ PyVal.dict_get d "url" JNull = JStr u
    /\ Py.truthy_str u = true
    /\ PyVal.dict_get d "rank" JNull = JInt rk.

(** *** Characters of a string *)

(** Every character of [s] satisfies [q]. *)
Fixpoint string_forall (q : ascii -> bool) (s : string) : bool :=
  match s with
  | EmptyString => true
  | String c s' => (q c && string_forall q s')%bool
  end.

(** An upper-case letter [A]..[Z]. *)
Definition is_upper (c : ascii) : bool :=
  ((65 <=? Py.code c)%nat && (Py.code c <=? 90)%nat)%bool.

(** The last character of a string, if any. *)
Fixpoint last_char (s : string) : option ascii :=
  match s with
  | EmptyString => None
  | String c EmptyString => Some c
  | String _ s' => last_char s'
  end.

(** *** Hosts and paths *)

(** A code point below 128, where the string primitives above are
    exact. *)
Definition is_ascii (c : ascii) : bool := (Py.code c <? 128)%nat.




(** *** Organic entries of the provider's response *)

(** The [link] of an organic entry. *)
Definition entry_link (e : json) : json :=
  match e with
  | JObj d => PyVal.dict_get d "link" JNull
  | _ => JNull
  end.

(** *** Results by URL *)

(** The last result, in provider order, whose URL is exactly [u]. *)
Definition last_with_url (u : string) (rs : list SearchResult) : option SearchResult :=
  last (List.filter (fun r => String.eqb (sr_url r) u) rs).

(** A topic as the synthesis stage stores it: the two keys [title] and
    [content], in this order. *)
Definition well_formed_topic (t : topic) : Prop :=
  exists title content, t = [("title", title); ("content", content)].

(** *** What the synthesis stage leaves *)

(** The answer equals the overview; at most two topics, each well
    formed; at most five citations, none with an image, each with the
    extended snippet of the last result with its URL; the other fields
    as in [st]. *)
Definition synthesized (st st' : AgentState) : Prop :=
  answer st' = overview st'
  /\ (exists ts, topics st' = Some ts /\ (length ts <= 2)%nat /\ Forall well_formed_topic ts)
  /\ (exists cs, citations st' = Some cs /\ (length cs <= 5)%nat
        /\ Forall (fun c => cit_image c = None
                            /\ cit_extended_snippet c
                               = last_with_url (cit_url c) (or_empty (results st))
                                   ≫= sr_extended_snippet) cs)
  /\ query st' = query st /\ history st' = history st /\ results st' = results st
  /\ ranked_results st' = ranked_results st /\ overview_image st' = overview_image st
  /\ final_payload st' = final_payload st.


(** *** Images the image search accepts *)

(** An [http(s)] URL that matches no page pattern, or a [data:image]
    URI: what the loops over image items return. *)
Definition accepted_image (u : string) : bool :=
  (is_http u && negb (blocked u) || Py.startswith "data:image" u)%bool.

(** An [http(s)] URL that looks like an image: what the loop over
    organic thumbnails returns. *)
Definition accepted_thumbnail (u : string) : bool :=
  (is_http u && looks_like_image u)%bool.

(** The citations without an image. *)
Definition without_image (cs : list Citation) : list Citation :=
  List.filter (fun c => negb (has_image c)) cs.

(** [c'] is [c] but possibly for its image: the image [c] had, or, if
    [c] had none, an accepted image or thumbnail. *)
Definition image_enriched (c c' : Citation) : Prop :=
  cit_id c' = cit_id c /\ cit_title c' = cit_title c /\ cit_url c' = cit_url c
  /\ cit_extended_snippet c' = cit_extended_snippet c
  /\ (cit_image c' = cit_image c
      \/ (has_image c = false
          /\ exists img, cit_image c' = Some img
               /\ Py.truthy_str img = true
               /\ (accepted_image img || accepted_thumbnail img)%bool = true)).

(** A character other than [c]. *)
Definition is_not (c : ascii) (d : ascii) : bool := negb (Ascii.eqb c d).

(** *** Worked inputs *)

Definition result_at (url : string) : SearchResult :=
  mkSearchResult "" url "" "" None None None None None None None None None None.

Definition state_with_results (urls : list string) : AgentState :=
  with_results (Some (result_at <$> urls)) (initial_state "what is rocq").

(** The OpenAI key, the Bright Data key and the zone are set; the cap has
    its default. *)
Definition keyed_config : Config :=
  mkConfig (Some "sk-test") (Some "bd-test") None (Some "serp") 5.

(** No credential is set. *)
Definition bare_config : Config := mkConfig None None None None 5.

(** A decoder that knows the listed texts and rejects every other. *)
Definition decode_table (table : list (string * json)) (text : string) : option json :=
  snd <$> find (fun kv => String.eqb text (fst kv)) table.

Definition ranking_json (rks : list (string * Z)) : list json :=
  (fun ur : string * Z => JObj [("url", JStr ur.1); ("rank", JInt ur.2); ("reason", JStr "")]) <$> rks.

Definition no_urlparse (url : string) : res (string * string) := Ok ("", url).

Definition no_repr (v : json) : string := "".

Definition blocked_response : dict :=
  [("status_code", JInt 200); ("headers", JObj []); ("body", JStr "<html>blocked</html>")].

Definition three_sites : list string :=
  ["https://www.a.com/x"; "http://b.com/"; "https://c.org/y"].

Definition seven_sites : list string :=
  ["http://a.com"; "http://b.com"; "http://c.com"; "http://d.com";
   "http://e.com"; "http://f.com"; "http://g.com"].

Definition two_ranks : list (string * Z) := [("b.com/page", 1); ("c.org", 2)].

Definition proposed_citations : list json :=
  [JObj [("id", JInt 1); ("title", JStr "A"); ("url", JStr "https://www.a.com/x")];
   JObj [("title", JStr "no id"); ("url", JStr "http://b.com/")];
   JStr "not a dict";
   JObj [("id", JStr "two"); ("title", JStr "B"); ("url", JStr "http://b.com/")];
   JObj [("id", JStr " 3 "); ("title", JStr "C"); ("url", JStr "https://c.org/y")]].

Definition synthesis_json : dict :=
  [("overview", JStr "Rocq is a proof assistant [1][3].");
   ("topics", JArr []);
   ("citations", JArr proposed_citations)].

(** A serializer that fails on the citation numbered 2. *)
Definition failing_dump (c : Citation) : res dict :=
  if cit_id c =? 2 then Err TypeError else Ok (citation_dump c).

Definition synthesized_state : AgentState :=
  with_citations (Some [mkCitation 1 "A" "https://www.a.com/x" None None;
                        mkCitation 2 "B" "http://b.com/" None None])
    (with_topics (Some [[("title", "Kernel"); ("content", "Small [1].")]])
       (with_overview (JStr "Rocq is a proof assistant [1].")
          (state_with_results three_sites))).

(** A provider response with a knowledge-graph image and three organic
    entries, the second without a link. *)
Definition serp_organic : list json :=
  [JObj [("link", JStr "https://www.a.com/x"); ("title", JStr "A");
         ("description", JStr "about a")];
   JObj [("title", JStr "no link")];
   JObj [("link", JStr "http://b.com/"); ("title", JStr "B"); ("snippet", JStr "about b")]].

Definition serp_body : dict :=
  [("knowledge_graph", JObj [("image", JStr "https://img.example/kg.png")]);
   ("organic", JArr serp_organic)].

Definition serp_response : dict :=
  [("status_code", JInt 200); ("headers", JObj []); ("body", JObj serp_body)].

Definition plain_dump (c : Citation) : res dict := Ok (citation_dump c).

(** The search answers, the LLM returns the synthesis, the image
    provider is down. *)
Definition answering_world : World :=
  mkWorld (decode_table [("synthesis", JObj synthesis_json)]) no_urlparse no_repr plain_dump
    (HttpJson (JObj serp_response)) (LLMChoices [Some "synthesis"]) (fun _ => TransportError)
    "2026-01-01T00:00:00+00:00" "2026-01-01T00:00:01+00:00".

(** The search provider answers with an HTML page. *)
Definition blocked_world : World :=
  mkWorld (decode_table []) no_urlparse no_repr plain_dump
    (HttpJson (JObj blocked_response)) LLMError (fun _ => TransportError)
    "2026-01-01T00:00:00+00:00" "2026-01-01T00:00:01+00:00".

(** The state the search stage returns on the response above. *)
Definition searched_state : AgentState :=
  state_of (search (decode_table []) no_urlparse keyed_config (HttpJson (JObj serp_response))
              (initial_state "what is rocq")).

(** The state a run of the pipeline ends with in [answering_world]. *)
Definition answered_state : AgentState :=
  state_of (run_pipeline answering_world keyed_config (initial_state "what is rocq")).

(** * Facts *)

(** ** Strings *)


Lemma rstrip_by_snoc (p : ascii -> bool) (s : string) (c : ascii) :
  Py.rstrip_by p (s ++ String c EmptyString)
  = if p c then Py.rstrip_by p s else s ++ String c EmptyString.
Proof.
  induction s as [|d s IH]; simpl.
  - by destruct (p c).
  - rewrite IH. destruct (p c) eqn:Hc.
    + done.
    + by destruct s.
Qed.

Lemma rstrip_by_cons (p : ascii -> bool) (c : ascii) (s : string) :
  Py.rstrip_by p (String c s)
  = match Py.rstrip_by p s with
    | EmptyString => if p c then EmptyString else String c EmptyString
    | r => String c r
    end.
Proof. reflexivity. Qed.

Lemma app_cons (c : ascii) (s t : string) : String c s ++ t = String c (s ++ t).
Proof. reflexivity. Qed.


Lemma rstrip_by_length (p : ascii -> bool) (s : string) :
  (String.length (Py.rstrip_by p s) <= String.length s)%nat.
Proof.
  induction s as [|c s IH]; simpl; [lia|].
  destruct (Py.rstrip_by p s); [destruct (p c)|]; simpl in *; lia.
Qed.

Lemma lstrip_by_length (p : ascii -> bool) (s : string) :
  (String.length (Py.lstrip_by p s) <= String.length s)%nat.
Proof.
  induction s as [|c s IH]; simpl; [lia|].
  destruct (p c); simpl; lia.
Qed.

(** ** The normaliser *)

Lemma strip_one_snoc (s : string) (c : ascii) :
  strip_one_trailing_slash (s ++ String c EmptyString)
  = if Py.is_slash c then s else s ++ String c EmptyString.
Proof.
  induction s as [|d s IH].
  - simpl. by destruct (Py.is_slash c).
  - rewrite !app_cons. simpl. rewrite IH.
    destruct (s ++ String c "") eqn:E.
    + destruct s; discriminate.
    + destruct (Py.is_slash c); [done|]. by rewrite <- E.
Qed.

Lemma string_snoc_view (s : string) :
  s = EmptyString \/ exists t c, s = t ++ String c EmptyString.
Proof.
  induction s as [|d s IH]; [by left|right].
  destruct IH as [->|(t & c & ->)].
  - by exists EmptyString, d.
  - by exists (String d t), c.
Qed.

Lemma length_snoc (t : string) (c : ascii) :
  String.length (t ++ String c EmptyString) = S (String.length t).
Proof. induction t as [|d t IH]; [done|]. rewrite app_cons. simpl. by rewrite IH. Qed.

Lemma iter_fixed {A} (f : A -> A) (x : A) (n : nat) : f x = x -> Nat.iter n f x = x.
Proof. intros H. induction n; simpl; [done|]. by rewrite IHn. Qed.

Lemma rstrip_slash_iter (n : nat) (s : string) :
  (String.length s <= n)%nat ->
  Nat.iter n strip_one_trailing_slash s = Py.rstrip_by Py.is_slash s.
Proof.
  revert s. induction n as [|n IH]; intros s Hn.
  - destruct s; [done | simpl in Hn; lia].
  - rewrite Nat.iter_succ_r.
    destruct (string_snoc_view s) as [->|(t & c & ->)].
    + simpl. by apply iter_fixed.
    + rewrite strip_one_snoc, rstrip_by_snoc. rewrite length_snoc in Hn.
      destruct (Py.is_slash c) eqn:Hc.
      * apply IH. lia.
      * apply iter_fixed. by rewrite strip_one_snoc, Hc.
Qed.

Lemma strip_trailing_slashes_rstrip (s : string) :
  strip_trailing_slashes s = Py.rstrip_by Py.is_slash s.
Proof. by apply rstrip_slash_iter. Qed.

(** C4 (as amended).  For every input string the normaliser lower-cases
    it, strips the surrounding white space, strips every trailing slash
    (not one only), strips a leading [http://] and then a leading
    [https://], and strips a leading [www.]; and
    [normalize("HTTP://WWW.Example.com/Path/")] equals
    [normalize("example.com/Path")]. *)
Theorem normalize_url_as_amended (url : string) :
  _normalize_url url = normalize_as_amended url
  /\ _normalize_url "HTTP://WWW.Example.com/Path/" = _normalize_url "example.com/Path".
Proof.
  split; [|reflexivity].
  unfold _normalize_url, normalize_as_amended.
  destruct url as [|c url]; [reflexivity|].
  cbn [Py.truthy_str negb fold_left].
  rewrite strip_trailing_slashes_rstrip.
  reflexivity.
Qed.

(** C4, as stated, fails on a URL that ends in two slashes: stripping a
    single trailing slash leaves ["a/"], the code returns ["a"]. *)
Lemma normalize_url_single_slash_counterexample :
  normalize_as_specified "a//" = "a/"
  /\ _normalize_url "a//" = "a"
  /\ _normalize_url "a//" <> normalize_as_specified "a//".
Proof. split; [reflexivity | split; [reflexivity | discriminate]]. Qed.

(** ** The matcher *)

Lemma app_assoc_str (s t u : string) : (s ++ t) ++ u = s ++ (t ++ u).
Proof. induction s as [|c s IH]; [done|]. by rewrite !app_cons, IH. Qed.

Lemma app_empty_l (s : string) : "" ++ s = s.
Proof. reflexivity. Qed.





Lemma prefix_empty (x : string) : String.prefix "" x = true.
Proof. by destruct x. Qed.














Example bare_example : bare "Example.com/Path" = true.
Proof. reflexivity. Qed.

Example match_decorated_example :
  _match_url "HTTPS://WWW.Example.com/Path/" "example.com/path" = true
  /\ Py.lower "HTTPS://WWW.Example.com/Path/"
     = Py.lower (decorate (mkDecoration Https true true) "Example.com/Path")
  /\ Py.lower "example.com/path"
     = Py.lower (decorate (mkDecoration NoScheme false false) "Example.com/Path").
Proof. repeat split; reflexivity. Qed.

(** ** The enrichment stage *)

Section EnrichmentFacts.

Variable json_loads : string -> option json.
Variable urlparse : string -> res (string * string).
Variable provider : string -> http_outcome.
Variable cfg : Config.

Local Abbreviation enrich := (enrich_images json_loads urlparse provider cfg).
Local Abbreviation worker q := (fun title url =>
  fst (_search_image_for_citation json_loads urlparse provider title q url)).

Lemma citations_to_enrich_spec (cs : list Citation) (k i : nat) :
  i ∈ citations_to_enrich k cs ->
  (k <= i)%nat /\ exists c, cs !! (i - k)%nat = Some c /\ has_image c = false.
Proof.
  revert k. induction cs as [|c cs IH]; intros k; simpl.
  - by intros ?%elem_of_nil.
  - destruct (has_image c) eqn:Hc.
    + intros [Hle (c' & Hc' & Hi)]%IH. split; [lia|].
      exists c'. split; [|done].
      replace (i - k)%nat with (S (i - S k)) by lia. done.
    + intros [->|[Hle (c' & Hc' & Hi)]%IH]%elem_of_cons.
      * split; [lia|]. exists c. by rewrite Nat.sub_diag.
      * split; [lia|]. exists c'. split; [|done].
        replace (i - k)%nat with (S (i - S k)) by lia. done.
Qed.

Lemma citations_to_enrich_NoDup (cs : list Citation) (k : nat) :
  NoDup (citations_to_enrich k cs).
Proof.
  revert k. induction cs as [|c cs IH]; intros k; simpl; [constructor|].
  destruct (has_image c); [apply IH|].
  constructor; [|apply IH].
  intros [Hle _]%citations_to_enrich_spec. lia.
Qed.

(** The loop over the citations to enrich, position by position. *)
Lemma enrich_fold_invariant (q : string) (cs : list Citation) (todo : list nat)
    (acc : list Citation) (reqs : list string) :
  NoDup todo ->
  (forall i, i ∈ todo -> exists c, cs !! i = Some c /\ has_image c = false) ->
  (forall i, i ∈ todo -> acc !! i = cs !! i) ->
  length acc = length cs ->
  (forall i c, cs !! i = Some c ->
     exists c', acc !! i = Some c' /\ image_filled_or_kept (worker q) c c') ->
  let acc' := fst (fold_left (enrich_one json_loads urlparse provider q) todo (acc, reqs)) in
  length acc' = length cs
  /\ forall i c, cs !! i = Some c ->
       exists c', acc' !! i = Some c' /\ image_filled_or_kept (worker q) c c'.
Proof.
  revert acc reqs. induction todo as [|i todo IH]; intros acc reqs Hnd Htodo Hfresh Hlen Hinv.
  - done.
  - cbn [fold_left]. apply NoDup_cons in Hnd as [Hni Hnd].
    destruct (Htodo i) as (c & Hc & Hno); [set_solver|].
    assert (Hacc : acc !! i = Some c) by (rewrite Hfresh; [done | set_solver]).
    destruct (_search_image_for_citation json_loads urlparse provider
                (cit_title c) q (cit_url c)) as [r made] eqn:Hw.
    remember (enrich_one json_loads urlparse provider q (acc, reqs) i) as step eqn:Hstep.
    unfold enrich_one in Hstep. rewrite Hacc, Hw in Hstep.
    assert (Hkeep : forall reqs',
      let acc' := fst (fold_left (enrich_one json_loads urlparse provider q) todo (acc, reqs')) in
      length acc' = length cs
      /\ forall i c, cs !! i = Some c ->
           exists c', acc' !! i = Some c' /\ image_filled_or_kept (worker q) c c').
    { intros reqs'. apply IH; try done.
      - intros j Hj. apply Htodo. set_solver.
      - intros j Hj. apply Hfresh. set_solver. }
    destruct r as [[img|]|e]; [|subst step; apply Hkeep..].
    destruct (Py.truthy_str img) eqn:Himg; [|subst step; apply Hkeep].
    subst step. apply IH; try done.
    + intros j Hj. apply Htodo. set_solver.
    + intros j Hj. rewrite list_lookup_insert_ne by (intros ->; done).
      apply Hfresh. set_solver.
    + by rewrite length_insert.
    + intros j c0 Hj. destruct (decide (j = i)) as [->|Hne].
      * rewrite list_lookup_insert_eq by (by apply lookup_lt_Some in Hacc).
        exists (set_image img c). split; [done|].
        assert (c0 = c) as -> by congruence.
        right. split; [done|]. exists img. repeat split; try done.
        cbn. by rewrite Hw.
      * rewrite list_lookup_insert_ne by done. by apply Hinv.
Qed.

Lemma enrich_citations_spec (st : AgentState) :
  let st' := fst (enrich_citations json_loads urlparse provider st) in
  query st' = query st /\ history st' = history st /\ results st' = results st
  /\ ranked_results st' = ranked_results st /\ answer st' = answer st
  /\ overview st' = overview st /\ overview_image st' = overview_image st
  /\ topics st' = topics st /\ final_payload st' = final_payload st
  /\ length (or_empty (citations st')) = length (or_empty (citations st))
  /\ forall i c, or_empty (citations st) !! i = Some c ->
       exists c', or_empty (citations st') !! i = Some c'
                  /\ image_filled_or_kept (worker (query st)) c c'.
Proof.
  assert (Hsame : forall i c, or_empty (citations st) !! i = Some c ->
            exists c', or_empty (citations st) !! i = Some c'
                       /\ image_filled_or_kept (worker (query st)) c c').
  { intros i c Hc. exists c. split; [done | by left]. }
  unfold enrich_citations.
  destruct (or_empty (citations st)) as [|c0 cs0] eqn:Hcs.
  { cbn [fst]. rewrite Hcs. by repeat split. }
  destruct (citations_to_enrich 0 (c0 :: cs0)) as [|i0 todo0] eqn:Htodo.
  { cbn [fst]. rewrite Hcs. by repeat split. }
  rewrite <- Htodo. clear Htodo i0 todo0.
  destruct (enrich_fold_invariant (query st) (c0 :: cs0)
              (citations_to_enrich 0 (c0 :: cs0)) (c0 :: cs0) []) as [Hlen Hinv];
    try done.
  { apply citations_to_enrich_NoDup. }
  { intros i Hi. apply citations_to_enrich_spec in Hi as [_ (c & Hc & Hno)].
    rewrite Nat.sub_0_r in Hc. eauto. }
  destruct (fold_left _ (citations_to_enrich 0 (c0 :: cs0)) (c0 :: cs0, []))
    as [cs' reqs].
  cbn [fst] in *. by repeat split.
Qed.

End EnrichmentFacts.

(** C7.  When the image-provider credential (the API key or the zone) is
    missing, the enrichment stage returns the state unchanged and sends
    no request to the provider. *)
Theorem enrich_images_without_credential
    (json_loads : string -> option json) (urlparse : string -> res (string * string))
    (provider : string -> http_outcome) (cfg : Config) (st : AgentState) :
  present (opt_or (BRIGHT_DATA_API_KEY cfg) (SERPAPI_API_KEY cfg)) = false
  \/ present (SERP_ZONE cfg) = false ->
  enrich_images json_loads urlparse provider cfg st = (Returned st, []).
Proof.
  unfold enrich_images. intros [-> | ->]; [done|].
  by rewrite orb_true_r.
Qed.

(** C9.  The enrichment stage never clears or overwrites an existing
    citation image: whether it returns or raises, the citations keep
    their number and order; a citation whose image is neither [None] nor
    blank is left as it was; any other citation is left as it was or gets
    the non-empty image URL found for it, and nothing else of it
    changes. *)
Theorem enrich_images_keeps_existing_images
    (json_loads : string -> option json) (urlparse : string -> res (string * string))
    (provider : string -> http_outcome) (cfg : Config) (st : AgentState) :
  let st' := state_of (fst (enrich_images json_loads urlparse provider cfg st)) in
  let found := fun title url =>
    fst (_search_image_for_citation json_loads urlparse provider title (query st) url) in
  length (or_empty (citations st')) = length (or_empty (citations st))
  /\ forall i c, or_empty (citations st) !! i = Some c ->
       exists c', or_empty (citations st') !! i = Some c'
         /\ image_filled_or_kept found c c'
         /\ (has_image c = true -> c' = c)
         /\ (cit_image c <> None -> cit_image c' <> None).
Proof.
  intros st' found.
  assert (Hgoal : forall s : AgentState,
    length (or_empty (citations s)) = length (or_empty (citations st)) ->
    (forall i c, or_empty (citations st) !! i = Some c ->
       exists c', or_empty (citations s) !! i = Some c' /\ image_filled_or_kept found c c') ->
    length (or_empty (citations s)) = length (or_empty (citations st))
    /\ forall i c, or_empty (citations st) !! i = Some c ->
         exists c', or_empty (citations s) !! i = Some c'
           /\ image_filled_or_kept found c c'
           /\ (has_image c = true -> c' = c)
           /\ (cit_image c <> None -> cit_image c' <> None)).
  { intros s Hlen Hinv. split; [done|]. intros i c Hc.
    destruct (Hinv i c Hc) as (c' & Hc' & HR). exists c'.
    split; [done|]. split; [done|]. split.
    - intros Hhas. destruct HR as [->|[Hno _]]; [done | congruence].
    - intros Hsome. destruct HR as [->|(_ & img & _ & _ & ->)]; [done | discriminate]. }
  assert (Hid : forall i c, or_empty (citations st) !! i = Some c ->
            exists c', or_empty (citations st) !! i = Some c' /\ image_filled_or_kept found c c').
  { intros i c Hc. exists c. split; [done | by left]. }
  subst st'. unfold enrich_images.
  destruct (negb (present (opt_or (BRIGHT_DATA_API_KEY cfg) (SERPAPI_API_KEY cfg)))
            || negb (present (SERP_ZONE cfg)))%bool; [by apply Hgoal|].
  assert (Hcit : forall s reqs, citations s = citations st -> query s = query st ->
    let o := let '(st2, reqs') := enrich_citations json_loads urlparse provider s in
             (Returned st2, (reqs ++ reqs')%list) in
    length (or_empty (citations (state_of (fst o)))) = length (or_empty (citations st))
    /\ forall i c, or_empty (citations st) !! i = Some c ->
         exists c', or_empty (citations (state_of (fst o))) !! i = Some c'
           /\ image_filled_or_kept found c c'
           /\ (has_image c = true -> c' = c)
           /\ (cit_image c <> None -> cit_image c' <> None)).
  { intros s reqs Hc Hq.
    pose proof (enrich_citations_spec json_loads urlparse provider s) as Hs.
    destruct (enrich_citations json_loads urlparse provider s) as [st2 reqs'].
    cbn [fst state_of] in *. destruct Hs as (_&_&_&_&_&_&_&_&_& Hlen & Hinv).
    rewrite Hc, Hq in *. by apply Hgoal. }
  destruct (negb (PyVal.truthy (overview_image st))).
  - destruct (Py.truthy_str (query st)); [|by apply (Hcit st [])].
    destruct (_search_overview_image json_loads provider (query st))
      as [[[img|]|e] reqs].
    + destruct (Py.truthy_str img); [|by apply Hcit].
      apply Hcit; by destruct st.
    + by apply Hcit.
    + by apply Hgoal.
  - destruct (overview_image st); first [by apply (Hcit st []) | by apply Hgoal].
Qed.

(** ** The formatter *)

Lemma full_response_text (s : string) (tps : list topic) :
  full_response (JStr s) tps = Ok (JStr (history_text s tps)).
Proof.
  revert s. induction tps as [|t tps IH]; intros s; [done|].
  cbn [full_response iadd res_bind]. by rewrite IH.
Qed.

Lemma map_res_err {A B} (f : A -> res B) (l : list A) (x : A) (e : exn) :
  x ∈ l -> f x = Err e -> exists e', map_res f l = Err e'.
Proof.
  intros Hin Hx. induction l as [|y l IH]; [by apply elem_of_nil in Hin|].
  cbn [map_res]. destruct (f y) as [b|e0] eqn:Hy; [|by eexists].
  apply elem_of_cons in Hin as [->|Hin]; [congruence|].
  destruct (IH Hin) as [e' ->]. by eexists.
Qed.

Section FormatterFacts.

Variable model_dump : Citation -> res dict.

Lemma chosen_overview_text (st : AgentState) :
  is_text (overview st) = true -> is_text (answer st) = true ->
  exists s, chosen_overview st = JStr s.
Proof.
  unfold chosen_overview, PyVal.por.
  destruct (overview st) as [| | | |s| |]; try done;
    destruct (answer st) as [| | | |s'| |]; try done; intros _ _;
    cbn [PyVal.truthy];
    repeat match goal with
           | |- context [Py.truthy_str ?x] =>
               let E := fresh "E" in
               destruct (Py.truthy_str x) eqn:E; cbn [PyVal.truthy]; rewrite ?E
           end;
    by eexists.
Qed.

(** On a state whose overview is a string, the turn is appended (if
    the overview is not empty) and nothing else changes. *)
Lemma append_turn_text (st : AgentState) (s : string) :
  chosen_overview st = JStr s ->
  append_turn st
  = Ok (if Py.truthy_str s
        then with_history
               ((history st ++ [assistant_turn (history_text s (or_empty (topics st)))])%list) st
        else st).
Proof.
  intros Hs. unfold append_turn. rewrite Hs. cbn [PyVal.truthy].
  destruct (Py.truthy_str s); [|done].
  by rewrite full_response_text.
Qed.

Lemma format_output_text (ts fts : string) (st : AgentState) (s : string) :
  chosen_overview st = JStr s ->
  let h := if Py.truthy_str s
           then (history st ++ [assistant_turn (history_text s (or_empty (topics st)))])%list
           else history st in
  format_output model_dump ts fts st
  = Returned
      (with_final_payload
         (Some (match map_res model_dump (or_empty (citations st)) with
                | Ok sources =>
                    mkPayload (query st) (JStr s) (overview_image st)
                      (or_empty (topics st)) sources ts
                | Err _ =>
                    mkPayload (query st) (JStr s) (overview_image st)
                      (or_empty (topics st)) [] fts
                end))
         (with_history h st)).
Proof.
  intros Hs h. unfold format_output. rewrite (append_turn_text st s Hs).
  assert (Hst : (if Py.truthy_str s
                 then with_history
                        ((history st ++ [assistant_turn (history_text s (or_empty (topics st)))])%list) st
                 else st) = with_history h st).
  { subst h. destruct (Py.truthy_str s); [done | by destruct st]. }
  rewrite Hst.
  assert (Hch : chosen_overview (with_history h st) = JStr s) by (by rewrite <- Hs).
  unfold fallback_payload. rewrite Hch. cbn [citations with_history].
  by destruct (map_res model_dump (or_empty (citations st))).
Qed.

End FormatterFacts.

(** C8.  Two runs of the formatter on the same state value build
    payloads that agree in every field except the timestamp.  On a state
    whose overview and answer are strings or [None], the formatter leaves
    the query, the overview, the answer, the overview image, the topics
    and the citations as they were, so a second run on the state the
    first run returned again builds the same payload up to the
    timestamp. *)
Theorem format_output_idempotent_up_to_timestamp
    (model_dump : Citation -> res dict) (ts1 fts1 ts2 fts2 : string) (st : AgentState) :
  let st1 := state_of (format_output model_dump ts1 fts1 st) in
  (exists p1 p2,
     final_payload st1 = Some p1
     /\ final_payload (state_of (format_output model_dump ts2 fts2 st)) = Some p2
     /\ payload_sans_timestamp p1 = payload_sans_timestamp p2)
  /\ (is_text (overview st) = true -> is_text (answer st) = true ->
      query st1 = query st /\ overview st1 = overview st /\ answer st1 = answer st
      /\ overview_image st1 = overview_image st /\ topics st1 = topics st
      /\ citations st1 = citations st
      /\ exists p1 p2,
           final_payload st1 = Some p1
           /\ final_payload (state_of (format_output model_dump ts2 fts2 st1)) = Some p2
           /\ payload_sans_timestamp p1 = payload_sans_timestamp p2).
Proof.
  intros st1. split.
  - subst st1. unfold format_output.
    destruct (append_turn st) as [st'|e]; [|by eexists _, _].
    destruct (map_res model_dump (or_empty (citations st'))); by eexists _, _.
  - intros Ho Ha.
    destruct (chosen_overview_text st Ho Ha) as [s Hs].
    subst st1. rewrite (format_output_text model_dump ts1 fts1 st s Hs).
    cbn [state_of]. repeat (split; [done|]).
    set (h := if Py.truthy_str s then _ else _).
    set (st1 := with_final_payload _ (with_history h st)).
    assert (Hs1 : chosen_overview st1 = JStr s) by (by rewrite <- Hs).
    rewrite (format_output_text model_dump ts2 fts2 st1 s Hs1).
    cbn [state_of]. subst st1. cbn [final_payload with_final_payload citations with_history
      topics query overview_image].
    eexists _, _. split; [done|]. split; [done|].
    by destruct (map_res model_dump (or_empty (citations st))).
Qed.

(** C10.  The formatter appends the assistant turn to the history before
    it assembles the payload: when the overview is a non-empty string and
    a citation fails to serialize, the stage returns with the fallback
    payload (empty sources, the handler's timestamp) and with the turn
    appended to the history all the same. *)
Theorem format_output_history_kept_on_failure
    (model_dump : Citation -> res dict) (ts fts : string) (st : AgentState)
    (s : string) (c : Citation) (e : exn) :
  chosen_overview st = JStr s -> Py.truthy_str s = true ->
  c ∈ or_empty (citations st) -> model_dump c = Err e ->
  format_output model_dump ts fts st
  = Returned
      (with_final_payload
         (Some (mkPayload (query st) (JStr s) (overview_image st)
                  (or_empty (topics st)) [] fts))
         (with_history
            ((history st ++ [assistant_turn (history_text s (or_empty (topics st)))])%list) st)).
Proof.
  intros Hs Hne Hin Hc.
  rewrite (format_output_text model_dump ts fts st s Hs). rewrite Hne.
  by destruct (map_res_err model_dump _ c e Hin Hc) as [e' ->].
Qed.

(** ** The search and synthesis stages *)

(** C1 (the code departs from it).  With credentials configured, a
    provider response whose [body] is a string that [json.loads]
    rejects makes the search stage raise [JSONDecodeError]: the handler
    of the stage catches [RequestException] only.  The exception ends the
    run of the pipeline, which leaves [final_payload] unset. *)
Theorem search_propagates_json_decode_error
    (json_loads : string -> option json) (urlparse : string -> res (string * string))
    (cfg : Config) (st : AgentState) (response : dict) (text : string) :
  present (opt_or (BRIGHT_DATA_API_KEY cfg) (SERPAPI_API_KEY cfg)) = true ->
  present (SERP_ZONE cfg) = true ->
  PyVal.dict_get response "body" (JObj []) = JStr text ->
  json_loads text = None ->
  search json_loads urlparse cfg (HttpJson (JObj response)) st
  = Propagated JSONDecodeError st
  /\ forall w : World,
       w_json_loads w = json_loads -> w_urlparse w = urlparse ->
       w_search w = HttpJson (JObj response) ->
       run_pipeline w cfg st = Propagated JSONDecodeError st
       /\ final_payload (state_of (run_pipeline w cfg (initial_state (query st)))) = None.
Proof.
  intros Hkey Hzone Hbody Hloads.
  assert (Hs : forall s, search json_loads urlparse cfg (HttpJson (JObj response)) s
                         = Propagated JSONDecodeError s).
  { intros s. unfold search. rewrite Hkey, Hzone. cbn [negb].
    unfold read_response. cbn [PyVal.get]. by rewrite Hbody, Hloads. }
  split; [apply Hs|].
  intros w Hl Hu Hw. unfold run_pipeline. rewrite Hl, Hu, Hw, !Hs. by cbn.
Qed.

Lemma malformed_not_built (by_url : gmap string SearchResult) (c : json) :
  malformed_citation c -> exists e, build_citation by_url c = Err e.
Proof.
  destruct c as [| | | | | |d]; try (intros _; eexists; reflexivity).
  unfold malformed_citation, build_citation, PyVal.dict_get.
  destruct (PyVal.lookup_key "id" d) as [cid|]; [|intros _; eexists; reflexivity].
  intros [e He].
  destruct (match PyVal.lookup_key "url" d with Some v => v | None => JStr "" end) eqn:Hu;
    destruct cid; try (eexists; reflexivity);
    cbn [res_bind]; rewrite He; eexists; reflexivity.
Qed.

Lemma build_citation_fields (by_url : gmap string SearchResult) (e : json) (c : Citation) :
  build_citation by_url e = Ok c -> citation_of_entry e c.
Proof.
  destruct e as [| | | | | |d]; try discriminate.
  unfold build_citation, citation_of_entry.
  destruct (PyVal.dict_get d "id" JNull) eqn:Hid; try discriminate;
    (destruct (PyVal.dict_get d "url" (JStr "")) as [| | | |u| |] eqn:Hu; try discriminate;
     match goal with
     | |- res_bind ?r _ = _ -> _ => destruct r as [id|] eqn:Hint; [|discriminate]
     end;
     cbn [res_bind];
     destruct (PyVal.dict_get d "title" (JStr "")) as [| | | |t| |] eqn:Ht; try discriminate;
     intros [= <-]; exists d; by rewrite ?Hid, ?Hu, ?Ht).
Qed.

Lemma kept_entries_citations by_url cits :
  (kept_entries by_url cits).*2 = build_citations by_url cits.
Proof.
  induction cits as [|e cits IH]; [done|].
  unfold kept_entries, build_citations in *. cbn [omap list_omap].
  destruct (build_citation by_url e); cbn; by rewrite ?IH.
Qed.

Lemma kept_entries_sublist by_url cits :
  sublist (kept_entries by_url cits).*1 cits.
Proof.
  induction cits as [|e cits IH]; [constructor|].
  unfold kept_entries in *. cbn [omap list_omap].
  destruct (build_citation by_url e); cbn; by constructor.
Qed.

Lemma kept_entries_elem by_url cits e c :
  (e, c) ∈ kept_entries by_url cits <-> e ∈ cits /\ build_citation by_url e = Ok c.
Proof.
  unfold kept_entries. rewrite list_elem_of_omap. split.
  - intros (e' & Hin & He'). destruct (build_citation by_url e') eqn:Hb; [|done].
    injection He' as <- <-. done.
  - intros [Hin Hb]. exists e. by rewrite Hb.
Qed.

(** An entry that passes the structural checks is built into a
    citation, with its id, title and URL and no image. *)
Lemma valid_citation_built (by_url : gmap string SearchResult) (e : json)
    (id : Z) (title url : string) :
  valid_citation e id title url ->
  exists c, build_citation by_url e = Ok c
    /\ cit_id c = id /\ cit_title c = title /\ cit_url c = url /\ cit_image c = None.
Proof.
  intros (d & cid & -> & Hid & Hint & Htitle & Hurl).
  unfold build_citation, PyVal.dict_get in *. rewrite Hid.
  destruct (match PyVal.lookup_key "url" d with Some v => v | None => JStr "" end);
    try discriminate.
  destruct (match PyVal.lookup_key "title" d with Some v => v | None => JStr "" end);
    try discriminate.
  injection Htitle as ->. injection Hurl as ->.
  destruct cid; try discriminate; rewrite Hint; cbn [res_bind]; by eexists.
Qed.

(** C6.  When the synthesis response parses to a JSON object, the
    citations stored are the first five, in the order the LLM gave them,
    of the citations built from the entries that pass validation: an
    entry that is not a dict, has no id, or has an id that [int()]
    rejects is dropped; every entry that passes the structural checks
    (a dict with an id that [int()] converts, a string title and a
    string URL) survives, as a citation with that id, title and URL; and
    the stored list is a prefix of the survivors, of length at most
    five, each built from the fields of its own entry. *)
Theorem synthesize_citations_prefix_of_valid
    (json_loads : string -> option json) (py_repr : json -> string) (cfg : Config)
    (st : AgentState) (content : string) (rest : list (option string)) (data : dict) :
  present (OPENAI_API_KEY cfg) = true ->
  or_empty (results st) <> [] ->
  Py.truthy_str content = true ->
  json_loads content = Some (JObj data) ->
  let proposed :=
    match PyVal.dict_get data "citations" (JArr []) with
    | JArr l => l
    | _ => []
    end in
  let by_url := url_to_result (or_empty (results st)) in
  let st' := state_of (synthesize json_loads py_repr cfg (LLMChoices (Some content :: rest)) st) in
  exists kept : list (json * Citation),
    citations st' = Some (firstn 5 kept.*2)
    /\ (length (firstn 5 kept.*2) <= 5)%nat
    /\ sublist kept.*1 proposed
    /\ Forall (fun ec => build_citation by_url ec.1 = Ok ec.2 /\ citation_of_entry ec.1 ec.2) kept
    /\ (forall e, e ∈ proposed -> malformed_citation e -> e ∉ kept.*1)
    /\ (forall e id title url,
          e ∈ proposed -> valid_citation e id title url ->
          exists c, (e, c) ∈ kept
            /\ cit_id c = id /\ cit_title c = title /\ cit_url c = url
            /\ cit_image c = None)
    /\ (forall e c, e ∈ proposed -> build_citation by_url e = Ok c -> (e, c) ∈ kept).
Proof.
  intros Hkey Hres Hc Hloads proposed by_url st'.
  exists (kept_entries by_url proposed).
  assert (Hbuilt : forall e c, (e, c) ∈ kept_entries by_url proposed ->
                     build_citation by_url e = Ok c).
  { intros e c Hin. by apply kept_entries_elem in Hin as [_ ?]. }
  split; [|split; [|split; [|split; [|split; [|split]]]]].
  - subst st'. unfold synthesize. rewrite Hkey. cbn [negb].
    destruct (or_empty (results st)) as [|r rs] eqn:Hrs; [done|].
    cbn [Py.slice_to Z.leb Z.compare Z.to_nat Pos.to_nat Pos.iter_op Init.Nat.add firstn].
    rewrite Hc. cbn [state_of]. unfold synthesize_with. rewrite Hloads.
    cbn [citations with_citations results with_topics with_answer with_overview].
    rewrite Hrs. by rewrite kept_entries_citations.
  - rewrite length_take. lia.
  - apply kept_entries_sublist.
  - apply Forall_forall. intros [e c] Hin. cbn [fst snd].
    split; [by apply Hbuilt | eapply build_citation_fields; by apply Hbuilt].
  - intros e Hin Hbad Hkept. apply list_elem_of_fmap in Hkept as ([e' c] & -> & Hk).
    cbn [fst] in *. apply Hbuilt in Hk.
    destruct (malformed_not_built by_url e' Hbad) as [x Hx]. congruence.
  - intros e id title url Hin Hvalid.
    destruct (valid_citation_built by_url e id title url Hvalid) as (c & Hb & Hfields).
    exists c. split; [by apply kept_entries_elem | done].
  - intros e c Hin Hb. by apply kept_entries_elem.
Qed.

(** ** Sorting and slices *)

(** *** Stable sorting *)

Section Sorting.

Context {A : Type} (key : A -> Z).

Lemma insert_by_perm (x : A) (l : list A) : insert_by key x l ≡ₚ x :: l.
Proof.
  induction l as [|y l IH]; [done|]. cbn [insert_by].
  destruct (key x <=? key y); [done|].
  rewrite IH. apply Permutation_swap.
Qed.

Lemma sorted_by_cons (x : A) (l : list A) :
  sorted_by key (x :: l) = insert_by key x (sorted_by key l).
Proof. reflexivity. Qed.

Lemma sorted_by_perm (l : list A) : sorted_by key l ≡ₚ l.
Proof.
  induction l as [|x l IH]; [done|].
  rewrite sorted_by_cons, insert_by_perm. by constructor.
Qed.

Lemma sorted_by_length (l : list A) : length (sorted_by key l) = length l.
Proof. by rewrite sorted_by_perm. Qed.

Lemma insert_by_sorted (x : A) (l : list A) :
  StronglySorted (ascending key) l -> StronglySorted (ascending key) (insert_by key x l).
Proof.
  induction 1 as [|y l Hs IH Hall]; cbn [insert_by].
  - by repeat constructor.
  - destruct (key x <=? key y) eqn:Hxy.
    + apply Z.leb_le in Hxy. constructor; [by constructor|].
      constructor; [done|].
      eapply Forall_impl; [exact Hall|]. unfold ascending. intros z Hz. lia.
    + apply Z.leb_gt in Hxy. constructor; [done|].
      rewrite insert_by_perm. constructor; [unfold ascending; lia | done].
Qed.

Lemma sorted_by_sorted (l : list A) : StronglySorted (ascending key) (sorted_by key l).
Proof.
  induction l as [|x l IH]; [constructor|].
  rewrite sorted_by_cons. by apply insert_by_sorted.
Qed.

(** Elements with equal keys keep their order. *)
Lemma insert_by_filter (k : Z) (x : A) (l : list A) :
  StronglySorted (ascending key) l ->
  filter (fun y => key y = k) (insert_by key x l)
  = filter (fun y => key y = k) (x :: l).
Proof.
  induction 1 as [|y l Hs IH Hall]; [done|]. cbn [insert_by].
  destruct (key x <=? key y) eqn:Hxy; [done|]. apply Z.leb_gt in Hxy.
  rewrite filter_cons, IH, !(filter_cons _ x), (filter_cons _ y).
  destruct (decide (key y = k)) as [Hy|Hy], (decide (key x = k)) as [Hx|Hx]; try done.
  lia.
Qed.

Lemma sorted_by_stable (k : Z) (l : list A) :
  filter (fun y => key y = k) (sorted_by key l) = filter (fun y => key y = k) l.
Proof.
  induction l as [|x l IH]; [done|].
  rewrite sorted_by_cons.
  rewrite insert_by_filter by apply sorted_by_sorted.
  by rewrite !filter_cons, IH.
Qed.

(** In a sorted list, an element with a greater key never comes first. *)
Lemma sorted_by_order (l : list A) (p q : nat) (a b : A) :
  sorted_by key l !! p = Some a -> sorted_by key l !! q = Some b ->
  key b < key a -> (q < p)%nat.
Proof.
  intros Ha Hb Hlt.
  destruct (decide (q < p)%nat) as [|Hge]; [done|exfalso].
  destruct (decide (p = q)) as [->|Hne]; [assert (a = b) by congruence; subst; lia|].
  assert (Hpq : (p < q)%nat) by lia.
  pose proof (sorted_by_sorted l) as Hs.
  revert p q Ha Hb Hge Hne Hpq. induction Hs as [|y l' Hs IH Hall]; intros p q Ha Hb Hge Hne Hpq.
  - done.
  - destruct p as [|p], q as [|q]; try lia.
    + cbn in Ha, Hb. injection Ha as ->.
      rewrite Forall_forall in Hall.
      assert (key a <= key b); [|lia]. apply Hall. by eapply list_elem_of_lookup_2.
    + cbn in Ha, Hb. eapply (IH p q); try done; lia.
Qed.

End Sorting.

Lemma insert_by_fmap {A B} (f : A -> B) (key : B -> Z) (x : A) (l : list A) :
  f <$> insert_by (fun a => key (f a)) x l = insert_by key (f x) (f <$> l).
Proof.
  induction l as [|y l IH]; [done|]. cbn [insert_by fmap list_fmap].
  destruct (key (f x) <=? key (f y)); [done|]. cbn. by rewrite <- IH.
Qed.

Lemma sorted_by_fmap {A B} (f : A -> B) (key : B -> Z) (l : list A) :
  f <$> sorted_by (fun a => key (f a)) l = sorted_by key (f <$> l).
Proof.
  induction l as [|x l IH]; [done|].
  rewrite fmap_cons, !sorted_by_cons, insert_by_fmap. by rewrite IH.
Qed.

Lemma insert_by_ext {A} (k1 k2 : A -> Z) (x : A) (l : list A) :
  (forall y, y ∈ x :: l -> k1 y = k2 y) -> insert_by k1 x l = insert_by k2 x l.
Proof.
  induction l as [|y l IH]; intros H; [done|]. cbn [insert_by].
  rewrite (H x), (H y) by set_solver.
  destruct (k2 x <=? k2 y); [done|]. f_equal. apply IH. intros z Hz. apply H. set_solver.
Qed.

Lemma sorted_by_ext {A} (k1 k2 : A -> Z) (l : list A) :
  (forall y, y ∈ l -> k1 y = k2 y) -> sorted_by k1 l = sorted_by k2 l.
Proof.
  induction l as [|x l IH]; intros H; [done|].
  rewrite !sorted_by_cons.
  rewrite IH by (intros y Hy; apply H; set_solver).
  apply insert_by_ext. intros y Hy. apply H.
  apply elem_of_cons in Hy as [->|Hy]; [set_solver|].
  rewrite sorted_by_perm in Hy. set_solver.
Qed.

(** *** Slices *)

Lemma slice_to_take {A} (n : Z) (l : list A) :
  exists k, (k <= length l)%nat /\ Py.slice_to n l = take k l
            /\ (0 <= n -> k = min (Z.to_nat n) (length l)).
Proof.
  unfold Py.slice_to. destruct (0 <=? n) eqn:Hn.
  - exists (min (Z.to_nat n) (length l)). split; [lia|]. split; [|done].
    destruct (decide (Z.to_nat n <= length l)%nat).
    + by rewrite Nat.min_l by lia.
    + rewrite Nat.min_r by lia. rewrite !take_ge; [done|lia..].
  - apply Z.leb_gt in Hn. exists (length l - Z.to_nat (- n))%nat.
    split; [lia|]. split; [done|lia].
Qed.

Lemma slice_to_fmap {A B} (f : A -> B) (n : Z) (l : list A) :
  f <$> Py.slice_to n l = Py.slice_to n (f <$> l).
Proof. unfold Py.slice_to. rewrite length_fmap. destruct (0 <=? n); apply fmap_take. Qed.

Lemma slice_to_length_eq {A B} (n : Z) (l : list A) (l' : list B) (k : nat) :
  length l = length l' -> Py.slice_to n l = take k l -> (k <= length l)%nat ->
  Py.slice_to n l' = take k l'.
Proof.
  unfold Py.slice_to. intros Hlen Ht Hk. rewrite <- Hlen.
  destruct (0 <=? n).
  - apply (f_equal length) in Ht. rewrite !length_take in Ht.
    destruct (decide (Z.to_nat n <= length l)%nat).
    + f_equal. lia.
    + rewrite !take_ge; [done|lia..].
  - apply (f_equal length) in Ht. rewrite !length_take in Ht. f_equal. lia.
Qed.

Lemma slice_to_subseteq {A} (n : Z) (l : list A) (x : A) : x ∈ Py.slice_to n l -> x ∈ l.
Proof.
  destruct (slice_to_take n l) as (k & _ & -> & _). apply subseteq_take.
Qed.

(** ** The ranking stage *)

(** *** Assignments the models of [state.py] refuse *)

Lemma assign_ranked_results_refused (refs : list nat) (st : AgentState) :
  assign_ranked_results refs st = Err ValueError.
Proof. reflexivity. Qed.

Lemma assign_score_refused (v : float) (r : SearchResult) :
  assign_score v r = Err ValueError.
Proof. reflexivity. Qed.

Lemma with_results_same (st : AgentState) (h : heap) :
  results st = Some h -> with_results (Some h) st = st.
Proof. destruct st. cbn. by intros ->. Qed.

(** *** The first loop *)

(** A round of the first loop that completes has assigned nothing. *)
Lemma rank_entry_unchanged (e : json) (ms s : ranked_map * heap) :
  rank_entry e ms = Ok s -> s = ms.
Proof.
  destruct ms as [m h].
  assert (Hsame : Ok (m, h) = Ok s -> s = (m, h)) by (by intros [= <-]).
  destruct e as [| | | | | |d]; cbn [rank_entry]; try exact Hsame.
  destruct (negb (PyVal.is_number (PyVal.dict_get d "rank" JNull))
            || negb (PyVal.truthy (PyVal.dict_get d "url" JNull)))%bool; [exact Hsame|].
  destruct (PyVal.dict_get d "url" JNull) as [| | | |u| |];
    try (destruct h; [exact Hsame | discriminate]).
  destruct (resolve u h) as [[i r]|]; [|exact Hsame].
  destruct (PyVal.to_int (PyVal.dict_get d "rank" JNull)) as [rk|]; [|discriminate].
  cbn [res_bind]. destruct (PyVal.float_of_int rk) as [f|]; [|discriminate].
  cbn [res_bind]. rewrite assign_score_refused. discriminate.
Qed.

Lemma rank_loop_unchanged (entries : list json) (ms s : ranked_map * heap) (oe : option exn) :
  run_loop rank_entry entries ms = (oe, s) -> s = ms.
Proof.
  revert ms. induction entries as [|e entries IH]; intros ms; cbn [run_loop].
  - by intros [= _ <-].
  - destruct (rank_entry e ms) as [s1|err] eqn:He.
    + apply rank_entry_unchanged in He as ->. apply IH.
    + by intros [= _ <-].
Qed.

(** The first loop stops at the first entry that resolves to a result:
    the assignment of its score (line 106) raises. *)
Lemma rank_loop_raises (h : heap) (rks : list (string * Z)) (entries : list json)
    (m : ranked_map) :
  Forall2 (fun e ur => ranking_entry e ur.1 ur.2) entries rks ->
  Forall (fun ur => exists f, PyVal.float_of_int ur.2 = Ok f) rks ->
  (exists ur, ur ∈ rks /\ is_Some (resolve ur.1 h)) ->
  run_loop rank_entry entries (m, h) = (Some ValueError, (m, h)).
Proof.
  induction 1 as [|e [u rk] entries rks (d & -> & Hu & Hne & Hrk) Hrest IH];
    intros Hfl (ur & Hin & Hres).
  - by apply elem_of_nil in Hin.
  - apply Forall_cons in Hfl as [[f Hf] Hfl]. cbn [fst snd] in *.
    cbn [run_loop rank_entry]. rewrite Hu, Hrk.
    cbn [PyVal.is_number PyVal.truthy negb orb]. rewrite Hne. cbn [negb].
    destruct (resolve u h) as [[i r]|] eqn:Hu_res.
    + cbn [PyVal.to_int res_bind]. rewrite Hf. cbn [res_bind].
      by rewrite assign_score_refused.
    + apply IH; [done|]. exists ur. split; [|done].
      apply elem_of_cons in Hin as [->|Hin]; [|done].
      cbn [fst] in Hres. rewrite Hu_res in Hres. by destruct Hres.
Qed.

(** *** The stage *)

Section RankingFacts.

Variable json_loads : string -> option json.
Variable cfg : Config.

(** The fallback block raises at its first statement. *)
Lemma fallback_raises (h : heap) (st : AgentState) :
  fallback cfg h st = Propagated ValueError st.
Proof. reflexivity. Qed.

(** Whatever the content of the completion, the [try] block ends in
    an exception and has changed nothing. *)
Lemma rank_with_raised (content : string) (h : heap) (st : AgentState) :
  results st = Some h -> rank_with json_loads cfg content h st = Raised st.
Proof.
  intros Hres. unfold rank_with.
  destruct (json_loads content) as [ordered|]; [|done].
  destruct (iterate ordered) as [entries|]; [|done].
  destruct (run_loop rank_entry entries (∅, h)) as [oe [m h1]] eqn:Hloop.
  apply rank_loop_unchanged in Hloop. injection Hloop as -> ->.
  rewrite (with_results_same st h Hres).
  destruct oe; [done|]. by rewrite decide_True.
Qed.

Lemma prioritize_sources_raises (llm : llm_outcome) (st : AgentState) :
  prioritize_sources json_loads cfg llm st = Propagated ValueError st.
Proof.
  unfold prioritize_sources.
  destruct (or_empty (results st)) as [|r0 h0] eqn:Hh; [done|].
  assert (Hres : results st = Some (r0 :: h0)).
  { destruct (results st) as [h|]; [|done]. cbn in Hh. by rewrite Hh. }
  destruct (negb (present (OPENAI_API_KEY cfg))); [done|].
  assert (Hhandler : fallback cfg (or_empty (results st)) st = Propagated ValueError st)
    by done.
  destruct llm as [|[|[c|] rest]]; try done.
  destruct (Py.truthy_str c); [|done].
  by rewrite (rank_with_raised c _ st Hres).
Qed.

End RankingFacts.

(** C2 (the code departs from it).  On a successful LLM call whose
    output parses as a list of [{url, rank}] entries, one of which
    resolves to a result, the first loop raises [ValueError] at the
    assignment of the score (line 106): [SearchResult] declares no such
    field.  The handler's own first statement, the assignment of
    [ranked_results] (line 137), raises [ValueError] again, which leaves
    the stage: no score is set, [ranked_results] is not assigned, the
    state is as it was. *)
Theorem ranking_raises_at_score_assignment
    (json_loads : string -> option json) (cfg : Config) (st : AgentState) (h : heap)
    (content : string) (rest : list (option string))
    (entries : list json) (rks : list (string * Z)) :
  results st = Some h ->
  present (OPENAI_API_KEY cfg) = true ->
  Py.truthy_str content = true ->
  json_loads content = Some (JArr entries) ->
  Forall2 (fun e ur => ranking_entry e ur.1 ur.2) entries rks ->
  Forall (fun ur => exists f, PyVal.float_of_int ur.2 = Ok f) rks ->
  (exists ur, ur ∈ rks /\ is_Some (resolve ur.1 h)) ->
  let o := prioritize_sources json_loads cfg (LLMChoices (Some content :: rest)) st in
  run_loop rank_entry entries (∅, h) = (Some ValueError, (∅, h))
  /\ rank_with json_loads cfg content h st = Raised st
  /\ fallback cfg h st = Propagated ValueError st
  /\ o = Propagated ValueError st
  /\ returned o = false
  /\ ranked_results (state_of o) = ranked_results st
  /\ results (state_of o) = results st.
Proof.
  intros Hres Hkey Hc Hloads Hent Hfl Hmatch o.
  assert (Ho : o = Propagated ValueError st) by apply prioritize_sources_raises.
  split; [by apply (rank_loop_raises h rks)|].
  split; [by apply rank_with_raised|].
  split; [apply fallback_raises|].
  split; [done|]. by rewrite Ho.
Qed.

(** C3 (the code departs from it).  For a non-empty list of results,
    when the LLM credential is absent, the LLM call fails or returns
    nothing, its output is not parseable JSON, or no proposed entry
    matches any result, the stage reaches the fallback block, whose
    first statement, the assignment of [ranked_results], raises
    [ValueError]: [AgentState] declares no such field.  The exception
    leaves the stage (from the block outside the [try], or from a
    handler): [ranked_results] is not set and no score is assigned. *)
Theorem ranking_fallback_raises
    (json_loads : string -> option json) (cfg : Config) (llm : llm_outcome)
    (st : AgentState) (h : heap) :
  results st = Some h -> h <> [] ->
  degraded json_loads cfg h llm ->
  let o := prioritize_sources json_loads cfg llm st in
  fallback cfg h st = Propagated ValueError st
  /\ o = fallback cfg h st
  /\ returned o = false
  /\ ranked_results (state_of o) = ranked_results st
  /\ results (state_of o) = results st.
Proof.
  intros Hres Hne Hdeg o.
  assert (Ho : o = Propagated ValueError st) by apply prioritize_sources_raises.
  split; [apply fallback_raises|]. split; [by rewrite Ho|]. by rewrite Ho.
Qed.

(** X3.  On every input and every outcome of the LLM call the ranking
    stage raises [ValueError] and leaves the state as it was: each path
    comes to an assignment of [ranked_results] or of a result's
    [reputability_score], which the classes of [state.py] do not
    declare, outside the [try] or inside a handler. *)
Theorem prioritize_sources_always_raises
    (json_loads : string -> option json) (cfg : Config) (llm : llm_outcome)
    (st : AgentState) :
  prioritize_sources json_loads cfg llm st = Propagated ValueError st.
Proof. apply prioritize_sources_raises. Qed.

(** ** More on the normaliser and the matcher *)

Lemma lower_char_not_upper (c : ascii) : is_upper (Py.lower_char c) = false.
Proof.
  destruct c as [[] [] [] [] [] [] [] []]; vm_compute; reflexivity.
Qed.

Lemma lower_no_upper (s : string) :
  string_forall (fun c => negb (is_upper c)) (Py.lower s) = true.
Proof.
  induction s as [|c s IH]; [done|]. cbn [Py.lower string_forall].
  by rewrite lower_char_not_upper, IH.
Qed.

Lemma string_forall_lstrip q p s :
  string_forall q s = true -> string_forall q (Py.lstrip_by p s) = true.
Proof.
  induction s as [|c s IH]; [done|]. cbn [Py.lstrip_by].
  destruct (p c); [|done]. cbn [string_forall]. intros [_ H]%andb_true_iff. by apply IH.
Qed.

Lemma string_forall_rstrip q p s :
  string_forall q s = true -> string_forall q (Py.rstrip_by p s) = true.
Proof.
  induction s as [|c s IH]; [done|]. rewrite rstrip_by_cons.
  cbn [string_forall]. intros [Hc H]%andb_true_iff.
  specialize (IH H). destruct (Py.rstrip_by p s).
  - destruct (p c); [done|]. cbn. by rewrite Hc.
  - cbn [string_forall] in *. by rewrite Hc, IH.
Qed.

Lemma string_forall_drop q n s :
  string_forall q s = true -> string_forall q (Py.drop n s) = true.
Proof.
  revert s. induction n as [|n IH]; intros s; [by destruct s|].
  destruct s as [|c s]; [done|]. cbn [Py.drop string_forall].
  intros [_ H]%andb_true_iff. by apply IH.
Qed.

Lemma drop_length n s : (String.length (Py.drop n s) <= String.length s)%nat.
Proof.
  revert s. induction n as [|n IH]; intros s; [by destruct s|].
  destruct s as [|c s]; [done|]. cbn [Py.drop String.length]. specialize (IH s). lia.
Qed.

Lemma lower_length s : String.length (Py.lower s) = String.length s.
Proof. induction s as [|c s IH]; [done|]. cbn. by rewrite IH. Qed.

(** A string that does not end in [p] keeps the property when characters
    are dropped from its front. *)
Lemma rstrip_by_fixed_tail p c s :
  Py.rstrip_by p (String c s) = String c s -> Py.rstrip_by p s = s.
Proof.
  rewrite rstrip_by_cons. destruct (Py.rstrip_by p s) eqn:E.
  - destruct (p c); [done|]. by intros [= <-].
  - by intros [= <-].
Qed.

Lemma rstrip_by_fixed_drop p n s :
  Py.rstrip_by p s = s -> Py.rstrip_by p (Py.drop n s) = Py.drop n s.
Proof.
  revert s. induction n as [|n IH]; intros s H; [by destruct s|].
  destruct s as [|c s]; [done|]. cbn [Py.drop]. apply IH. by eapply rstrip_by_fixed_tail.
Qed.

Lemma rstrip_by_idempotent p s : Py.rstrip_by p (Py.rstrip_by p s) = Py.rstrip_by p s.
Proof.
  induction s as [|c s IH]; [done|]. rewrite rstrip_by_cons.
  destruct (Py.rstrip_by p s) as [|d r] eqn:E.
  - destruct (p c) eqn:Hc; [done|]. cbn. by rewrite Hc.
  - rewrite rstrip_by_cons, IH. done.
Qed.

(** What the normaliser does to a non-empty URL, step by step. *)
Lemma normalize_url_steps (url : string) :
  exists s1 s2 s3 : string,
    s1 = Py.rstrip_by Py.is_slash (Py.strip (Py.lower url))
    /\ (s2 = s1 \/ exists n, s2 = Py.drop n s1)
    /\ (s3 = s2 \/ exists n, s3 = Py.drop n s2)
    /\ (_normalize_url url = "" \/ _normalize_url url = s3 \/ exists n, _normalize_url url = Py.drop n s3).
Proof.
  unfold _normalize_url. destruct (negb (Py.truthy_str url)).
  { exists (Py.rstrip_by Py.is_slash (Py.strip (Py.lower url))), (Py.rstrip_by Py.is_slash (Py.strip (Py.lower url))),
      (Py.rstrip_by Py.is_slash (Py.strip (Py.lower url))). by repeat split; try left. }
  cbn [fold_left]. unfold strip_prefix_step.
  set (s1 := Py.rstrip_by Py.is_slash (Py.strip (Py.lower url))).
  set (s2 := if Py.startswith "http://" s1 then Py.drop (String.length "http://") s1 else s1).
  set (s3 := if Py.startswith "https://" s2 then Py.drop (String.length "https://") s2 else s2).
  exists s1, s2, s3. split; [done|]. split; [|split].
  - subst s2. destruct (Py.startswith "http://" s1); [right; by eexists | by left].
  - subst s3. destruct (Py.startswith "https://" s2); [right; by eexists | by left].
  - right. destruct (Py.startswith "www." s3); [right; by eexists | by left].
Qed.

Lemma rstrip_slash_fixed_last (s : string) :
  Py.rstrip_by Py.is_slash s = s -> last_char s <> Some "/"%char.
Proof.
  induction s as [|c s IH]; [done|]. intros H.
  pose proof (rstrip_by_fixed_tail _ _ _ H) as Hs.
  destruct s as [|d s].
  - cbn in H |- *. destruct (Py.is_slash c) eqn:Hc; [done|].
    intros [= ->]. by vm_compute in Hc.
  - change (last_char (String c (String d s))) with (last_char (String d s)). by apply IH.
Qed.

(** X1.  The normal form of an ASCII URL (every code point below 128)
    has no upper-case letter, does not end in a slash and is not longer
    than the URL. *)
Theorem normalize_url_shape (url : string) :
  string_forall is_ascii url = true ->
  string_forall (fun c => negb (is_upper c)) (_normalize_url url) = true
  /\ last_char (_normalize_url url) <> Some "/"%char
  /\ (String.length (_normalize_url url) <= String.length url)%nat.
Proof.
  intros _.
  set (P := fun s : string =>
    string_forall (fun c => negb (is_upper c)) s = true
    /\ Py.rstrip_by Py.is_slash s = s
    /\ (String.length s <= String.length url)%nat).
  assert (Hdrop : forall s t, P s -> (t = s \/ exists n, t = Py.drop n s) -> P t).
  { intros s t (H1 & H2 & H3) [->|[n ->]]; [done|]. split; [|split].
    - by apply string_forall_drop.
    - by apply rstrip_by_fixed_drop.
    - pose proof (drop_length n s). lia. }
  assert (Hend : P (_normalize_url url)).
  { destruct (normalize_url_steps url) as (s1 & s2 & s3 & H1 & H2 & H3 & H4).
    assert (P1 : P s1).
    { subst s1. split; [|split].
      - apply string_forall_rstrip. unfold Py.strip.
        apply string_forall_rstrip, string_forall_lstrip, lower_no_upper.
      - apply rstrip_by_idempotent.
      - unfold Py.strip.
        pose proof (rstrip_by_length Py.is_slash
                      (Py.rstrip_by Py.is_space (Py.lstrip_by Py.is_space (Py.lower url)))).
        pose proof (rstrip_by_length Py.is_space (Py.lstrip_by Py.is_space (Py.lower url))).
        pose proof (lstrip_by_length Py.is_space (Py.lower url)).
        rewrite lower_length in *. lia. }
    pose proof (Hdrop _ _ P1 H2) as P2. pose proof (Hdrop _ _ P2 H3) as P3.
    destruct H4 as [->|H4]; [|by eapply Hdrop].
    split; [done|]. split; [done|]. cbn. lia. }
  destruct Hend as (H1 & H2 & H3). split; [done|]. split; [|done].
  by apply rstrip_slash_fixed_last.
Qed.

(** X2.  [match] compares the first path segments of the normal forms and
    nothing else, so it is an equivalence relation on URLs. *)
Theorem match_url_equivalence :
  (forall a b, _match_url a b
               = String.eqb (Py.first_segment (_normalize_url a))
                            (Py.first_segment (_normalize_url b)))
  /\ (forall a, _match_url a a = true)
  /\ (forall a b, _match_url a b = _match_url b a)
  /\ (forall a b c, _match_url a b = true -> _match_url b c = true -> _match_url a c = true).
Proof.
  assert (H : forall a b, _match_url a b
               = String.eqb (Py.first_segment (_normalize_url a))
                            (Py.first_segment (_normalize_url b))).
  { intros a b. unfold _match_url.
    destruct (String.eqb_spec (_normalize_url a) (_normalize_url b)) as [E|E]; [|done].
    rewrite E. symmetry. apply String.eqb_refl. }
  split; [done|]. split; [|split].
  - intros a. rewrite H. apply String.eqb_refl.
  - intros a b. rewrite !H. apply String.eqb_sym.
  - intros a b c. rewrite !H, !String.eqb_eq. congruence.
Qed.

(** ** The search stage: results *)

Lemma slice_to_length_le {A} (n : Z) (l : list A) :
  0 <= n -> (length (Py.slice_to n l) <= Z.to_nat n)%nat.
Proof.
  intros Hn. destruct (slice_to_take n l) as (k & Hk & -> & Hkn).
  rewrite length_take, (Hkn Hn). lia.
Qed.

Lemma slice_items_length (n : Z) (v : json) (l : list json) :
  0 <= n -> slice_items n v = Ok l -> (length l <= Z.to_nat n)%nat.
Proof.
  intros Hn. destruct v; try discriminate; intros [= <-].
  - rewrite length_map. by apply slice_to_length_le.
  - by apply slice_to_length_le.
Qed.

Section SearchFacts.

Variable json_loads : string -> option json.
Variable urlparse : string -> res (string * string).
Variable cfg : Config.

(** An organic entry that yields a result is a dict with a non-empty
    string [link]; the result has that URL, the host [urlparse] gives for
    it, and no score. *)
Lemma parse_organic_some (r : json) (x : SearchResult) :
  parse_organic urlparse r = Ok (Some x) ->
  entry_link r = JStr (sr_url x)
  /\ Py.truthy_str (sr_url x) = true
  /\ reputability_score x = None
  /\ exists path, urlparse (sr_url x) = Ok (sr_domain x, path).
Proof.
  destruct r as [| | | | | |d]; try discriminate. unfold parse_organic.
  destruct (PyVal.truthy (PyVal.dict_get d "link" JNull)) eqn:Ht; cbn [negb]; [|discriminate].
  assert (Hl : PyVal.dict_get d "link" (JStr "") = PyVal.dict_get d "link" JNull).
  { unfold PyVal.dict_get in *. by destruct (PyVal.lookup_key "link" d). }
  rewrite Hl. cbn [entry_link].
  destruct (PyVal.dict_get d "link" JNull) as [| | | |l| |]; try discriminate.
  destruct (urlparse l) as [[netloc path]|] eqn:Hup; [|discriminate].
  cbn [res_bind fst].
  repeat match goal with
         | |- res_bind ?r _ = _ -> _ => destruct r; cbn [res_bind]; [|discriminate]
         end.
  intros [= <-]. cbn. split; [done|]. split; [done|]. split; [done|]. by exists path.
Qed.

(** An entry that is skipped is a dict without a truthy [link]. *)
Lemma parse_organic_none (r : json) :
  parse_organic urlparse r = Ok None -> PyVal.truthy (entry_link r) = false.
Proof.
  destruct r as [| | | | | |d]; try discriminate. unfold parse_organic. cbn [entry_link].
  destruct (PyVal.truthy (PyVal.dict_get d "link" JNull)) eqn:Ht; cbn [negb]; [|done].
  assert (Hl : PyVal.dict_get d "link" (JStr "") = PyVal.dict_get d "link" JNull).
  { unfold PyVal.dict_get in *. by destruct (PyVal.lookup_key "link" d). }
  rewrite Hl.
  destruct (PyVal.dict_get d "link" JNull) as [| | | |l| |]; try discriminate.
  destruct (urlparse l) as [[netloc path]|] eqn:Hup; [|discriminate].
  cbn [res_bind fst].
  repeat match goal with
         | |- res_bind ?r _ = _ -> _ => destruct r; cbn [res_bind]; [|discriminate]
         end.
  discriminate.
Qed.

(** The results built so far when the loop ends or raises: one per entry
    read that has a link, in the order of the entries. *)
Lemma append_results_spec (entries : list json) (acc : list SearchResult)
    (oe : option exn) (rs : list SearchResult) :
  append_results urlparse entries acc = (oe, rs) ->
  exists new,
    rs = (acc ++ new)%list
    /\ (length new <= length entries)%nat
    /\ Forall (fun r => Py.truthy_str (sr_url r) = true
                        /\ reputability_score r = None
                        /\ exists path, urlparse (sr_url r) = Ok (sr_domain r, path)) new
    /\ (oe = None ->
        (fun r => JStr (sr_url r)) <$> new
        = List.filter PyVal.truthy (entry_link <$> entries)).
Proof.
  revert acc. induction entries as [|e entries IH]; intros acc; cbn [append_results].
  - intros [= <- <-]. exists []. rewrite app_nil_r. by repeat split.
  - destruct (parse_organic urlparse e) as [[x|]|err] eqn:He.
    + intros H. destruct (IH _ H) as (new & -> & Hlen & Hall & Hurls).
      apply parse_organic_some in He as (Hlink & Hne & Hsc & Hdom).
      exists (x :: new). rewrite <- app_assoc. split; [done|]. split; [cbn; lia|].
      split; [by constructor|].
      intros Hoe. cbn [fmap list_fmap List.filter]. rewrite Hlink. cbn [PyVal.truthy].
      rewrite Hne. f_equal. by apply Hurls.
    + intros H. destruct (IH _ H) as (new & -> & Hlen & Hall & Hurls).
      apply parse_organic_none in He.
      exists new. split; [done|]. split; [cbn; lia|]. split; [done|].
      intros Hoe. cbn [fmap list_fmap List.filter]. rewrite He. by apply Hurls.
    + intros [= <- <-]. exists []. rewrite app_nil_r. split; [done|].
      split; [cbn; lia|]. split; [constructor|]. discriminate.
Qed.

Lemma append_results_dicts (entries : list json) (acc rs : list SearchResult) :
  append_results urlparse entries acc = (None, rs) ->
  Forall (fun e => exists d, e = JObj d) entries.
Proof.
  revert acc. induction entries as [|e l IH]; intros acc; [constructor|].
  cbn [append_results].
  destruct (parse_organic urlparse e) as [[x|]|err] eqn:He; [| |discriminate].
  - intros H. constructor; [|by eapply IH].
    destruct e; try discriminate. by eexists.
  - intros H. constructor; [|by eapply IH].
    destruct e; try discriminate. by eexists.
Qed.

Lemma first_truthy_field_truthy (d : dict) (fields : list string) :
  first_truthy_field d fields = JNull
  \/ PyVal.truthy (first_truthy_field d fields) = true.
Proof.
  induction fields as [|f fields IH]; [by left|]. cbn [first_truthy_field].
  destruct (PyVal.truthy (PyVal.dict_get d f JNull)) eqn:Hf; [by right | done].
Qed.

Lemma knowledge_graph_image_truthy (b : dict) :
  knowledge_graph_image b = JNull \/ PyVal.truthy (knowledge_graph_image b) = true.
Proof.
  unfold knowledge_graph_image.
  destruct (PyVal.dict_get b "knowledge_graph" (JObj [])); try (by left).
  destruct (PyVal.dict_get fields "image" JNull); try (by left).
  destruct (Py.truthy_str s) eqn:Hs; [by right | by left].
Qed.

Lemma images_section_image_truthy (b : dict) :
  images_section_image b = JNull \/ PyVal.truthy (images_section_image b) = true.
Proof.
  unfold images_section_image.
  destruct (PyVal.dict_get b "images" (JArr [])) as [| | | | |[|[| | | | | |first] ?]|];
    try (by left).
  match goal with |- context [if PyVal.truthy ?v then _ else _] =>
    destruct (PyVal.truthy v) eqn:Hv end; [by right | by left].
Qed.

Lemma top_result_image_truthy (b : dict) (v : json) :
  top_result_image b = Ok v -> v = JNull \/ PyVal.truthy v = true.
Proof.
  unfold top_result_image.
  destruct (PyVal.truthy (PyVal.dict_get b "organic" (JArr []))); [|intros [= <-]; by left].
  destruct (py_len (PyVal.dict_get b "organic" (JArr []))) as [n|]; [|discriminate].
  cbn [res_bind]. destruct (0 <? n)%nat; [|intros [= <-]; by left].
  destruct (py_first (PyVal.dict_get b "organic" (JArr []))) as [top|]; [|discriminate].
  cbn [res_bind]. destruct top as [| | | | | |top]; try (intros [= <-]; by left).
  destruct (PyVal.truthy (PyVal.dict_get top "thumbnail" JNull)) eqn:Ht.
  - intros [= <-]. by right.
  - intros [= <-]. exact (first_truthy_field_truthy top ["image"; "og_image"; "preview_image"]).
Qed.

Lemma extract_overview_image_truthy (b : dict) (v : json) :
  extract_overview_image b = Ok v -> v = JNull \/ PyVal.truthy v = true.
Proof.
  unfold extract_overview_image.
  destruct (knowledge_graph_image_truthy b) as [Hk|Hk].
  - rewrite Hk. cbn [PyVal.truthy negb].
    destruct (images_section_image_truthy b) as [Hi|Hi].
    + rewrite Hi. cbn [PyVal.truthy negb]. apply top_result_image_truthy.
    + rewrite Hi. cbn [negb]. intros H. right. by simplify_eq.
  - rewrite Hk. cbn [negb]. rewrite Hk. cbn [negb]. intros H. right. by simplify_eq.
Qed.

(** What the stage leaves when it ends, whether it returns or raises. *)
Lemma search_spec (http : http_outcome) (st : AgentState) :
  let o := search json_loads urlparse cfg http st in
  let st' := state_of o in
  let assigned :=
    exists rs, results st' = Some rs
      /\ (length rs <= 10)%nat
      /\ Forall (fun r => Py.truthy_str (sr_url r) = true
                          /\ reputability_score r = None
                          /\ exists path, urlparse (sr_url r) = Ok (sr_domain r, path)) rs in
  query st' = query st /\ history st' = history st
  /\ ranked_results st' = ranked_results st /\ answer st' = answer st
  /\ overview st' = overview st /\ topics st' = topics st
  /\ citations st' = citations st /\ final_payload st' = final_payload st
  /\ (overview_image st' = overview_image st \/ overview_image st' = JNull
      \/ PyVal.truthy (overview_image st') = true)
  /\ (results st' = results st \/ assigned)
  /\ (returned o = true -> assigned).
Proof.
  assert (Hempty : forall s : AgentState,
    exists rs, results (with_results (Some []) s) = Some rs
      /\ (length rs <= 10)%nat
      /\ Forall (fun r => Py.truthy_str (sr_url r) = true
                          /\ reputability_score r = None
                          /\ exists path, urlparse (sr_url r) = Ok (sr_domain r, path)) rs).
  { intros s. exists []. split; [done|]. split; [cbn; lia | constructor]. }
  unfold search.
  destruct (negb (present (opt_or (BRIGHT_DATA_API_KEY cfg) (SERPAPI_API_KEY cfg)))).
  { cbn [state_of returned]. repeat (split; [done|]). split; [by left|]. split; [by right|]. done. }
  destruct (negb (present (SERP_ZONE cfg))).
  { cbn [state_of returned]. repeat (split; [done|]). split; [by left|]. split; [by right|]. done. }
  destruct http as [|api_response].
  { cbn [state_of returned]. repeat (split; [done|]). split; [by left|]. split; [by right|]. done. }
  unfold read_response.
  destruct (PyVal.get api_response "body" (JObj [])) as [body|e].
  2:{ cbn [state_of returned]. repeat (split; [done|]). split; [by left|]. split; [by left|]. done. }
  destruct (match body with
            | JStr text => match json_loads text with Some v => Ok v | None => Err JSONDecodeError end
            | _ => Ok body
            end) as [decoded|e].
  2:{ cbn [state_of returned]. repeat (split; [done|]). split; [by left|]. split; [by left|]. done. }
  destruct decoded as [| | | | | |b];
    try (cbn [state_of returned]; repeat (split; [done|]); split; [by left|]; split; [by left|]; done).
  destruct (extract_overview_image b) as [img|e] eqn:Himg.
  2:{ cbn [state_of returned]. repeat (split; [done|]). split; [by left|]. split; [by left|]. done. }
  apply extract_overview_image_truthy in Himg.
  destruct (slice_items 10 (PyVal.dict_get b "organic" (JArr []))) as [organic|e] eqn:Hsl.
  2:{ cbn [state_of returned]. repeat (split; [done|]). split; [by right|]. split; [by left|]. done. }
  apply slice_items_length in Hsl; [|lia].
  destruct (append_results urlparse organic []) as [oe rs] eqn:Happ.
  destruct (append_results_spec _ _ _ _ Happ) as (new & -> & Hlen & Hall & _).
  rewrite app_nil_l.
  assert (Hres : exists rs, Some new = Some rs
      /\ (length rs <= 10)%nat
      /\ Forall (fun r => Py.truthy_str (sr_url r) = true
                          /\ reputability_score r = None
                          /\ exists path, urlparse (sr_url r) = Ok (sr_domain r, path)) rs).
  { exists new. split; [done|]. split; [|done]. change (Z.to_nat 10) with 10%nat in Hsl. lia. }
  destruct oe; cbn [state_of returned results with_results with_overview_image overview_image];
    repeat (split; [done|]); (split; [by right|]); (split; [by right|]); done.
Qed.

End SearchFacts.

(** X5.  Whenever the search stage returns, [results] is a list of at
    most ten results, each with a non-empty URL, the host [urlparse]
    gives for that URL as its domain, and no credibility score; the
    overview image is the one the state had, [None], or a truthy value;
    no other field of the state changes. *)
Theorem search_returned_state
    (json_loads : string -> option json) (urlparse : string -> res (string * string))
    (cfg : Config) (http : http_outcome) (st st' : AgentState) :
  search json_loads urlparse cfg http st = Returned st' ->
  (exists rs, results st' = Some rs
     /\ (length rs <= 10)%nat
     /\ Forall (fun r => Py.truthy_str (sr_url r) = true
                         /\ reputability_score r = None
                         /\ exists path, urlparse (sr_url r) = Ok (sr_domain r, path)) rs)
  /\ (overview_image st' = overview_image st \/ overview_image st' = JNull
      \/ PyVal.truthy (overview_image st') = true)
  /\ query st' = query st /\ history st' = history st
  /\ ranked_results st' = ranked_results st /\ answer st' = answer st
  /\ overview st' = overview st /\ topics st' = topics st
  /\ citations st' = citations st /\ final_payload st' = final_payload st.
Proof.
  intros Hret.
  pose proof (search_spec json_loads urlparse cfg http st) as Hs.
  rewrite Hret in Hs. cbn [state_of returned] in Hs.
  destruct Hs as (Hq & Hh & Hrr & Ha & Ho & Ht & Hc & Hf & Himg & _ & Hres).
  split; [by apply Hres|]. by repeat split.
Qed.

(** X6.  When the search stage returns after reading a response whose
    body is an object with a list under [organic], the URLs of the
    results are, in order, the truthy [link] values of the first ten
    organic entries, each of which is a dict: entries without a link are
    skipped, nothing is reordered and nothing else is added. *)
Theorem search_results_follow_organic
    (json_loads : string -> option json) (urlparse : string -> res (string * string))
    (cfg : Config) (resp b : dict) (organic : list json) (st st' : AgentState) :
  present (opt_or (BRIGHT_DATA_API_KEY cfg) (SERPAPI_API_KEY cfg)) = true ->
  present (SERP_ZONE cfg) = true ->
  PyVal.dict_get resp "body" (JObj []) = JObj b ->
  PyVal.dict_get b "organic" (JArr []) = JArr organic ->
  search json_loads urlparse cfg (HttpJson (JObj resp)) st = Returned st' ->
  exists rs, results st' = Some rs
    /\ (fun r => JStr (sr_url r)) <$> rs
       = List.filter PyVal.truthy (entry_link <$> take 10 organic)
    /\ Forall (fun e => exists d, e = JObj d) (take 10 organic).
Proof.
  intros Hkey Hzone Hbody Horg. unfold search. rewrite Hkey, Hzone. cbn [negb].
  unfold read_response. cbn [PyVal.get]. rewrite Hbody.
  destruct (extract_overview_image b) as [img|e]; [|discriminate].
  rewrite Horg. cbn [slice_items]. change (Py.slice_to 10 organic) with (take 10 organic).
  destruct (append_results urlparse (take 10 organic) []) as [oe rs] eqn:Happ.
  destruct oe; [discriminate|]. intros [= <-].
  destruct (append_results_spec urlparse _ _ _ _ Happ) as (new & -> & _ & _ & Hurls).
  exists new. split; [done|]. split; [by apply Hurls|].
  by eapply append_results_dicts.
Qed.

(** X8.  The overview image the search stage extracts from a response
    body is [None] or a truthy value, never an empty one; and a
    non-empty string image of the knowledge graph is preferred to every
    other candidate. *)
Theorem extract_overview_image_preference (b : dict) :
  (forall v, extract_overview_image b = Ok v -> v = JNull \/ PyVal.truthy v = true)
  /\ (forall kg s,
        PyVal.dict_get b "knowledge_graph" (JObj []) = JObj kg ->
        PyVal.dict_get kg "image" JNull = JStr s -> Py.truthy_str s = true ->
        extract_overview_image b = Ok (JStr s)).
Proof.
  split; [apply extract_overview_image_truthy|].
  intros kg s Hkg Himg Hs. unfold extract_overview_image, knowledge_graph_image.
  rewrite Hkg, Himg, Hs. cbn [PyVal.truthy]. rewrite Hs. cbn [negb PyVal.truthy].
  by rewrite Hs.
Qed.

(** ** The synthesis stage: shape of the outcome *)

Lemma slice_to_nil_iff {A} (n : Z) (l : list A) :
  0 < n -> Py.slice_to n l = [] -> l = [].
Proof.
  intros Hn. unfold Py.slice_to. destruct (0 <=? n) eqn:E; [|lia].
  destruct l; [done|]. destruct (Z.to_nat n) eqn:En; [lia|]. done.
Qed.

Lemma slice_to_Forall {A} (P : A -> Prop) (n : Z) (l : list A) :
  Forall P l -> Forall P (Py.slice_to n l).
Proof.
  intros H. apply Forall_forall. intros x Hx. apply slice_to_subseteq in Hx.
  by eapply Forall_forall in H.
Qed.

Lemma url_to_result_fold (u : string) (rs : list SearchResult) (m : gmap string SearchResult) :
  fold_left (fun m r => <[sr_url r := r]> m) rs m !! u
  = match last_with_url u rs with
    | Some r => Some r
    | None => m !! u
    end.
Proof.
  revert m. induction rs as [|r rs IH]; intros m; [done|].
  cbn [fold_left]. rewrite IH. unfold last_with_url. cbn [List.filter].
  destruct (String.eqb_spec (sr_url r) u) as [<-|Hne].
  - rewrite last_cons.
    destruct (last (List.filter (fun r0 => String.eqb (sr_url r0) (sr_url r)) rs)); [done|].
    by rewrite lookup_insert_eq.
  - by rewrite lookup_insert_ne.
Qed.

(** The mapping from URL to result finds the last result with that
    URL. *)
Lemma url_to_result_lookup (u : string) (rs : list SearchResult) :
  url_to_result rs !! u = last_with_url u rs.
Proof.
  unfold url_to_result. rewrite url_to_result_fold.
  by destruct (last_with_url u rs).
Qed.

Lemma build_citation_snippet (rs : list SearchResult) (e : json) (c : Citation) :
  build_citation (url_to_result rs) e = Ok c ->
  cit_image c = None
  /\ cit_extended_snippet c = last_with_url (cit_url c) rs ≫= sr_extended_snippet.
Proof.
  destruct e as [| | | | | |d]; try discriminate.
  unfold build_citation.
  destruct (PyVal.dict_get d "id" JNull) eqn:Hid; try discriminate;
    (destruct (PyVal.dict_get d "url" (JStr "")) as [| | | |u| |] eqn:Hu; try discriminate;
     match goal with
     | |- res_bind ?r _ = _ -> _ => destruct r as [id|] eqn:Hint; [|discriminate]
     end;
     cbn [res_bind];
     destruct (PyVal.dict_get d "title" (JStr "")) as [| | | |t| |] eqn:Ht; try discriminate;
     intros [= <-]; cbn [cit_image cit_extended_snippet cit_url];
     rewrite url_to_result_lookup; by destruct (last_with_url u rs)).
Qed.

Lemma build_citations_snippet (rs : list SearchResult) (cits : list json) :
  Forall (fun c => cit_image c = None
                   /\ cit_extended_snippet c = last_with_url (cit_url c) rs ≫= sr_extended_snippet)
    (build_citations (url_to_result rs) cits).
Proof.
  apply Forall_forall. intros c Hc. unfold build_citations in Hc.
  apply list_elem_of_omap in Hc as (e & _ & He).
  destruct (build_citation (url_to_result rs) e) as [c'|] eqn:Hb; [|done].
  injection He as ->. by eapply build_citation_snippet.
Qed.

Section SynthesisFacts.

Variable json_loads : string -> option json.
Variable py_repr : json -> string.
Variable cfg : Config.

Lemma validated_topics_shape (tps : json) :
  (length (validated_topics py_repr tps) <= 2)%nat
  /\ Forall well_formed_topic (validated_topics py_repr tps).
Proof.
  unfold validated_topics. destruct tps as [| | | | |l|]; try (split; [cbn; lia | constructor]).
  split; [by apply (slice_to_length_le 2)|].
  apply slice_to_Forall, Forall_forall. intros t Ht.
  apply list_elem_of_omap in Ht as (e & _ & He).
  destruct e as [| | | | | |d]; try done.
  destruct (PyVal.lookup_key "title" d); [|done].
  destruct (PyVal.lookup_key "content" d); [|done].
  injection He as <-. by eexists _, _.
Qed.

Lemma empty_synthesis_synthesized (st : AgentState) : synthesized st (empty_synthesis st).
Proof.
  split; [done|]. split; [exists []; split; [done|]; split; [cbn; lia | constructor]|].
  split; [exists []; split; [done|]; split; [cbn; lia | constructor]|]. done.
Qed.

Lemma synthesize_with_synthesized (content : string) (st : AgentState) :
  synthesized st (synthesize_with json_loads py_repr content st).
Proof.
  unfold synthesize_with.
  destruct (json_loads content) as [[| | | | | |data]|]; try apply empty_synthesis_synthesized.
  split; [done|]. split; [|split; [|done]].
  - eexists. split; [done|]. apply validated_topics_shape.
  - eexists. split; [done|]. split; [by apply (slice_to_length_le 5)|].
    apply slice_to_Forall. cbn [results with_topics with_answer with_overview].
    apply build_citations_snippet.
Qed.

Lemma synthesize_synthesized (llm : llm_outcome) (st : AgentState) :
  exists st', synthesize json_loads py_repr cfg llm st = Returned st' /\ synthesized st st'.
Proof.
  unfold synthesize.
  destruct (negb (present (OPENAI_API_KEY cfg)));
    [eexists; split; [done | apply empty_synthesis_synthesized]|].
  destruct (Py.slice_to 5 (or_empty (results st)));
    [eexists; split; [done | apply empty_synthesis_synthesized]|].
  destruct llm as [|[|[c|] rest]];
    try (eexists; split; [done | apply empty_synthesis_synthesized]).
  destruct (Py.truthy_str c);
    [eexists; split; [done | apply synthesize_with_synthesized]
    |eexists; split; [done | apply empty_synthesis_synthesized]].
Qed.

End SynthesisFacts.

(** X9.  The synthesis stage always returns, whatever the LLM call
    does.  In the state it returns the answer equals the overview, there
    are at most two topics, each with exactly the keys [title] and
    [content], and at most five citations, none with an image; the
    query, the history, the results, the overview image and the payload
    are as they were. *)
Theorem synthesize_returned_state
    (json_loads : string -> option json) (py_repr : json -> string) (cfg : Config)
    (llm : llm_outcome) (st : AgentState) :
  exists st',
    synthesize json_loads py_repr cfg llm st = Returned st'
    /\ answer st' = overview st'
    /\ (exists ts, topics st' = Some ts /\ (length ts <= 2)%nat /\ Forall well_formed_topic ts)
    /\ (exists cs, citations st' = Some cs /\ (length cs <= 5)%nat
          /\ Forall (fun c => cit_image c = None) cs)
    /\ query st' = query st /\ history st' = history st /\ results st' = results st
    /\ ranked_results st' = ranked_results st /\ overview_image st' = overview_image st
    /\ final_payload st' = final_payload st.
Proof.
  destruct (synthesize_synthesized json_loads py_repr cfg llm st)
    as (st' & Hret & Ha & Hts & (cs & Hcs & Hlen & Hall) & Hframe).
  exists st'. split; [done|]. split; [done|]. split; [done|]. split; [|done].
  exists cs. split; [done|]. split; [done|].
  eapply Forall_impl; [exact Hall|]. by intros c [? _].
Qed.

(** X10.  Every citation the synthesis stage stores carries the extended
    snippet of the last result, in provider order, whose URL is exactly
    the citation's URL, and no extended snippet when no result has that
    URL. *)
Theorem synthesize_extended_snippet_by_exact_url
    (json_loads : string -> option json) (py_repr : json -> string) (cfg : Config)
    (llm : llm_outcome) (st : AgentState) :
  Forall (fun c => cit_extended_snippet c
                   = last_with_url (cit_url c) (or_empty (results st)) ≫= sr_extended_snippet)
    (or_empty (citations (state_of (synthesize json_loads py_repr cfg llm st)))).
Proof.
  destruct (synthesize_synthesized json_loads py_repr cfg llm st)
    as (st' & -> & _ & _ & (cs & Hcs & _ & Hall) & _).
  cbn [state_of]. rewrite Hcs. eapply Forall_impl; [exact Hall|]. by intros c [_ ?].
Qed.

(** X11.  Without the LLM credential, without results, when the call
    fails or returns no choice or no content, when the content is not
    JSON, or when it is JSON but not an object, the synthesis stage
    returns the empty synthesis: overview and answer are the empty
    string, topics and citations are empty lists, and nothing else
    changes. *)
Theorem synthesize_degrades_to_empty
    (json_loads : string -> option json) (py_repr : json -> string) (cfg : Config)
    (llm : llm_outcome) (st : AgentState) :
  present (OPENAI_API_KEY cfg) = false
  \/ or_empty (results st) = []
  \/ llm = LLMError
  \/ llm = LLMChoices []
  \/ (exists rest, llm = LLMChoices (None :: rest))
  \/ (exists rest, llm = LLMChoices (Some "" :: rest))
  \/ (exists content rest,
        llm = LLMChoices (Some content :: rest)
        /\ (json_loads content = None
            \/ exists v, json_loads content = Some v /\ forall data, v <> JObj data)) ->
  synthesize json_loads py_repr cfg llm st
  = Returned (mkState (query st) (history st) (results st) (ranked_results st)
                (JStr "") (JStr "") (overview_image st) (Some []) (Some [])
                (final_payload st)).
Proof.
  intros H. unfold synthesize.
  destruct (negb (present (OPENAI_API_KEY cfg))) eqn:Hkey; [done|].
  destruct (Py.slice_to 5 (or_empty (results st))) as [|r rs] eqn:Hrs; [done|].
  destruct H as [H|[H|[->|[->|[[rest ->]|[[rest ->]|(content & rest & -> & H)]]]]]]; try done.
  - by rewrite H in Hkey.
  - by rewrite H in Hrs.
  - destruct (Py.truthy_str content); [|done]. unfold synthesize_with.
    destruct H as [->|(v & -> & Hv)]; [done|].
    destruct v; try done. by destruct (Hv fields).
Qed.

(** ** The enrichment stage: images found, requests sent *)

Lemma scan_images_accepted (items : list json) (u : string) :
  scan_images items = Some u -> accepted_image u = true /\ Py.truthy_str u = true.
Proof.
  induction items as [|item rest IH]; [done|]. cbn [scan_images].
  destruct item as [| | | | | |d]; try done.
  destruct (item_url d) as [| | | |img| |]; try done.
  destruct (Py.truthy_str img) eqn:Ht; [|done].
  unfold accepted_image.
  destruct (is_http img) eqn:Hh.
  - destruct (blocked img) eqn:Hb; [done|]. intros [= <-]. by rewrite Hh, Hb.
  - destruct (Py.startswith "data:image" img) eqn:Hd; [|done].
    intros [= <-]. by rewrite Hh, Hd.
Qed.

Lemma scan_thumbnails_accepted (items : list json) (u : string) :
  scan_thumbnails items = Some u -> accepted_thumbnail u = true /\ Py.truthy_str u = true.
Proof.
  induction items as [|item rest IH]; [done|]. cbn [scan_thumbnails].
  destruct item as [| | | | | |d]; try done.
  destruct (PyVal.dict_get d "thumbnail" JNull) as [| | | |t| |]; try done.
  destruct (Py.truthy_str t) eqn:Ht; [|done]. cbn [andb].
  destruct (is_http t && looks_like_image t)%bool eqn:Hh; [|done].
  intros [= <-]. done.
Qed.

Lemma first_image_accepted (n : Z) (body : dict) (u : string) :
  first_image n body = Some u -> accepted_image u = true /\ Py.truthy_str u = true.
Proof.
  unfold first_image. destruct (PyVal.dict_get body "images" (JArr [])); try done.
  apply scan_images_accepted.
Qed.

Section ImageFacts.

Variable json_loads : string -> option json.
Variable urlparse : string -> res (string * string).
Variable provider : string -> http_outcome.

Lemma domain_search_spec (url : string) :
  let '(img, reqs) := domain_search json_loads urlparse provider url in
  (length reqs <= 1)%nat
  /\ (forall u, img = Some u -> accepted_image u = true /\ Py.truthy_str u = true)
  /\ ((forall q, provider q = TransportError) -> img = None).
Proof.
  unfold domain_search.
  destruct (Py.truthy_str url); [|split; [cbn; lia | done]].
  destruct (urlparse url) as [[netloc path]|]; [|split; [cbn; lia | done]].
  set (domain := Py.first_segment (Py.remove_www 0 (if Py.truthy_str netloc then netloc else path))).
  destruct (Py.truthy_str domain); [|split; [cbn; lia | done]].
  unfold fetch_body.
  destruct (provider domain) as [|api_response] eqn:Hp.
  { cbn [res_bind]. split; [cbn; lia | done]. }
  destruct (res_bind _ _) as [[| | | | |items|]|]; try (split; [cbn; lia|]; split; [done|];
    intros Hdown; by rewrite Hdown in Hp).
  split; [cbn; lia|]. split; [apply scan_images_accepted|].
  intros Hdown. by rewrite Hdown in Hp.
Qed.

(** What one search for a citation image returns, and how many requests
    it sends. *)
Lemma search_image_for_citation_spec (title q url : string) :
  let '(r, reqs) := _search_image_for_citation json_loads urlparse provider title q url in
  (1 <= length reqs <= 2)%nat
  /\ (forall u, r = Ok (Some u) ->
        (accepted_image u = true \/ accepted_thumbnail u = true) /\ Py.truthy_str u = true)
  /\ ((forall q, provider q = TransportError) -> r = Ok None).
Proof.
  unfold _search_image_for_citation.
  set (iq := citation_query title q).
  unfold fetch_body at 1.
  destruct (provider iq) as [|api_response] eqn:Hp.
  { split; [cbn; lia|]. split; [done|]. done. }
  assert (Hup : forall (P : Prop), (forall q, provider q = TransportError) -> P).
  { intros P Hdown. by rewrite Hdown in Hp. }
  destruct (res_bind _ _) as [[| | | | | |body]|[]];
    try (split; [cbn; lia|]; split; [done|]; apply Hup).
  destruct (first_image 5 body) as [img|] eqn:Hfirst.
  { split; [cbn; lia|]. split; [|apply Hup]. intros u [= <-].
    apply first_image_accepted in Hfirst as [? ?]. split; [by left | done]. }
  destruct (slice_items 5 (PyVal.dict_get body "organic" (JArr []))) as [organic|].
  2:{ split; [cbn; lia|]. split; [done|]. apply Hup. }
  destruct (scan_thumbnails organic) as [img|] eqn:Hthumb.
  { split; [cbn; lia|]. split; [|apply Hup]. intros u [= <-].
    apply scan_thumbnails_accepted in Hthumb as [? ?]. split; [by right | done]. }
  pose proof (domain_search_spec url) as Hd.
  destruct (domain_search json_loads urlparse provider url) as [img reqs].
  destruct Hd as (Hlen & Hacc & _).
  split; [cbn [length]; lia|]. split; [|apply Hup].
  intros u [= ->]. destruct (Hacc u eq_refl) as [? ?]. split; [by left | done].
Qed.

Lemma search_overview_image_spec (query : string) :
  let '(r, reqs) := _search_overview_image json_loads provider query in
  length reqs = 1%nat
  /\ (forall u, r = Ok (Some u) -> accepted_image u = true /\ Py.truthy_str u = true)
  /\ ((forall q, provider q = TransportError) -> r = Ok None).
Proof.
  unfold _search_overview_image.
  set (iq := Py.take 100 (Py.strip query)).
  unfold fetch_body.
  destruct (provider iq) as [|api_response] eqn:Hp.
  { by repeat split. }
  assert (Hup : forall (P : Prop), (forall q, provider q = TransportError) -> P).
  { intros P Hdown. by rewrite Hdown in Hp. }
  destruct (res_bind _ _) as [[| | | | | |body]|[]];
    try (split; [done|]; split; [done|]; apply Hup).
  split; [done|]. split; [|apply Hup].
  intros u [= Hu]. by apply first_image_accepted in Hu.
Qed.

Lemma citations_to_enrich_length (k : nat) (cs : list Citation) :
  length (citations_to_enrich k cs) = length (without_image cs).
Proof.
  revert k. induction cs as [|c cs IH]; intros k; [done|].
  cbn [citations_to_enrich without_image List.filter].
  destruct (has_image c); cbn [negb length]; by rewrite IH.
Qed.

(** The loop over the citations to enrich: requests sent, and what a
    provider that is down leaves. *)
Lemma enrich_fold_requests (q : string) (todo : list nat) (cs : list Citation)
    (reqs : list string) :
  let '(cs', reqs') := fold_left (enrich_one json_loads urlparse provider q) todo (cs, reqs) in
  (length reqs' <= length reqs + 2 * length todo)%nat
  /\ ((forall q, provider q = TransportError) -> cs' = cs).
Proof.
  revert cs reqs. induction todo as [|i todo IH]; intros cs reqs; cbn [fold_left].
  { split; [lia | done]. }
  assert (Hstep : exists cs1 reqs1,
    enrich_one json_loads urlparse provider q (cs, reqs) i = (cs1, reqs1)
    /\ (length reqs1 <= length reqs + 2)%nat
    /\ ((forall q, provider q = TransportError) -> cs1 = cs)).
  { unfold enrich_one. destruct (cs !! i) as [c|]; [|eexists _, _; split; [done|]; split; [lia|done]].
    pose proof (search_image_for_citation_spec (cit_title c) q (cit_url c)) as Hw.
    destruct (_search_image_for_citation json_loads urlparse provider (cit_title c) q (cit_url c))
      as [r made].
    destruct Hw as (Hlen & _ & Hdown).
    destruct r as [[img|]|e].
    - destruct (Py.truthy_str img).
      + eexists _, _. split; [done|]. split; [rewrite length_app; lia|].
        intros Hd. by specialize (Hdown Hd).
      + eexists _, _. split; [done|]. split; [rewrite length_app; lia|done].
    - eexists _, _. split; [done|]. split; [rewrite length_app; lia|done].
    - eexists _, _. split; [done|]. split; [rewrite length_app; lia|done]. }
  destruct Hstep as (cs1 & reqs1 & -> & Hlen1 & Hdown1).
  specialize (IH cs1 reqs1).
  destruct (fold_left (enrich_one json_loads urlparse provider q) todo (cs1, reqs1))
    as [cs' reqs'].
  destruct IH as [Hlen Hdown]. split; [cbn [length]; lia|].
  intros Hd. rewrite (Hdown Hd). by apply Hdown1.
Qed.

Lemma enrich_citations_requests (st : AgentState) :
  let '(st', reqs) := enrich_citations json_loads urlparse provider st in
  (length reqs <= 2 * length (without_image (or_empty (citations st))))%nat
  /\ ((forall q, provider q = TransportError) -> st' = st).
Proof.
  unfold enrich_citations.
  destruct (or_empty (citations st)) as [|c0 cs0] eqn:Hcs; [split; [cbn; lia | done]|].
  destruct (citations_to_enrich 0 (c0 :: cs0)) as [|i0 todo0] eqn:Htodo;
    [split; [cbn; lia | done]|].
  pose proof (enrich_fold_requests (query st) (i0 :: todo0) (c0 :: cs0) []) as Hf.
  destruct (fold_left _ (i0 :: todo0) (c0 :: cs0, [])) as [cs' reqs].
  destruct Hf as [Hlen Hdown]. split.
  - rewrite <- (citations_to_enrich_length 0), Htodo. cbn [length] in *. lia.
  - intros Hd. rewrite (Hdown Hd). destruct st as [? ? ? ? ? ? ? ? cits ?].
    cbn in Hcs |- *. destruct cits as [cits|]; [|done]. cbn in Hcs. by rewrite Hcs.
Qed.

End ImageFacts.

Section EnrichmentStage.

Variable json_loads : string -> option json.
Variable urlparse : string -> res (string * string).
Variable provider : string -> http_outcome.
Variable cfg : Config.

Lemma filled_or_kept_enriched (q : string) (c c' : Citation) :
  image_filled_or_kept
    (fun title url => fst (_search_image_for_citation json_loads urlparse provider title q url))
    c c' ->
  image_enriched c c'.
Proof.
  intros [->|(Hno & img & Hne & Hfound & ->)].
  - repeat (split; [done|]). by left.
  - repeat (split; [done|]). right. split; [done|]. exists img. split; [done|]. split; [done|].
    pose proof (search_image_for_citation_spec json_loads urlparse provider
                  (cit_title c) q (cit_url c)) as Hw.
    destruct (_search_image_for_citation json_loads urlparse provider (cit_title c) q (cit_url c))
      as [r made].
    cbn [fst] in Hfound. destruct Hw as (_ & Hacc & _).
    destruct (Hacc img Hfound) as [[->| ->] _]; [done | by rewrite orb_true_r].
Qed.

(** What the stage leaves and sends, whether it returns or raises. *)
Lemma enrich_images_spec (st : AgentState) :
  let '(o, reqs) := enrich_images json_loads urlparse provider cfg st in
  let st' := state_of o in
  (query st' = query st /\ history st' = history st /\ results st' = results st
   /\ ranked_results st' = ranked_results st /\ answer st' = answer st
   /\ overview st' = overview st /\ topics st' = topics st
   /\ final_payload st' = final_payload st)
  /\ (overview_image st' = overview_image st
      \/ (PyVal.truthy (overview_image st) = false
          /\ exists img, overview_image st' = JStr img
               /\ Py.truthy_str img = true /\ accepted_image img = true))
  /\ Forall2 image_enriched (or_empty (citations st)) (or_empty (citations st'))
  /\ (length reqs <= (if PyVal.truthy (overview_image st) then 0 else 1)
                     + 2 * length (without_image (or_empty (citations st))))%nat
  /\ ((forall q, provider q = TransportError) -> st' = st).
Proof.
  assert (Hrefl : forall cs, Forall2 image_enriched cs cs).
  { intros cs. apply Forall_Forall2_diag, Forall_forall. intros c _.
    repeat (split; [done|]). by left. }
  assert (Hcit : forall (s : AgentState) (reqs0 : list string),
    query s = query st -> history s = history st -> results s = results st ->
    ranked_results s = ranked_results st -> answer s = answer st ->
    overview s = overview st -> topics s = topics st -> final_payload s = final_payload st ->
    citations s = citations st ->
    (overview_image s = overview_image st
     \/ (PyVal.truthy (overview_image st) = false
         /\ exists img, overview_image s = JStr img
              /\ Py.truthy_str img = true /\ accepted_image img = true)) ->
    (length reqs0 <= (if PyVal.truthy (overview_image st) then 0 else 1))%nat ->
    ((forall q, provider q = TransportError) -> s = st) ->
    let '(o, reqs) :=
      (let '(st2, reqs') := enrich_citations json_loads urlparse provider s in
       (Returned st2, (reqs0 ++ reqs')%list)) in
    let st' := state_of o in
    (query st' = query st /\ history st' = history st /\ results st' = results st
     /\ ranked_results st' = ranked_results st /\ answer st' = answer st
     /\ overview st' = overview st /\ topics st' = topics st
     /\ final_payload st' = final_payload st)
    /\ (overview_image st' = overview_image st
        \/ (PyVal.truthy (overview_image st) = false
            /\ exists img, overview_image st' = JStr img
                 /\ Py.truthy_str img = true /\ accepted_image img = true))
    /\ Forall2 image_enriched (or_empty (citations st)) (or_empty (citations st'))
    /\ (length reqs <= (if PyVal.truthy (overview_image st) then 0 else 1)
                       + 2 * length (without_image (or_empty (citations st))))%nat
    /\ ((forall q, provider q = TransportError) -> st' = st)).
  { intros s reqs0 Hq Hh Hr Hrr Ha Ho Ht Hf Hc Himg Hlen0 Hdown0.
    pose proof (enrich_citations_spec json_loads urlparse provider s) as Hs.
    pose proof (enrich_citations_requests json_loads urlparse provider s) as Hreq.
    destruct (enrich_citations json_loads urlparse provider s) as [st2 reqs'].
    cbn [fst state_of] in *.
    destruct Hs as (Hq2 & Hh2 & Hr2 & Hrr2 & Ha2 & Ho2 & Hi2 & Ht2 & Hf2 & Hlen2 & Hinv).
    destruct Hreq as [Hlenr Hdown].
    split; [repeat split; congruence|]. split; [by rewrite Hi2|]. split; [|split].
    - rewrite <- Hc. apply Forall2_same_length_lookup. split; [done|].
      intros i c c' Hci Hci'. destruct (Hinv i c Hci) as (c'' & Hc'' & Hfk).
      assert (c'' = c') as -> by congruence. by eapply filled_or_kept_enriched.
    - rewrite length_app, <- Hc. lia.
    - intros Hd. rewrite (Hdown Hd). by apply Hdown0. }
  unfold enrich_images.
  destruct (negb (present (opt_or (BRIGHT_DATA_API_KEY cfg) (SERPAPI_API_KEY cfg)))
            || negb (present (SERP_ZONE cfg)))%bool.
  { cbn [state_of]. split; [done|]. split; [by left|]. split; [done|]. split; [cbn; lia | done]. }
  destruct (PyVal.truthy (overview_image st)) eqn:Htr; cbn [negb].
  - destruct (overview_image st) eqn:Hov;
      first [ by apply (Hcit st []); rewrite ?Hov, ?Htr; try done; by left
            | cbn [state_of]; split; [done|]; split; [by left|]; split; [done|];
              split; [cbn; lia | done] ].
  - destruct (Py.truthy_str (query st)).
    2:{ apply (Hcit st []); rewrite ?Htr; try done; [by left | cbn; lia]. }
    pose proof (search_overview_image_spec json_loads provider (query st)) as Hov.
    destruct (_search_overview_image json_loads provider (query st)) as [r reqs1].
    destruct Hov as (Hlen1 & Hacc & Hdown1).
    destruct r as [[img|]|e].
    + destruct (Hacc img eq_refl) as [Hai Hti]. rewrite Hti.
      apply Hcit; rewrite ?Htr; try done; try (by destruct st).
      * right. split; [done|]. by exists img.
      * lia.
      * intros Hd. by specialize (Hdown1 Hd).
    + apply Hcit; rewrite ?Htr; try done; [by left | lia].
    + cbn [state_of]. split; [done|]. split; [by left|]. split; [done|].
      split; [lia | done].
Qed.

End EnrichmentStage.

(** X12.  Whether the enrichment stage returns or raises, it leaves the
    query, the history, the results, the answer, the overview, the
    topics and the payload as they were.  An overview image that is set
    is never replaced; one that is missing stays missing or becomes a
    non-empty [http(s)] URL that matches no page pattern, or a
    [data:image] URI. *)
Theorem enrich_images_frame
    (json_loads : string -> option json) (urlparse : string -> res (string * string))
    (provider : string -> http_outcome) (cfg : Config) (st : AgentState) :
  let st' := state_of (fst (enrich_images json_loads urlparse provider cfg st)) in
  query st' = query st /\ history st' = history st /\ results st' = results st
  /\ ranked_results st' = ranked_results st /\ answer st' = answer st
  /\ overview st' = overview st /\ topics st' = topics st
  /\ final_payload st' = final_payload st
  /\ (overview_image st' = overview_image st
      \/ (PyVal.truthy (overview_image st) = false
          /\ exists img, overview_image st' = JStr img
               /\ Py.truthy_str img = true /\ accepted_image img = true)).
Proof.
  pose proof (enrich_images_spec json_loads urlparse provider cfg st) as H.
  destruct (enrich_images json_loads urlparse provider cfg st) as [o reqs].
  cbn [fst]. destruct H as ((?&?&?&?&?&?&?&?) & Himg & _). by repeat split.
Qed.

(** X13.  Every image the enrichment stage attaches to a citation is a
    non-empty [http(s)] URL that matches no page pattern, a
    [data:image] URI, or an [http(s)] thumbnail that looks like an
    image; the citations keep their number, order, id, title, URL and
    extended snippet. *)
Theorem enrich_images_attaches_accepted_images
    (json_loads : string -> option json) (urlparse : string -> res (string * string))
    (provider : string -> http_outcome) (cfg : Config) (st : AgentState) :
  Forall2 image_enriched
    (or_empty (citations st))
    (or_empty (citations (state_of (fst (enrich_images json_loads urlparse provider cfg st))))).
Proof.
  pose proof (enrich_images_spec json_loads urlparse provider cfg st) as H.
  destruct (enrich_images json_loads urlparse provider cfg st) as [o reqs].
  cbn [fst]. by destruct H as (_ & _ & H & _).
Qed.

(** X14.  The enrichment stage sends at most one request for the
    overview image, and none when the state has one, plus at most two
    requests for each citation without an image. *)
Theorem enrich_images_request_bound
    (json_loads : string -> option json) (urlparse : string -> res (string * string))
    (provider : string -> http_outcome) (cfg : Config) (st : AgentState) :
  (length (snd (enrich_images json_loads urlparse provider cfg st))
   <= (if PyVal.truthy (overview_image st) then 0 else 1)
      + 2 * length (without_image (or_empty (citations st))))%nat.
Proof.
  pose proof (enrich_images_spec json_loads urlparse provider cfg st) as H.
  destruct (enrich_images json_loads urlparse provider cfg st) as [o reqs].
  cbn [snd]. by destruct H as (_ & _ & _ & H & _).
Qed.

(** X15.  When every request to the image provider fails in transport,
    the enrichment stage leaves the state exactly as it was. *)
Theorem enrich_images_provider_down
    (json_loads : string -> option json) (urlparse : string -> res (string * string))
    (provider : string -> http_outcome) (cfg : Config) (st : AgentState) :
  (forall q, provider q = TransportError) ->
  state_of (fst (enrich_images json_loads urlparse provider cfg st)) = st.
Proof.
  intros Hd.
  pose proof (enrich_images_spec json_loads urlparse provider cfg st) as H.
  destruct (enrich_images json_loads urlparse provider cfg st) as [o reqs].
  cbn [fst]. destruct H as (_ & _ & _ & _ & H). by apply H.
Qed.

(** ** The formatter: what every run leaves *)

Lemma map_res_length {A B} (f : A -> res B) (l : list A) (ys : list B) :
  map_res f l = Ok ys -> length ys = length l.
Proof.
  revert ys. induction l as [|x l IH]; intros ys; cbn [map_res].
  - by intros [= <-].
  - destruct (f x) as [y|]; [|discriminate]. cbn [res_bind].
    destruct (map_res f l) as [ys'|]; [|discriminate]. cbn [res_bind].
    intros [= <-]. cbn. f_equal. by apply IH.
Qed.

Lemma map_res_ok {A B} (f : A -> res B) (g : A -> B) (l : list A) :
  (forall x, x ∈ l -> f x = Ok (g x)) -> map_res f l = Ok (g <$> l).
Proof.
  induction l as [|x l IH]; intros H; [done|].
  cbn [map_res]. rewrite (H x) by set_solver. cbn [res_bind].
  rewrite IH by (intros y Hy; apply H; set_solver). done.
Qed.

Lemma full_response_truthy (v full : json) (tps : list topic) :
  PyVal.truthy v = true -> full_response v tps = Ok full -> PyVal.truthy full = true.
Proof.
  revert v. induction tps as [|t tps IH]; intros v Hv; cbn [full_response].
  - by intros [= <-].
  - destruct (iadd v (topic_text t)) as [v'|] eqn:Hadd; [|discriminate]. cbn [res_bind].
    apply IH. destruct v as [| | | |s|l|]; try discriminate; injection Hadd as <-.
    + destruct s; [done|]. done.
    + destruct l; [done|]. done.
Qed.

(** The turn appended to the history, and what else the stage may have
    touched before it builds the payload. *)
Lemma append_turn_spec (st st1 : AgentState) :
  append_turn st = Ok st1 ->
  query st1 = query st /\ results st1 = results st
  /\ ranked_results st1 = ranked_results st /\ overview_image st1 = overview_image st
  /\ topics st1 = topics st /\ citations st1 = citations st
  /\ final_payload st1 = final_payload st
  /\ (history st1 = history st
      \/ exists content,
           PyVal.truthy content = true
           /\ history st1
              = (history st ++ [[("role", JStr "assistant"); ("content", content)]])%list).
Proof.
  unfold append_turn.
  destruct (PyVal.truthy (chosen_overview st)) eqn:Htr.
  2:{ intros [= <-]. repeat (split; [done|]). by left. }
  destruct (full_response (chosen_overview st) (or_empty (topics st))) as [full|] eqn:Hfull;
    [|discriminate].
  cbn [res_bind]. apply full_response_truthy in Hfull; [|done].
  intros [= <-].
  destruct (chosen_overview st); try destruct (PyVal.truthy (overview st));
    (repeat (split; [done|])); right; by exists full.
Qed.

Section FormatterStage.

Variable model_dump : Citation -> res dict.

Lemma format_output_spec (ts fts : string) (st : AgentState) :
  exists st' p,
    format_output model_dump ts fts st = Returned st'
    /\ final_payload st' = Some p
    /\ p_question p = query st
    /\ p_overview_image p = overview_image st
    /\ p_topics p = or_empty (topics st)
    /\ (length (p_sources p) <= length (or_empty (citations st)))%nat
    /\ (p_timestamp p = ts \/ (p_timestamp p = fts /\ p_sources p = []))
    /\ query st' = query st /\ results st' = results st
    /\ ranked_results st' = ranked_results st /\ overview_image st' = overview_image st
    /\ topics st' = topics st /\ citations st' = citations st
    /\ (history st' = history st
        \/ exists content,
             PyVal.truthy content = true
             /\ history st'
                = (history st ++ [[("role", JStr "assistant"); ("content", content)]])%list).
Proof.
  unfold format_output, fallback_payload.
  destruct (append_turn st) as [st1|e] eqn:Happ.
  - apply append_turn_spec in Happ as (Hq & Hr & Hrr & Hi & Ht & Hc & Hf & Hh).
    destruct (map_res model_dump (or_empty (citations st1))) as [sources|e] eqn:Hm.
    + apply map_res_length in Hm. rewrite Hc in Hm. rewrite Hq, Hi, Ht.
      eexists _, _. split; [done|].
      cbn [final_payload with_final_payload p_question p_overview_image p_topics p_sources
           p_timestamp query results ranked_results overview_image topics citations history].
      repeat (split; [done|]). split; [cbn [p_sources length]; lia|]. split; [by left|]. by repeat split.
    + rewrite Hq, Hi, Ht. eexists _, _. split; [done|].
      cbn [final_payload with_final_payload p_question p_overview_image
           p_topics p_sources p_timestamp query results ranked_results overview_image topics
           citations history length].
      repeat (split; [done|]). split; [cbn [p_sources length]; lia|]. split; [by right|]. by repeat split.
  - eexists _, _. split; [done|].
    cbn [final_payload with_final_payload p_question p_overview_image
         p_topics p_sources p_timestamp query results ranked_results overview_image topics
         citations history length].
    repeat (split; [done|]). split; [cbn [p_sources length]; lia|]. split; [by right|].
    repeat (split; [done|]). by left.
Qed.

End FormatterStage.

(** X16.  The formatter always returns, with a payload: its question is
    the query, its overview image and topics are those of the state, its
    sources are no more than the citations, and its timestamp is the
    clock read first, or the handler's with no sources.  The history is
    as it was, or longer by one assistant turn with a non-empty content;
    the query, the results, the overview image, the topics and the
    citations are as they were. *)
Theorem format_output_always_builds_payload
    (model_dump : Citation -> res dict) (ts fts : string) (st : AgentState) :
  exists st' p,
    format_output model_dump ts fts st = Returned st'
    /\ final_payload st' = Some p
    /\ p_question p = query st
    /\ p_overview_image p = overview_image st
    /\ p_topics p = or_empty (topics st)
    /\ (length (p_sources p) <= length (or_empty (citations st)))%nat
    /\ (p_timestamp p = ts \/ (p_timestamp p = fts /\ p_sources p = []))
    /\ query st' = query st /\ results st' = results st
    /\ ranked_results st' = ranked_results st /\ overview_image st' = overview_image st
    /\ topics st' = topics st /\ citations st' = citations st
    /\ (history st' = history st
        \/ exists content,
             PyVal.truthy content = true
             /\ history st'
                = (history st ++ [[("role", JStr "assistant"); ("content", content)]])%list).
Proof. apply format_output_spec. Qed.

(** X17.  On a state whose overview and answer are strings or [None],
    and whose citations all serialize, the payload's sources are the
    citations in order, each as its five fields, its overview is the
    overview (or the answer, or the empty string), and its timestamp is
    the clock read first. *)
Theorem format_output_sources_are_citations
    (model_dump : Citation -> res dict) (ts fts : string) (st : AgentState) :
  is_text (overview st) = true -> is_text (answer st) = true ->
  (forall c, c ∈ or_empty (citations st) -> model_dump c = Ok (citation_dump c)) ->
  final_payload (state_of (format_output model_dump ts fts st))
  = Some (mkPayload (query st) (chosen_overview st) (overview_image st)
            (or_empty (topics st)) (citation_dump <$> or_empty (citations st)) ts).
Proof.
  intros Ho Ha Hd. destruct (chosen_overview_text st Ho Ha) as [s Hs].
  rewrite (format_output_text model_dump ts fts st s Hs). cbn [state_of final_payload with_final_payload].
  by rewrite (map_res_ok model_dump citation_dump _ Hd), Hs.
Qed.

(** ** The pipeline *)

(** How a run of the four stages ends. *)
Lemma run_pipeline_cases (w : World) (cfg : Config) (st : AgentState) :
  (exists e s,
     search (w_json_loads w) (w_urlparse w) cfg (w_search w) st = Propagated e s
     /\ run_pipeline w cfg st = Propagated e s)
  \/ exists st1 st2,
       search (w_json_loads w) (w_urlparse w) cfg (w_search w) st = Returned st1
       /\ synthesize (w_json_loads w) (w_py_repr w) cfg (w_llm w) st1 = Returned st2
       /\ synthesized st1 st2
       /\ ((exists e s,
              fst (enrich_images (w_json_loads w) (w_urlparse w) (w_images w) cfg st2)
              = Propagated e s
              /\ run_pipeline w cfg st = Propagated e s)
           \/ exists st3,
                fst (enrich_images (w_json_loads w) (w_urlparse w) (w_images w) cfg st2)
                = Returned st3
                /\ run_pipeline w cfg st
                   = format_output (w_model_dump w) (w_ts w) (w_fallback_ts w) st3).
Proof.
  unfold run_pipeline.
  destruct (search (w_json_loads w) (w_urlparse w) cfg (w_search w) st) as [st1|e s] eqn:Hs.
  2:{ left. by exists e, s. }
  right. cbn [and_then].
  destruct (synthesize_synthesized (w_json_loads w) (w_py_repr w) cfg (w_llm w) st1)
    as (st2 & Hsyn & Hshape).
  exists st1, st2. rewrite Hsyn. cbn [and_then]. split; [done|]. split; [done|]. split; [done|].
  destruct (fst (enrich_images (w_json_loads w) (w_urlparse w) (w_images w) cfg st2))
    as [st3|e s] eqn:He.
  - right. by exists st3.
  - left. by exists e, s.
Qed.

(** X18.  Without the search credential (no API key, or no zone) a run
    of the pipeline makes no request and returns the empty answer: no
    results, empty overview and answer, no topics, no citations, the
    history as it was, and a payload with the query, an empty overview,
    no topics, no sources and the first timestamp. *)
Theorem pipeline_without_search_credential (w : World) (cfg : Config) (st : AgentState) :
  present (opt_or (BRIGHT_DATA_API_KEY cfg) (SERPAPI_API_KEY cfg)) = false
  \/ present (SERP_ZONE cfg) = false ->
  run_pipeline w cfg st
  = Returned (mkState (query st) (history st) (Some []) (ranked_results st)
                (JStr "") (JStr "") (overview_image st) (Some []) (Some [])
                (Some (mkPayload (query st) (JStr "") (overview_image st) [] [] (w_ts w)))).
Proof.
  intros Hcred. unfold run_pipeline.
  assert (Hs : search (w_json_loads w) (w_urlparse w) cfg (w_search w) st
               = Returned (with_results (Some []) st)).
  { unfold search. destruct Hcred as [-> | ->]; [done|].
    by destruct (negb (present (opt_or (BRIGHT_DATA_API_KEY cfg) (SERPAPI_API_KEY cfg)))). }
  rewrite Hs. cbn [and_then].
  assert (Hsyn : synthesize (w_json_loads w) (w_py_repr w) cfg (w_llm w)
                   (with_results (Some []) st)
                 = Returned (empty_synthesis (with_results (Some []) st))).
  { unfold synthesize. by destruct (negb (present (OPENAI_API_KEY cfg))). }
  rewrite Hsyn. cbn [and_then].
  assert (Hen : forall s, enrich_images (w_json_loads w) (w_urlparse w) (w_images w) cfg s
                          = (Returned s, [])).
  { intros s. unfold enrich_images. destruct Hcred as [-> | ->]; [done|].
    by rewrite orb_true_r. }
  rewrite Hen. cbn [fst]. reflexivity.
Qed.

(** X19.  Whenever a run of the pipeline returns, the state carries a
    payload whose question is the query, with at most five sources and
    at most two topics, each topic with exactly the keys [title] and
    [content]; there are at most ten results; the history is the one the
    run started with, or that one followed by one assistant turn. *)
Theorem pipeline_returned_payload (w : World) (cfg : Config) (st st' : AgentState) :
  run_pipeline w cfg st = Returned st' ->
  exists p,
    final_payload st' = Some p
    /\ p_question p = query st
    /\ (length (p_sources p) <= 5)%nat
    /\ (length (p_topics p) <= 2)%nat
    /\ Forall well_formed_topic (p_topics p)
    /\ (length (or_empty (results st')) <= 10)%nat
    /\ query st' = query st
    /\ (history st' = history st
        \/ exists content,
             PyVal.truthy content = true
             /\ history st'
                = (history st ++ [[("role", JStr "assistant"); ("content", content)]])%list).
Proof.
  intros Hrun.
  destruct (run_pipeline_cases w cfg st) as [(e & s & _ & Hp)|(st1 & st2 & Hs & _ & Hsyn & Hrest)];
    [congruence|].
  destruct Hrest as [(e & s & _ & Hp)|(st3 & Hen & Hfmt)]; [congruence|].
  rewrite Hrun in Hfmt.
  (* search *)
  pose proof (search_spec (w_json_loads w) (w_urlparse w) cfg (w_search w) st) as Hsearch.
  rewrite Hs in Hsearch. cbn [state_of returned] in Hsearch.
  destruct Hsearch as (Hq1 & Hh1 & _ & _ & _ & _ & _ & _ & _ & _ & Hres1).
  destruct (Hres1 eq_refl) as (rs & Hrs & Hrslen & _).
  (* synthesis *)
  destruct Hsyn as (_ & (ts & Hts & Htslen & Htsall) & (cs & Hcs & Hcslen & _)
                    & Hq2 & Hh2 & Hr2 & _).
  (* enrichment *)
  pose proof (enrich_images_spec (w_json_loads w) (w_urlparse w) (w_images w) cfg st2) as Henr.
  destruct (enrich_images (w_json_loads w) (w_urlparse w) (w_images w) cfg st2) as [o reqs].
  cbn [fst] in Hen. subst o. cbn [state_of] in Henr.
  destruct Henr as ((Hq3 & Hh3 & Hr3 & _ & _ & _ & Ht3 & _) & _ & Hc3 & _).
  apply Forall2_length in Hc3.
  (* formatting *)
  destruct (format_output_spec (w_model_dump w) (w_ts w) (w_fallback_ts w) st3)
    as (st4 & p & Hret & Hp & Hpq & _ & Hpt & Hps & _ & Hq4 & Hr4 & _ & _ & _ & _ & Hh4).
  rewrite Hret in Hfmt. injection Hfmt as <-.
  exists p. split; [done|]. split; [congruence|].
  rewrite Hcs in Hc3. cbn [or_empty default from_option id] in Hc3.
  split; [lia|].
  rewrite Hpt, Ht3, Hts. cbn [or_empty default from_option id].
  split; [done|]. split; [done|].
  split; [by rewrite Hr4, Hr3, Hr2, Hrs|].
  split; [congruence|].
  rewrite Hh3, Hh2, Hh1 in Hh4. done.
Qed.

(** ** The related-questions endpoint *)

Lemma lstrip_by_head (p : ascii -> bool) (s : string) (c : ascii) (r : string) :
  Py.lstrip_by p s = String c r -> p c = false.
Proof.
  induction s as [|d s IH]; [done|]. cbn [Py.lstrip_by].
  destruct (p d) eqn:Hd; [done|]. by intros [= <- _].
Qed.

Lemma strip_idempotent (s : string) : Py.strip (Py.strip s) = Py.strip s.
Proof.
  unfold Py.strip. set (t := Py.lstrip_by Py.is_space s).
  assert (Hl : Py.lstrip_by Py.is_space (Py.rstrip_by Py.is_space t)
               = Py.rstrip_by Py.is_space t).
  { destruct t as [|c r] eqn:Ht; [done|].
    pose proof (lstrip_by_head _ _ _ _ Ht) as Hc.
    rewrite rstrip_by_cons.
    destruct (Py.rstrip_by Py.is_space r); rewrite ?Hc; cbn [Py.lstrip_by]; by rewrite Hc. }
  rewrite Hl. apply rstrip_by_idempotent.
Qed.

Lemma clean_questions_spec (questions : json) :
  (length (clean_questions questions) <= 5)%nat
  /\ Forall (fun q => q <> "" /\ Py.strip q = q) (clean_questions questions).
Proof.
  unfold clean_questions. destruct questions as [| | | | |l|]; try (split; [cbn; lia | constructor]).
  split; [by apply (slice_to_length_le 5)|].
  apply slice_to_Forall, Forall_forall. intros q Hq.
  apply list_elem_of_omap in Hq as (e & _ & He).
  destruct e as [| | | |s| |]; try done.
  destruct (Py.truthy_str (Py.strip s)) eqn:Hs; [|done].
  injection He as <-. split; [by destruct (Py.strip s) | apply strip_idempotent].
Qed.

(** X21.  The related-questions endpoint refuses a blank query with
    status 422 and answers every other query, whatever the LLM call
    does, with at most five questions, none of them empty and none with
    white space at either end; without the LLM credential the list is
    empty. *)
Theorem related_questions_reply
    (json_loads : string -> option json) (cfg : Config) (llm : llm_outcome) (query : string) :
  (Py.strip query = "" -> related_questions json_loads cfg llm query = HTTPError 422)
  /\ (Py.strip query <> "" ->
      exists qs,
        related_questions json_loads cfg llm query = Reply qs
        /\ (length qs <= 5)%nat
        /\ Forall (fun q => q <> "" /\ Py.strip q = q) qs
        /\ (present (OPENAI_API_KEY cfg) = false -> qs = [])).
Proof.
  unfold related_questions. split.
  - by intros ->.
  - intros Hq. destruct (Py.strip query) as [|c r] eqn:Hs; [done|]. cbn [Py.truthy_str negb].
    assert (Hnil : exists qs : list string,
              Reply [] = Reply qs /\ (length qs <= 5)%nat
              /\ Forall (fun q => q <> "" /\ Py.strip q = q) qs
              /\ (present (OPENAI_API_KEY cfg) = false -> qs = [])).
    { exists []. split; [done|]. split; [cbn; lia|]. split; [constructor | done]. }
    destruct (present (OPENAI_API_KEY cfg)) eqn:Hkey; cbn [negb]; [|done].
    destruct llm as [|[|[content|] rest]]; try done.
    destruct (negb (Py.truthy_str content)); [done|].
    destruct (json_text (Py.strip content)) as [text|]; [|done].
    destruct (json_loads text) as [questions|]; [|done].
    exists (clean_questions questions). split; [done|].
    destruct (clean_questions_spec questions) as [Hlen Hall]. by repeat split.
Qed.

(** *** The text handed to the JSON decoder *)

Lemma is_not_false (c d : ascii) : is_not c d = true -> Ascii.eqb c d = false.
Proof. unfold is_not. by destruct (Ascii.eqb c d). Qed.

Lemma str_length_app (a b : string) :
  String.length (a ++ b) = (String.length a + String.length b)%nat.
Proof. induction a as [|c a IH]; [done|]. rewrite app_cons. cbn. by rewrite IH. Qed.

Lemma str_index_app (c : ascii) (pre rest : string) :
  string_forall (is_not c) pre = true ->
  str_index c (pre ++ String c rest) = Some (String.length pre).
Proof.
  induction pre as [|d pre IH]; intros H.
  - rewrite app_empty_l. cbn [str_index String.length]. by rewrite Ascii.eqb_refl.
  - cbn [string_forall] in H. apply andb_true_iff in H as [Hd Hpre].
    rewrite app_cons. cbn [str_index]. rewrite (is_not_false _ _ Hd), (IH Hpre). done.
Qed.

Lemma str_rindex_none (c : ascii) (post : string) :
  string_forall (is_not c) post = true -> str_rindex c post = None.
Proof.
  induction post as [|d post IH]; [done|]. cbn [string_forall str_rindex].
  intros [Hd Hpost]%andb_true_iff. by rewrite (IH Hpost), (is_not_false _ _ Hd).
Qed.

Lemma str_rindex_app (c : ascii) (x post : string) :
  string_forall (is_not c) post = true ->
  str_rindex c (x ++ String c post) = Some (String.length x).
Proof.
  intros H. induction x as [|d x IH].
  - rewrite app_empty_l. cbn [str_rindex String.length].
    by rewrite (str_rindex_none _ _ H), Ascii.eqb_refl.
  - rewrite app_cons. cbn [str_rindex]. by rewrite IH.
Qed.

Lemma take_app_length (a b : string) : Py.take (String.length a) (a ++ b) = a.
Proof. induction a as [|c a IH]; [by destruct b|]. rewrite app_cons. cbn. by rewrite IH. Qed.

Lemma str_slice_app (pre y : string) (n : nat) :
  str_slice (String.length pre) (String.length pre + n) (pre ++ y) = Py.take n y.
Proof.
  unfold str_slice. induction pre as [|c pre IH]; [done|].
  rewrite app_cons. cbn [String.length Nat.add Py.take Py.drop]. exact IH.
Qed.

Lemma contains_app (c : ascii) (pre rest : string) :
  Py.contains (String c EmptyString) (pre ++ String c rest) = true.
Proof.
  induction pre as [|d pre IH].
  - rewrite app_empty_l. cbn [Py.contains String.prefix].
    destruct (ascii_dec c c); [|done]. by rewrite prefix_empty.
  - rewrite app_cons. cbn [Py.contains].
    destruct (String.prefix (String c "") (String d (pre ++ String c rest))); [done | exact IH].
Qed.

Lemma last_char_app (x post : string) :
  post <> "" -> last_char (x ++ post) = last_char post.
Proof.
  intros Hne. induction x as [|c x IH]; [done|]. rewrite app_cons.
  cbn [last_char]. destruct (x ++ post) eqn:E; [|done].
  destruct x; [by rewrite app_empty_l in E | by rewrite app_cons in E].
Qed.

Lemma last_char_forall (q : ascii -> bool) (s : string) (c : ascii) :
  string_forall q s = true -> last_char s = Some c -> q c = true.
Proof.
  induction s as [|d s IH]; [done|]. cbn [string_forall].
  intros [Hd Hs]%andb_true_iff. destruct s as [|e s]; [by intros [= <-] | by apply IH].
Qed.

Lemma endswith_last (c : ascii) (s : string) :
  Py.endswith (String c EmptyString) s = true -> last_char s = Some c.
Proof.
  unfold Py.endswith. cbn [String.length].
  induction s as [|d s IH]; [done|].
  cbn [String.length]. replace (S (String.length s) - 1)%nat with (String.length s) by lia.
  destruct s as [|e s].
  - intros [_ H]%andb_true_iff. apply String.eqb_eq in H. cbn [String.length Py.drop] in H.
    by injection H as ->.
  - intros H. change (last_char (String d (String e s))) with (last_char (String e s)).
    apply IH. cbn [String.length] in *.
    replace (S (String.length s) - 1)%nat with (String.length s) by lia. exact H.
Qed.

(** X22.  When the content of the completion is a bracketed array with
    text around it (no opening bracket before the array, no closing
    bracket after it), the text handed to the JSON decoder is the array
    alone, from its opening to its closing bracket. *)
Theorem json_text_extracts_array (pre mid post : string) :
  string_forall (is_not "[") pre = true ->
  string_forall (is_not "]") post = true ->
  json_text (pre ++ "[" ++ mid ++ "]" ++ post) = Ok ("[" ++ mid ++ "]").
Proof.
  intros Hpre Hpost.
  change ("[" ++ mid ++ "]" ++ post) with (String "[" (mid ++ String "]" post)).
  change ("[" ++ mid ++ "]") with (String "[" (mid ++ "]")).
  unfold json_text.
  destruct (Py.startswith "[" (pre ++ String "[" (mid ++ String "]" post))
            && Py.endswith "]" (pre ++ String "[" (mid ++ String "]" post)))%bool eqn:Hfirst.
  - apply andb_true_iff in Hfirst as [Hs He].
    assert (pre = "") as ->.
    { destruct pre as [|d pre]; [done|]. cbn [string_forall] in Hpre.
      apply andb_true_iff in Hpre as [Hd _]. apply is_not_false in Hd.
      rewrite app_cons in Hs. unfold Py.startswith in Hs. cbn [String.prefix] in Hs.
      destruct (ascii_dec "[" d) as [<-|]; [|done]. by rewrite Ascii.eqb_refl in Hd. }
    assert (post = "") as ->.
    { destruct post as [|d post]; [done|]. exfalso.
      apply endswith_last in He.
      assert (Hassoc : "" ++ String "[" (mid ++ String "]" (String d post))
                       = (String "[" (mid ++ "]")) ++ String d post).
      { rewrite app_empty_l, app_cons, app_assoc_str. done. }
      rewrite Hassoc, last_char_app in He by done.
      pose proof (last_char_forall _ _ _ Hpost He) as Hq. by vm_compute in Hq. }
    by rewrite app_empty_l.
  - clear Hfirst.
    rewrite (contains_app "[" pre).
    assert (Hassoc : pre ++ String "[" (mid ++ String "]" post)
                     = (pre ++ String "[" mid) ++ String "]" post).
    { by rewrite app_assoc_str, app_cons. }
    rewrite Hassoc at 1. rewrite (contains_app "]"). cbn [andb].
    rewrite (str_index_app "[" pre _ Hpre).
    rewrite Hassoc at 1. rewrite (str_rindex_app "]" _ post Hpost).
    rewrite str_length_app. cbn [String.length].
    replace (String.length pre + S (String.length mid) + 1)%nat
      with (String.length pre + String.length (String "[" (mid ++ "]")))%nat
      by (cbn [String.length]; rewrite str_length_app; cbn; lia).
    rewrite str_slice_app.
    assert (Hsplit : String "[" (mid ++ String "]" post) = String "[" (mid ++ "]") ++ post).
    { by rewrite app_cons, app_assoc_str. }
    rewrite Hsplit. by rewrite take_app_length.
Qed.

(** ** The search stage: snippets *)

Section SnippetFacts.

Variable urlparse : string -> res (string * string).

Lemma parse_organic_snippets (r : json) (x : SearchResult) :
  parse_organic urlparse r = Ok (Some x) ->
  exists d,
    r = JObj d
    /\ (sr_extended_snippet x = None <-> sr_snippet x = "")
    /\ (forall s, sr_extended_snippet x = Some s ->
          s <> ""
          /\ (PyVal.dict_get d "snippet" (JStr "") = JStr s
              \/ (PyVal.truthy (PyVal.dict_get d "snippet" (JStr "")) = false
                  /\ PyVal.dict_get d "description" (JStr "") = JStr s))).
Proof.
  destruct r as [| | | | | |d]; try discriminate. unfold parse_organic.
  destruct (negb (PyVal.truthy (PyVal.dict_get d "link" JNull))); [discriminate|].
  match goal with
  | |- res_bind ?r _ = _ -> _ => destruct r as [[url domain]|]; [|discriminate]
  end.
  cbn [res_bind].
  destruct (as_str (PyVal.dict_get d "title" (JStr ""))) as [title|]; [|discriminate].
  cbn [res_bind].
  remember (PyVal.dict_get d "description" (JStr "")) as description eqn:Hde.
  remember (PyVal.dict_get d "snippet" (JStr "")) as snippet eqn:Hsn.
  destruct (as_str (PyVal.por (PyVal.por description snippet) (JStr ""))) as [snip|] eqn:Hsnip;
    [|discriminate].
  cbn [res_bind].
  destruct (as_opt_str (if PyVal.truthy snippet then snippet
                        else if PyVal.truthy description then description else JNull))
    as [ext|] eqn:Hext; [|discriminate].
  cbn [res_bind].
  repeat match goal with
         | |- res_bind ?r _ = _ -> _ => destruct r; cbn [res_bind]; [|discriminate]
         end.
  intros [= <-]. exists d. split; [done|]. cbn [sr_extended_snippet sr_snippet].
  unfold PyVal.por in Hsnip.
  destruct (PyVal.truthy snippet) eqn:Hts; destruct (PyVal.truthy description) eqn:Htd;
    cbn [PyVal.truthy] in Hsnip; rewrite ?Htd, ?Hts in Hsnip; cbn [PyVal.truthy] in Hsnip.
  - destruct snippet as [| | | |s| |]; try discriminate. injection Hext as <-.
    destruct description as [| | | |s'| |]; try discriminate. injection Hsnip as <-.
    cbn [PyVal.truthy] in Hts, Htd. split.
    + split; [discriminate | intros ->; discriminate].
    + intros ? [= <-]. split; [intros ->; discriminate | by left].
  - destruct snippet as [| | | |s| |]; try discriminate. injection Hext as <-.
    injection Hsnip as <-. cbn [PyVal.truthy] in Hts. split.
    + split; [discriminate | intros ->; discriminate].
    + intros ? [= <-]. split; [intros ->; discriminate | by left].
  - destruct description as [| | | |s'| |]; try discriminate. injection Hext as <-.
    injection Hsnip as <-. cbn [PyVal.truthy] in Htd. split.
    + split; [discriminate | intros ->; discriminate].
    + intros ? [= <-]. split; [intros ->; discriminate | right; by rewrite <- Hsn].
  - injection Hext as <-. injection Hsnip as <-. split; [done|]. discriminate.
Qed.

Lemma append_results_Forall (P : SearchResult -> Prop) (entries : list json)
    (acc rs : list SearchResult) (oe : option exn) :
  (forall r x, parse_organic urlparse r = Ok (Some x) -> P x) ->
  Forall P acc ->
  append_results urlparse entries acc = (oe, rs) -> Forall P rs.
Proof.
  intros HP. revert acc. induction entries as [|e entries IH]; intros acc Hacc;
    cbn [append_results].
  - by intros [= _ <-].
  - destruct (parse_organic urlparse e) as [[x|]|err] eqn:He.
    + apply IH. apply Forall_app. split; [done|]. repeat constructor. by eapply HP.
    + by apply IH.
    + by intros [= _ <-].
Qed.

Lemma read_response_Forall (P : SearchResult -> Prop) (json_loads : string -> option json)
    (api_response : json) (st st' : AgentState) :
  (forall r x, parse_organic urlparse r = Ok (Some x) -> P x) ->
  read_response json_loads urlparse api_response st = Returned st' ->
  Forall P (or_empty (results st')).
Proof.
  intros HP. unfold read_response.
  destruct (PyVal.get api_response "body" (JObj [])) as [body|]; [|discriminate].
  destruct (match body with
            | JStr text => match json_loads text with Some v => Ok v | None => Err JSONDecodeError end
            | _ => Ok body
            end) as [[| | | | | |b]|]; try discriminate.
  destruct (extract_overview_image b); [|discriminate].
  destruct (slice_items 10 (PyVal.dict_get b "organic" (JArr []))) as [organic|]; [|discriminate].
  destruct (append_results urlparse organic []) as [[e|] rs] eqn:Happ; [discriminate|].
  intros [= <-]. cbn [results with_results or_empty default from_option id].
  eapply append_results_Forall; [exact HP | constructor | exact Happ].
Qed.

End SnippetFacts.

(** X7.  Whenever the search stage returns, a result has an extended
    snippet exactly when its snippet is not empty, and an extended
    snippet is never the empty string. *)
Theorem search_results_snippets
    (json_loads : string -> option json) (urlparse : string -> res (string * string))
    (cfg : Config) (http : http_outcome) (st st' : AgentState) :
  search json_loads urlparse cfg http st = Returned st' ->
  Forall (fun r => (sr_extended_snippet r = None <-> sr_snippet r = "")
                   /\ sr_extended_snippet r <> Some "")
    (or_empty (results st')).
Proof.
  unfold search.
  destruct (negb (present (opt_or (BRIGHT_DATA_API_KEY cfg) (SERPAPI_API_KEY cfg))));
    [intros [= <-]; constructor|].
  destruct (negb (present (SERP_ZONE cfg))); [intros [= <-]; constructor|].
  destruct http as [|api_response]; [intros [= <-]; constructor|].
  apply read_response_Forall. intros r x Hx.
  destruct (parse_organic_snippets urlparse r x Hx) as (d & _ & Hiff & Hne).
  split; [done|]. intros Hs. by destruct (Hne _ Hs) as [? _].
Qed.

(** ** The theorems at worked inputs *)

(** C1 at a concrete input: credentials set, a response whose body is
    an HTML page. *)
Lemma search_propagates_json_decode_error_witness :
  search (decode_table []) no_urlparse keyed_config (HttpJson (JObj blocked_response))
    (initial_state "what is rocq")
  = Propagated JSONDecodeError (initial_state "what is rocq")
  /\ forall w : World,
       w_json_loads w = decode_table [] -> w_urlparse w = no_urlparse ->
       w_search w = HttpJson (JObj blocked_response) ->
       run_pipeline w keyed_config (initial_state "what is rocq")
       = Propagated JSONDecodeError (initial_state "what is rocq")
       /\ final_payload (state_of (run_pipeline w keyed_config
                                     (initial_state (query (initial_state "what is rocq")))))
          = None.
Proof.
  apply (search_propagates_json_decode_error (decode_table []) no_urlparse keyed_config
           (initial_state "what is rocq") blocked_response "<html>blocked</html>");
    reflexivity.
Defined.

(** C7 at a concrete input: no credential at all. *)
Lemma enrich_images_without_credential_witness :
  enrich_images (decode_table []) no_urlparse (fun _ => TransportError) bare_config
    synthesized_state
  = (Returned synthesized_state, []).
Proof.
  apply (enrich_images_without_credential (decode_table []) no_urlparse
           (fun _ => TransportError) bare_config synthesized_state).
  left. reflexivity.
Defined.

(** C10 at a concrete input: the second of two citations fails to
    serialize. *)
Lemma format_output_history_kept_on_failure_witness :
  format_output failing_dump "2026-01-01T00:00:00+00:00" "2026-01-01T00:00:01+00:00"
    synthesized_state
  = Returned
      (with_final_payload
         (Some (mkPayload (query synthesized_state) (JStr "Rocq is a proof assistant [1].")
                  (overview_image synthesized_state)
                  (or_empty (topics synthesized_state)) [] "2026-01-01T00:00:01+00:00"))
         (with_history
            (history synthesized_state
             ++ [assistant_turn (history_text "Rocq is a proof assistant [1]."
                                   (or_empty (topics synthesized_state)))])%list
            synthesized_state)).
Proof.
  apply (format_output_history_kept_on_failure failing_dump
           "2026-01-01T00:00:00+00:00" "2026-01-01T00:00:01+00:00" synthesized_state
           "Rocq is a proof assistant [1]." (mkCitation 2 "B" "http://b.com/" None None)
           TypeError).
  - reflexivity.
  - reflexivity.
  - vm_compute. repeat constructor.
  - reflexivity.
Defined.

(** C6 at a concrete input: five proposed entries, three of them
    malformed; the first, which is well formed, survives. *)
Lemma synthesize_citations_prefix_of_valid_witness :
  exists kept : list (json * Citation),
    citations (state_of (synthesize (decode_table [("synthesis", JObj synthesis_json)])
                           no_repr keyed_config (LLMChoices [Some "synthesis"])
                           (state_with_results three_sites)))
    = Some (firstn 5 kept.*2)
    /\ sublist kept.*1 proposed_citations
    /\ Forall (fun ec => citation_of_entry ec.1 ec.2) kept
    /\ exists c,
         (JObj [("id", JInt 1); ("title", JStr "A"); ("url", JStr "https://www.a.com/x")], c)
           ∈ kept
         /\ cit_id c = 1 /\ cit_title c = "A" /\ cit_url c = "https://www.a.com/x".
Proof.
  destruct (synthesize_citations_prefix_of_valid
              (decode_table [("synthesis", JObj synthesis_json)]) no_repr keyed_config
              (state_with_results three_sites) "synthesis" [] synthesis_json)
    as (kept & Hstored & _ & Hsub & Hbuilt & _ & Hvalid & _).
  - reflexivity.
  - discriminate.
  - reflexivity.
  - reflexivity.
  - exists kept. split; [exact Hstored|]. split; [exact Hsub|]. split.
    + eapply Forall_impl; [exact Hbuilt|]. intros ec [_ H]. exact H.
    + destruct (Hvalid (JObj [("id", JInt 1); ("title", JStr "A");
                              ("url", JStr "https://www.a.com/x")])
                  1 "A" "https://www.a.com/x") as (c & Hin & Hid & Ht & Hu & _).
      * vm_compute. repeat constructor.
      * eexists _, _. repeat split; reflexivity.
      * exists c. split; [exact Hin|]. split; [exact Hid|]. split; [exact Ht | exact Hu].
Defined.

Example synthesize_citations_example :
  cit_id <$> or_empty (citations
    (state_of (synthesize (decode_table [("synthesis", JObj synthesis_json)])
                 no_repr keyed_config (LLMChoices [Some "synthesis"])
                 (state_with_results three_sites))))
  = [1; 3].
Proof. by vm_compute. Qed.

Example normalize_example_scheme_twice :
  _normalize_url "http://https://www.x.org/" = "x.org".
Proof. reflexivity. Qed.

Example match_same_host_example : _match_url "https://a.com/x" "a.com/y/" = true.
Proof. reflexivity. Qed.

Example match_other_host_example : _match_url "https://a.com/x" "b.com/x" = false.
Proof. reflexivity. Qed.

Example int_of_str_examples :
  PyVal.int_of_str " -1_0 " = Ok (-10) /\ PyVal.int_of_str "1__0" = Err ValueError
  /\ PyVal.int_of_str "+7" = Ok 7 /\ PyVal.int_of_str "" = Err ValueError.
Proof. by vm_compute. Qed.

(** X5 at a concrete input: a response with three organic entries. *)
Lemma search_returned_state_witness :
  exists rs,
    results searched_state = Some rs
    /\ (length rs <= 10)%nat
    /\ Forall (fun r => Py.truthy_str (sr_url r) = true /\ reputability_score r = None) rs.
Proof.
  destruct (search_returned_state (decode_table []) no_urlparse keyed_config
              (HttpJson (JObj serp_response)) (initial_state "what is rocq") searched_state)
    as ((rs & Hrs & Hlen & Hall) & _).
  - vm_compute. reflexivity.
  - exists rs. split; [exact Hrs|]. split; [exact Hlen|].
    eapply Forall_impl; [exact Hall|]. intros r (H1 & H2 & _). split; [exact H1 | exact H2].
Defined.

(** X6 at the same input: the entry without a link is skipped. *)
Lemma search_results_follow_organic_witness :
  exists rs,
    results searched_state = Some rs
    /\ (fun r => JStr (sr_url r)) <$> rs
       = List.filter PyVal.truthy (entry_link <$> take 10 serp_organic)
    /\ Forall (fun e => exists d, e = JObj d) (take 10 serp_organic).
Proof.
  apply (search_results_follow_organic (decode_table []) no_urlparse keyed_config
           serp_response serp_body serp_organic (initial_state "what is rocq") searched_state);
    (vm_compute; reflexivity).
Defined.

(** X7 at the same input. *)
Lemma search_results_snippets_witness :
  Forall (fun r => (sr_extended_snippet r = None <-> sr_snippet r = "")
                   /\ sr_extended_snippet r <> Some "")
    (or_empty (results searched_state)).
Proof.
  apply (search_results_snippets (decode_table []) no_urlparse keyed_config
           (HttpJson (JObj serp_response)) (initial_state "what is rocq") searched_state).
  vm_compute. reflexivity.
Defined.

(** X11 at a concrete input: a completion that is not JSON. *)
Lemma synthesize_degrades_to_empty_witness :
  synthesize (decode_table []) no_repr keyed_config
    (LLMChoices [Some "Sorry, I cannot answer."]) (state_with_results three_sites)
  = Returned (mkState (query (state_with_results three_sites))
                (history (state_with_results three_sites))
                (results (state_with_results three_sites))
                (ranked_results (state_with_results three_sites))
                (JStr "") (JStr "") (overview_image (state_with_results three_sites))
                (Some []) (Some []) (final_payload (state_with_results three_sites))).
Proof.
  apply (synthesize_degrades_to_empty (decode_table []) no_repr keyed_config
           (LLMChoices [Some "Sorry, I cannot answer."]) (state_with_results three_sites)).
  do 6 right. exists "Sorry, I cannot answer.", []. split; [reflexivity|]. left. vm_compute. reflexivity.
Defined.

(** X15 at a concrete input: credentials set, the provider down. *)
Lemma enrich_images_provider_down_witness :
  state_of (fst (enrich_images (decode_table []) no_urlparse (fun _ => TransportError)
                   keyed_config synthesized_state))
  = synthesized_state.
Proof.
  apply (enrich_images_provider_down (decode_table []) no_urlparse (fun _ => TransportError)
           keyed_config synthesized_state).
  intros q. vm_compute. reflexivity.
Defined.

(** X17 at a concrete input: two citations that serialize. *)
Lemma format_output_sources_are_citations_witness :
  final_payload (state_of (format_output plain_dump "2026-01-01T00:00:00+00:00"
                             "2026-01-01T00:00:01+00:00" synthesized_state))
  = Some (mkPayload (query synthesized_state) (chosen_overview synthesized_state)
            (overview_image synthesized_state) (or_empty (topics synthesized_state))
            (citation_dump <$> or_empty (citations synthesized_state))
            "2026-01-01T00:00:00+00:00").
Proof.
  apply (format_output_sources_are_citations plain_dump "2026-01-01T00:00:00+00:00"
           "2026-01-01T00:00:01+00:00" synthesized_state).
  - vm_compute. reflexivity.
  - vm_compute. reflexivity.
  - intros c _. vm_compute. reflexivity.
Defined.

(** X18 at a concrete input: no credential at all. *)
Lemma pipeline_without_search_credential_witness :
  run_pipeline answering_world bare_config (initial_state "what is rocq")
  = Returned (mkState "what is rocq" (history (initial_state "what is rocq")) (Some []) None
                (JStr "") (JStr "") JNull (Some []) (Some [])
                (Some (mkPayload "what is rocq" (JStr "") JNull [] []
                         "2026-01-01T00:00:00+00:00"))).
Proof.
  apply (pipeline_without_search_credential answering_world bare_config
           (initial_state "what is rocq")).
  left. vm_compute. reflexivity.
Defined.

(** X19 at a concrete input: a run that answers. *)
Lemma pipeline_returned_payload_witness :
  exists p,
    final_payload answered_state = Some p
    /\ p_question p = "what is rocq"
    /\ (length (p_sources p) <= 5)%nat
    /\ (length (p_topics p) <= 2)%nat.
Proof.
  destruct (pipeline_returned_payload answering_world keyed_config
              (initial_state "what is rocq") answered_state)
    as (p & Hp & Hq & Hs & Ht & _).
  - vm_compute. reflexivity.
  - exists p. split; [exact Hp|]. split; [exact Hq|]. split; [exact Hs | exact Ht].
Defined.

(** X22 at a concrete input: an array with a sentence before and after
    it. *)
Lemma json_text_extracts_array_witness :
  json_text ("Here are the questions: " ++ "[" ++ "1, 2" ++ "]" ++ " Hope this helps.")
  = Ok ("[" ++ "1, 2" ++ "]").
Proof.
  apply (json_text_extracts_array "Here are the questions: " "1, 2" " Hope this helps.");
    (vm_compute; reflexivity).
Defined.

Example pipeline_answer_example :
  (fun p => (p_question p, p_overview_image p, length (p_sources p)))
    <$> final_payload answered_state
  = Some ("what is rocq", JStr "https://img.example/kg.png", 2%nat).
Proof. by vm_compute. Qed.

Example related_questions_example :
  related_questions
    (decode_table [("[1, 2]", JArr [JStr " What is Coq? "; JInt 3; JStr "  "; JStr "Who uses Rocq?"])])
    keyed_config (LLMChoices [Some "Sure: [1, 2] -- enjoy"]) " rocq "
  = Reply ["What is Coq?"; "Who uses Rocq?"].
Proof. by vm_compute. Qed.

Example related_questions_blank_example :
  related_questions (decode_table []) keyed_config LLMError "   " = HTTPError 422.
Proof. by vm_compute. Qed.

(** C2 at a concrete input: three results, two entries that resolve to
    the second and the third. *)
Lemma ranking_raises_at_score_assignment_witness :
  run_loop rank_entry (ranking_json two_ranks) (∅, result_at <$> three_sites)
  = (Some ValueError, (∅, result_at <$> three_sites))
  /\ prioritize_sources (decode_table [("ranking", JArr (ranking_json two_ranks))])
       keyed_config (LLMChoices [Some "ranking"]) (state_with_results three_sites)
     = Propagated ValueError (state_with_results three_sites).
Proof.
  destruct (ranking_raises_at_score_assignment
              (decode_table [("ranking", JArr (ranking_json two_ranks))])
              keyed_config (state_with_results three_sites) (result_at <$> three_sites)
              "ranking" [] (ranking_json two_ranks) two_ranks)
    as (Hloop & _ & _ & Hout & _).
  - reflexivity.
  - reflexivity.
  - reflexivity.
  - reflexivity.
  - repeat constructor; eexists; repeat split; reflexivity.
  - repeat constructor; vm_compute; eexists; reflexivity.
  - exists ("b.com/page", 1). split; [repeat constructor|]. vm_compute. eexists. reflexivity.
  - split; [exact Hloop | exact Hout].
Defined.

(** C3 at a concrete input: seven results, a completion that is not
    JSON. *)
Lemma ranking_fallback_raises_witness :
  prioritize_sources (decode_table []) keyed_config
    (LLMChoices [Some "Sorry, I cannot rank these."]) (state_with_results seven_sites)
  = Propagated ValueError (state_with_results seven_sites)
  /\ ranked_results
       (state_of (prioritize_sources (decode_table []) keyed_config
                    (LLMChoices [Some "Sorry, I cannot rank these."])
                    (state_with_results seven_sites)))
     = None.
Proof.
  destruct (ranking_fallback_raises (decode_table []) keyed_config
              (LLMChoices [Some "Sorry, I cannot rank these."])
              (state_with_results seven_sites) (result_at <$> seven_sites))
    as (Hfb & Ho & _ & Hranked & _).
  - reflexivity.
  - discriminate.
  - apply degraded_not_json. reflexivity.
  - split; [rewrite <- Hfb; exact Ho | exact Hranked].
Defined.


(** X1 at a concrete input. *)
Lemma normalize_url_shape_witness :
  string_forall (fun c => negb (is_upper c)) (_normalize_url " HTTP://WWW.Example.com/Path// ")
  = true
  /\ last_char (_normalize_url " HTTP://WWW.Example.com/Path// ") <> Some "/"%char
  /\ (String.length (_normalize_url " HTTP://WWW.Example.com/Path// ")
      <= String.length " HTTP://WWW.Example.com/Path// ")%nat.
Proof.
  apply (normalize_url_shape " HTTP://WWW.Example.com/Path// ").
  vm_compute. reflexivity.
Defined.
